(** * Godot MCP bridge: a shallow embedding of [godot_mcp.py] and
    [save_godot.py]

    The two programs expose the same tool surface around one engine
    executable.  [godot_mcp.py] (class [GodotMCP], the FastMCP variant)
    raises Python exceptions; [save_godot.py] (class [GodotServer], the
    stdio variant) returns error-shaped result payloads.

    Conventions of the embedding:
    - Python [str] is [string]; the string primitives used by the source
      are written out in [Module Py] on bytes.  [lower] and [strip] act on
      the ASCII range, which is exact for the suffixes and separators the
      source tests.
    - The host is POSIX: [os.sep] is ["/"], [os.path] is [posixpath] and
      [platform.system()] is not ['Windows'], so every [shell] flag of the
      source is [False] and the [if shell:] branches are not taken.
    - Effects are explicit: a tool is a function from the manager state to
      an outcome and a new state; the state carries the trace of
      filesystem and process interactions in program order. *)

From Stdlib Require Import String Ascii List ZArith Bool Arith Lia DecimalString.
From Stdlib Require DecimalZ.
Import ListNotations.
Set Warnings "-register-all".
Open Scope list_scope.
Open Scope string_scope.

(** ** Python string primitives *)

Module Py.

  (** [s.split(sep)] for a one-character separator. *)
Fixpoint split (sep : ascii) (s : string) : list string :=
    match s with
    | EmptyString => [EmptyString]
    | String c s' =>
        if Ascii.eqb c sep then EmptyString :: split sep s'
        else match split sep s' with
             | [] => [String c EmptyString]
             | w :: ws => String c w :: ws
             end
    end.

  (** [sep.join(parts)]. *)
Fixpoint join (sep : string) (parts : list string) : string :=
    match parts with
    | [] => EmptyString
    | [p] => p
    | p :: ps => p ++ sep ++ join sep ps
    end.

  (** [s.startswith(p)]. *)
Definition startswith (s p : string) : bool := String.prefix p s.

  (** [s.endswith(p)]: [s] is [p], or what follows the first character
      of [s] ends with [p]. *)
Fixpoint endswith (s p : string) : bool :=
    String.eqb s p
    || match s with
       | EmptyString => false
       | String _ s' => endswith s' p
       end.

  (** [sub in s]. *)
Fixpoint contains (s sub : string) : bool :=
    String.prefix sub s
    || match s with
       | EmptyString => false
       | String _ s' => contains s' sub
       end.

  (** [x in xs] for a list of strings. *)
Fixpoint mem (x : string) (xs : list string) : bool :=
    match xs with
    | [] => false
    | y :: ys => String.eqb x y || mem x ys
    end.

Definition lower_char (c : ascii) : ascii :=
    let n := nat_of_ascii c in
    if ((65 <=? n) && (n <=? 90))%nat then ascii_of_nat (n + 32) else c.

  (** [s.lower()]. *)
Fixpoint lower (s : string) : string :=
    match s with
    | EmptyString => EmptyString
    | String c s' => String (lower_char c) (lower s')
    end.

  (** The characters [str.strip()] and [int()] treat as white space:
      TAB, LF, VT, FF, CR, FS, GS, RS, US and the space. *)
Definition is_space (c : ascii) : bool :=
    let n := nat_of_ascii c in
    (((9 <=? n) && (n <=? 13)) || ((28 <=? n) && (n <=? 32)))%nat.

Fixpoint lstrip (s : string) : string :=
    match s with
    | EmptyString => EmptyString
    | String c s' => if is_space c then lstrip s' else s
    end.

Fixpoint rstrip (s : string) : string :=
    match s with
    | EmptyString => EmptyString
    | String c s' =>
        match rstrip s' with
        | EmptyString => if is_space c then EmptyString else String c EmptyString
        | r => String c r
        end
    end.

  (** [s.strip()]. *)
Definition strip (s : string) : string := rstrip (lstrip s).

  (** [not s]: the empty string is falsy. *)
Definition falsy (s : string) : bool :=
    match s with EmptyString => true | _ => false end.

Definition is_digit (c : ascii) : bool :=
    let n := nat_of_ascii c in ((48 <=? n) && (n <=? 57))%nat.

Definition digit_val (c : ascii) : Z := Z.of_nat (nat_of_ascii c - 48).

  (** The digit part of a decimal literal accepted by [int()]: digits
      with single underscores between them.  [prev] tells whether the
      previous character was a digit. *)
Fixpoint digits_value (acc : Z) (prev : bool) (s : string) : option Z :=
    match s with
    | EmptyString => if prev then Some acc else None
    | String c s' =>
        if is_digit c then digits_value (10 * acc + digit_val c)%Z true s'
        else if Ascii.eqb c "_"%char then
               if prev then digits_value acc false s' else None
        else None
    end.

  (** [int(s)] in base ten; [None] stands for [ValueError]. *)
Definition int (s : string) : option Z :=
    match strip s with
    | String "-"%char r => option_map Z.opp (digits_value 0 false r)
    | String "+"%char r => digits_value 0 false r
    | r => digits_value 0 false r
    end.

  (** [s[:n]]. *)
Definition take (n : nat) (s : string) : string := substring 0 n s.

End Py.

(** ** [posixpath] *)

Module PosixPath.

Definition sep : ascii := "/"%char.

  (** [os.path.isabs]. *)
Definition isabs (p : string) : bool := Py.startswith p "/".

  (** [os.path.join(a, b)] with two arguments. *)
Definition join (a b : string) : string :=
    if Py.startswith b "/" then b
    else if Py.falsy a || Py.endswith a "/" then a ++ b
    else a ++ "/" ++ b.

  (** [os.path.basename]: what follows the last slash. *)
Definition basename (p : string) : string := last (Py.split sep p) EmptyString.

  (** The loop of [normpath] over the components; [acc] is [new_comps]
      in reverse. *)
Fixpoint norm_comps (initial_slashes : nat) (acc : list string)
           (comps : list string) : list string :=
    match comps with
    | [] => rev acc
    | comp :: rest =>
        if String.eqb comp "" || String.eqb comp "." then
          norm_comps initial_slashes acc rest
        else if negb (String.eqb comp "..")
                || ((initial_slashes =? 0)%nat
                    && match acc with [] => true | _ => false end)
                || match acc with
                   | top :: _ => String.eqb top ".."
                   | [] => false
                   end
        then norm_comps initial_slashes (comp :: acc) rest
        else match acc with
             | _ :: acc' => norm_comps initial_slashes acc' rest
             | [] => norm_comps initial_slashes acc rest
             end
    end.

  (** [os.path.normpath]. *)
Definition normpath (path : string) : string :=
    if Py.falsy path then "."
    else
      let initial_slashes :=
        if Py.startswith path "/" then
          if Py.startswith path "//" && negb (Py.startswith path "///")
          then 2%nat else 1%nat
        else 0%nat in
      let comps := norm_comps initial_slashes [] (Py.split sep path) in
      let body := Py.join "/" comps in
      let path' :=
        match initial_slashes with
        | 0%nat => body
        | 1%nat => "/" ++ body
        | _ => "//" ++ body
        end in
      if Py.falsy path' then "." else path'.

  (** [os.path.abspath], in a process whose working directory is [cwd]. *)
Definition abspath (cwd path : string) : string :=
    normpath (if isabs path then path else join cwd path).

End PosixPath.

(** ** Helpers shared by both programs

    [validate_path] and [is_godot_44_or_later] are defined identically in
    [godot_mcp.py] and [save_godot.py]. *)

(** [validate_path]: rejects the empty path and any path with a [..]
    component. *)
Definition validate_path (path : string) : bool :=
  if Py.falsy path || Py.mem ".." (Py.split PosixPath.sep path) then false
  else true.

(** [is_godot_44_or_later]: a [ValueError] of [int] is swallowed and the
    function falls through to [return False]. *)
Definition is_godot_44_or_later (version : string) : bool :=
  let parts := Py.split "."%char version in
  if (2 <=? List.length parts)%nat then
    match Py.int (nth 0 parts "") with
    | None => false
    | Some major =>
        match Py.int (nth 1 parts "") with
        | None => false
        | Some minor =>
            (major >? 4)%Z || ((major =? 4)%Z && (minor >=? 4)%Z)
        end
    end
  else false.

(** ** The world: filesystem, child processes, exceptions *)

(** A directory tree.  The entries of a directory are kept in listing
    order, the order [os.listdir] and [os.walk] report them in. *)
Inductive node : Type :=
| File
| Dir (entries : list (string * node)).

Definition is_dir (n : node) : bool :=
  match n with Dir _ => true | File => false end.

Fixpoint assoc (name : string) (es : list (string * node)) : option node :=
  match es with
  | [] => None
  | (k, v) :: es' => if String.eqb k name then Some v else assoc name es'
  end.

(** Kernel path resolution over the components of a path: empty and [.]
    components stay in place, [..] moves to the parent (the root is its
    own parent), a name is looked up in the current directory. *)
Fixpoint resolve (anc : list node) (cur : node) (comps : list string)
  : option node :=
  match comps with
  | [] => Some cur
  | c :: comps' =>
      match cur with
      | File => None
      | Dir es =>
          if String.eqb c "" || String.eqb c "." then resolve anc cur comps'
          else if String.eqb c ".." then
                 match anc with
                 | [] => resolve [] cur comps'
                 | parent :: anc' => resolve anc' parent comps'
                 end
          else match assoc c es with
               | Some n => resolve (cur :: anc) n comps'
               | None => None
               end
      end
  end.

Definition pid := nat.

Inductive pstatus : Type :=
| Alive
| Exited (returncode : Z).

Definition alive (st : pstatus) : bool :=
  match st with Alive => true | Exited _ => false end.

(** A child process as the manager can observe it.  [p_term] is how the
    child reacts to SIGTERM: [Some (d, rc)] exits [d] seconds after the
    signal with return code [rc], [None] ignores the signal. *)
Record proc : Type := mkProc {
  p_cmd : list string;
  p_status : pstatus;
  p_signalled : bool;
  p_term : option (nat * Z);
}.

Inductive exn_class : Type :=
| ValueError | RuntimeError | TypeError
| FileNotFoundError | NotADirectoryError | PermissionError | OSError
| BuiltinTimeoutError.

(** Python exceptions.  The two [subprocess] exceptions carry the fields
    the source reads from them. *)
Inductive exn : Type :=
| PyExn (cls : exn_class) (msg : string)
| CalledProcessError (returncode : Z) (cmd : list string) (stdout stderr : string)
| TimeoutExpired (cmd : list string) (timeout : nat).

Definition is_FileNotFoundError (e : exn) : bool :=
  match e with PyExn FileNotFoundError _ => true | _ => false end.
Definition is_NotADirectoryError (e : exn) : bool :=
  match e with PyExn NotADirectoryError _ => true | _ => false end.
Definition is_PermissionError (e : exn) : bool :=
  match e with PyExn PermissionError _ => true | _ => false end.
Definition is_RuntimeError (e : exn) : bool :=
  match e with PyExn RuntimeError _ => true | _ => false end.
Definition is_ValueError (e : exn) : bool :=
  match e with PyExn ValueError _ => true | _ => false end.
Definition is_TypeError (e : exn) : bool :=
  match e with PyExn TypeError _ => true | _ => false end.
Definition is_BuiltinTimeoutError (e : exn) : bool :=
  match e with PyExn BuiltinTimeoutError _ => true | _ => false end.
Definition is_CalledProcessError (e : exn) : bool :=
  match e with CalledProcessError _ _ _ _ => true | _ => false end.
Definition is_TimeoutExpired (e : exn) : bool :=
  match e with TimeoutExpired _ _ => true | _ => false end.

(** What one non-interactive run of the engine does, as [subprocess.run]
    sees it. *)
Inductive run_behaviour : Type :=
| RunExits (seconds : nat) (returncode : Z) (stdout stderr : string)
| RunHangs
| RunLaunchFails (e : exn).

(** What a [Popen] of the interactive engine does: the launch may fail;
    otherwise [sb_early_out]/[sb_early_err] are the lines the readers
    enqueue during the grace delay after the launch and [sb_early_exit]
    tells whether the child is already gone when the delay ends. *)
Record spawn_behaviour : Type := mkSpawn {
  sb_launch : option exn;
  sb_early_out : list string;
  sb_early_err : list string;
  sb_early_exit : option Z;
  sb_term : option (nat * Z);
}.

(** Values of the parameter dictionaries handed to the operations
    script. *)
Inductive pvalue : Type :=
| PStr (s : string)
| PList (l : list pvalue)
| PDict (d : list (string * pvalue)).

(** Interactions with the filesystem and with child processes, in
    program order.  [EvRun] is one [subprocess.run], tagged with the
    place of the call: the [--version] query or the operations script.
    [EvPopen] is the launch of a session child; [live] lists the
    children that are running at the moment of the launch. *)
Inductive run_site : Type :=
| SiteVersion
| SiteOperation.

Inductive event : Type :=
| EvExists (path : string)
| EvIsdir (path : string)
| EvListdir (path : string)
| EvWalk (path : string)
| EvDetect
| EvRun (site : run_site) (p : pid) (cmd : list string) (timeout : option nat)
| EvPopen (p : pid) (cmd : list string) (live : list pid)
| EvSleep
| EvTerminate (p : pid)
| EvWait (p : pid) (timeout : nat)
| EvKill (p : pid).

(** The three ways the source calls [json.dumps]: with the default
    separators, with [separators=(',', ':')], with [indent=2]. *)
Inductive json_style : Type :=
| JsonDefault
| JsonCompact
| JsonIndent2.

(** The environment of one tool call.  [json_dumps], [str_called] and
    [str_timeout] are the renderings of the Python library ([json.dumps],
    [str(e)] of the two [subprocess] exceptions); [detected_path] is the
    executable the path resolver settles on, if any. *)
Record env : Type := mkEnv {
  fs : node;
  cwd : string;
  operations_script_path : string;
  GODOT_DEBUG_MODE : bool;
  detected_path : option string;
  run_oracle : pid -> list string -> run_behaviour;
  spawn_oracle : pid -> list string -> spawn_behaviour;
  json_dumps : json_style -> pvalue -> string;
  str_called : list string -> Z -> string;
  str_timeout : list string -> nat -> string;
}.

(** The manager object ([self]) together with the table of the children
    it has spawned and the trace of its interactions. *)
Record state : Type := mkState {
  active_process : option pid;
  active_process_output : list string;
  active_process_errors : list string;
  stdout_queue : list string;
  stderr_queue : list string;
  godot_path : option string;
  procs : list proc;
  trace : list event;
}.

Definition set_active (v : option pid) (s : state) : state :=
  mkState v (active_process_output s) (active_process_errors s)
          (stdout_queue s) (stderr_queue s) (godot_path s) (procs s) (trace s).
Definition set_output (v : list string) (s : state) : state :=
  mkState (active_process s) v (active_process_errors s)
          (stdout_queue s) (stderr_queue s) (godot_path s) (procs s) (trace s).
Definition set_errors (v : list string) (s : state) : state :=
  mkState (active_process s) (active_process_output s) v
          (stdout_queue s) (stderr_queue s) (godot_path s) (procs s) (trace s).
Definition set_stdout_queue (v : list string) (s : state) : state :=
  mkState (active_process s) (active_process_output s) (active_process_errors s)
          v (stderr_queue s) (godot_path s) (procs s) (trace s).
Definition set_stderr_queue (v : list string) (s : state) : state :=
  mkState (active_process s) (active_process_output s) (active_process_errors s)
          (stdout_queue s) v (godot_path s) (procs s) (trace s).
Definition set_godot_path (v : option string) (s : state) : state :=
  mkState (active_process s) (active_process_output s) (active_process_errors s)
          (stdout_queue s) (stderr_queue s) v (procs s) (trace s).
Definition set_procs (v : list proc) (s : state) : state :=
  mkState (active_process s) (active_process_output s) (active_process_errors s)
          (stdout_queue s) (stderr_queue s) (godot_path s) v (trace s).
Definition add_event (ev : event) (s : state) : state :=
  mkState (active_process s) (active_process_output s) (active_process_errors s)
          (stdout_queue s) (stderr_queue s) (godot_path s) (procs s)
          (trace s ++ [ev])%list.

(** The manager right after construction: no session, nothing spawned. *)
Definition init_state (gp : option string) : state :=
  mkState None [] [] [] [] gp [] [].

(** ** The monad of tool code: state, exceptions, divergence *)

Inductive outcome (A : Type) : Type :=
| Return (a : A)
| Raise (e : exn)
| Diverge.
Arguments Return {A} a.
Arguments Raise {A} e.
Arguments Diverge {A}.

Definition M (A : Type) : Type := state -> outcome A * state.

Definition ret {A} (a : A) : M A := fun s => (Return a, s).
Definition raise {A} (e : exn) : M A := fun s => (Raise e, s).
Definition diverge {A} : M A := fun s => (Diverge, s).
Definition bind {A B} (m : M A) (k : A -> M B) : M B :=
  fun s => match m s with
           | (Return a, s') => k a s'
           | (Raise e, s') => (Raise e, s')
           | (Diverge, s') => (Diverge, s')
           end.
(** [try: m  except ... as e: h e]; the handler decides by the class of
    the exception and re-raises what no clause catches. *)
Definition try_except {A} (m : M A) (h : exn -> M A) : M A :=
  fun s => match m s with
           | (Raise e, s') => h e s'
           | r => r
           end.
Definition get : M state := fun s => (Return s, s).
Definition modify (f : state -> state) : M unit := fun s => (Return tt, f s).
Definition log (ev : event) : M unit := modify (add_event ev).

Declare Scope py_scope.
Delimit Scope py_scope with py.
Notation "x <- m ;; k" := (bind m (fun x => k))
  (at level 61, m at next level, right associativity) : py_scope.
Notation "m ;; k" := (bind m (fun _ => k))
  (at level 61, right associativity) : py_scope.
Open Scope py_scope.

(** The double quote and the line feed, as one-character strings. *)
Definition dq : string := String (ascii_of_nat 34) EmptyString.
Definition nl : string := String (ascii_of_nat 10) EmptyString.

Definition str_of_Z (z : Z) : string :=
  DecimalString.NilZero.string_of_int (Z.to_int z).

(** ** Library calls against the world *)

Section Primitives.

  Variable E : env.

  (** The node a path names, for a process whose working directory is
      [cwd E]; the empty path names nothing. *)
Definition lookup_path (p : string) : option node :=
    if Py.falsy p then None
    else resolve [] (fs E)
           (Py.split PosixPath.sep
              (if PosixPath.isabs p then p else cwd E ++ "/" ++ p)).

  (** [os.path.exists]. *)
Definition os_path_exists (p : string) : M bool :=
    log (EvExists p) ;;
    ret (match lookup_path p with Some _ => true | None => false end).

  (** [os.path.isdir]. *)
Definition os_path_isdir (p : string) : M bool :=
    log (EvIsdir p) ;;
    ret (match lookup_path p with Some (Dir _) => true | _ => false end).

  (** [os.listdir]. *)
Definition os_listdir (p : string) : M (list string) :=
    log (EvListdir p) ;;
    match lookup_path p with
    | Some (Dir es) => ret (map fst es)
    | Some File =>
        raise (PyExn NotADirectoryError
                 ("[Errno 20] Not a directory: '" ++ p ++ "'"))
    | None =>
        raise (PyExn FileNotFoundError
                 ("[Errno 2] No such file or directory: '" ++ p ++ "'"))
    end.

Definition dir_names (es : list (string * node)) : list string :=
    map fst (filter (fun e => is_dir (snd e)) es).
Definition file_names (es : list (string * node)) : list string :=
    map fst (filter (fun e => negb (is_dir (snd e))) es).

  (** The triples [os.walk(top, topdown=True)] yields.  The consumer's
      in-place assignment [dirs[:] = [d for d in dirs if keep d]] decides
      which subdirectories the generator descends into, so the filter is
      an argument; the triple shows [dirs] as the consumer leaves it.
      A directory entry named [name] under [top] is visited as
      [os.path.join(top, name)]. *)
Fixpoint walk_node (keep : string -> bool) (top : string) (n : node)
    : list (string * list string * list string) :=
    match n with
    | File => []
    | Dir es =>
        (top, filter keep (dir_names es), file_names es)
        :: (fix sub (l : list (string * node)) :=
              match l with
              | [] => []
              | (name, child) :: l' =>
                  ((if is_dir child && keep name
                    then walk_node keep (PosixPath.join top name) child
                    else []) ++ sub l')%list
              end) es
    end.

  (** [os.walk]: errors of the scan are ignored, a [top] that is not a
      directory yields nothing. *)
Definition os_walk (keep : string -> bool) (top : string)
    : M (list (string * list string * list string)) :=
    log (EvWalk top) ;;
    ret (match lookup_path top with
         | Some (Dir es) => walk_node keep top (Dir es)
         | _ => []
         end).

  (** *** Child processes *)

Definition get_proc (p : pid) (s : state) : option proc := nth_error (procs s) p.

Fixpoint update_nth {A} (n : nat) (f : A -> A) (l : list A) : list A :=
    match l, n with
    | [], _ => []
    | x :: l', O => f x :: l'
    | x :: l', S n' => x :: update_nth n' f l'
    end.

Definition set_status (st : pstatus) (q : proc) : proc :=
    mkProc (p_cmd q) st (p_signalled q) (p_term q).
Definition set_signalled (q : proc) : proc :=
    mkProc (p_cmd q) (p_status q) true (p_term q).

  (** [Popen.poll()]: [Alive] stands for [None]. *)
Definition poll (p : pid) : M pstatus :=
    s <- get ;;
    ret (match get_proc p s with
         | Some q => p_status q
         | None => Exited 0
         end).

  (** [Popen.terminate()]: SIGTERM; nothing happens to a child that has
      exited. *)
Definition terminate (p : pid) : M unit :=
    log (EvTerminate p) ;;
    modify (fun s => set_procs (update_nth p set_signalled (procs s)) s).

  (** [Popen.kill()]: SIGKILL. *)
Definition kill (p : pid) : M unit :=
    log (EvKill p) ;;
    modify (fun s =>
      set_procs (update_nth p (fun q => if alive (p_status q)
                                        then set_status (Exited (-9)) q
                                        else q) (procs s)) s).

  (** [Popen.wait(timeout=t)] on a session child: returns once the child
      has exited, raises [TimeoutExpired] when it is still running after
      [t] seconds. *)
Definition wait (p : pid) (t : nat) : M unit :=
    log (EvWait p t) ;;
    s <- get ;;
    match get_proc p s with
    | None => ret tt
    | Some q =>
        match p_status q with
        | Exited _ => ret tt
        | Alive =>
            match p_signalled q, p_term q with
            | true, Some (d, rc) =>
                if (d <=? t)%nat then
                  modify (fun s =>
                    set_procs (update_nth p (set_status (Exited rc)) (procs s)) s)
                else raise (TimeoutExpired (p_cmd q) t)
            | _, _ => raise (TimeoutExpired (p_cmd q) t)
            end
        end
    end.

  (** The children of the table that are running, numbered from [i]. *)
Fixpoint live_pids (i : pid) (ps : list proc) : list pid :=
    match ps with
    | [] => []
    | q :: ps' =>
        if alive (p_status q) then i :: live_pids (S i) ps'
        else live_pids (S i) ps'
    end.

  (** [subprocess.Popen(cmd, stdout=PIPE, stderr=PIPE)]. *)
Definition popen (cmd : list string) : M pid :=
    s <- get ;;
    let p := List.length (procs s) in
    let b := spawn_oracle E p cmd in
    match sb_launch b with
    | Some e => raise e
    | None =>
        log (EvPopen p cmd (live_pids 0 (procs s))) ;;
        modify (fun s => set_procs (procs s ++ [mkProc cmd Alive false (sb_term b)])%list s) ;;
        ret p
    end.

  (** [time.sleep] right after the launch of session child [p]: the two
      reader threads enqueue what the child prints meanwhile, and the
      child may exit. *)
Definition sleep_after_launch (p : pid) (cmd : list string) : M unit :=
    log EvSleep ;;
    let b := spawn_oracle E p cmd in
    modify (fun s =>
      let s1 := set_stdout_queue (stdout_queue s ++ sb_early_out b)%list s in
      let s2 := set_stderr_queue (stderr_queue s1 ++ sb_early_err b)%list s1 in
      match sb_early_exit b with
      | Some rc => set_procs (update_nth p (set_status (Exited rc)) (procs s2)) s2
      | None => s2
      end).

  (** [subprocess.run(cmd, check=True, capture_output=True, text=True,
      timeout=t)].  With a timeout the child is killed and reaped when the
      time is up and [TimeoutExpired] is raised; without one the call
      lasts as long as the child.  A non-zero return code raises
      [CalledProcessError] carrying the captured streams. *)
Definition subprocess_run (site : run_site) (cmd : list string)
             (timeout : option nat) : M (string * string) :=
    s <- get ;;
    let p := List.length (procs s) in
    let child st := modify (fun s => set_procs (procs s ++ [mkProc cmd st false None])%list s) in
    log (EvRun site p cmd timeout) ;;
    match run_oracle E p cmd with
    | RunLaunchFails e => raise e
    | RunExits d rc out err =>
        if match timeout with Some t => (t <? d)%nat | None => false end then
          child (Exited (-9)) ;;
          log (EvKill p) ;;
          raise (TimeoutExpired cmd (match timeout with Some t => t | None => 0%nat end))
        else
          child (Exited rc) ;;
          if (rc =? 0)%Z then ret (out, err)
          else raise (CalledProcessError rc cmd out err)
    | RunHangs =>
        match timeout with
        | Some t =>
            child (Exited (-9)) ;;
            log (EvKill p) ;;
            raise (TimeoutExpired cmd t)
        | None =>
            child Alive ;;
            diverge
        end
    end.

  (** [str(e)]. *)
Definition str_exn (e : exn) : string :=
    match e with
    | PyExn _ msg => msg
    | CalledProcessError rc cmd _ _ => str_called E cmd rc
    | TimeoutExpired cmd t => str_timeout E cmd t
    end.

  (** [detect_godot_path_sync] of [godot_mcp.py], called with no usable
      [godot_path]: the path resolver is an external collaborator; it
      leaves the executable it settles on in [godot_path], and [None]
      when strict validation finds none. *)
Definition detect_godot_path_sync : M unit :=
    log EvDetect ;;
    modify (set_godot_path (detected_path E)).

  (** [detect_godot_path] of [save_godot.py]: the same resolver, which
      raises under strict validation when it finds no executable. *)
Definition detect_godot_path : M unit :=
    log EvDetect ;;
    match detected_path E with
    | Some gp => modify (set_godot_path (Some gp))
    | None =>
        raise (PyExn RuntimeError
                 "Could not find a valid Godot executable. Set GODOT_PATH or provide a valid path in config.")
    end.

  (** [not self.godot_path]. *)
Definition no_godot_path (s : state) : bool :=
    match godot_path s with
    | None => true
    | Some gp => Py.falsy gp
    end.

Definition the_godot_path (s : state) : string :=
    match godot_path s with Some gp => gp | None => "" end.

  (** The loop [while not q.empty(): line = q.get_nowait();
      acc.append(line)]. *)
Fixpoint drain (q acc : list string) : list string :=
    match q with
    | [] => acc
    | line :: q' => drain q' (acc ++ [line])%list
    end.

  (** [_read_output_queues], the same in both programs. *)
Definition _read_output_queues : M unit :=
    modify (fun s =>
      set_stdout_queue [] (set_output (drain (stdout_queue s) (active_process_output s)) s)) ;;
    modify (fun s =>
      set_stderr_queue [] (set_errors (drain (stderr_queue s) (active_process_errors s)) s)).

  (** [_start_output_threads]: two fresh queues, one reader per stream. *)
Definition _start_output_threads : M unit :=
    modify (fun s => set_stderr_queue [] (set_stdout_queue [] s)).

  (** The launch of a session, the same statements in [run_project] and
      [handle_run_project]: [Popen], the handle and the two empty
      sequences stored in [self], [_start_output_threads], and the grace
      delay. *)
Definition launch_session (command : list string) : M pid :=
    process <- popen command ;;
    modify (set_active (Some process)) ;;
    modify (set_output []) ;;
    modify (set_errors []) ;;
    _start_output_threads ;;
    sleep_after_launch process command ;;
    ret process.

  (** *** Parameter names *)

Definition is_upper (c : ascii) : bool :=
    let n := nat_of_ascii c in ((65 <=? n) && (n <=? 90))%nat.

Fixpoint lstrip_underscore (s : string) : string :=
    match s with
    | String "_"%char s' => lstrip_underscore s'
    | _ => s
    end.

Fixpoint camel_chars (key : string) : string :=
    match key with
    | EmptyString => EmptyString
    | String c k' =>
        if is_upper c then String "_"%char (String (Py.lower_char c) (camel_chars k'))
        else String c (camel_chars k')
    end.

  (** [''.join(['_' + i.lower() if i.isupper() else i for i in key]).lstrip('_')]. *)
Definition generic_snake (key : string) : string :=
    lstrip_underscore (camel_chars key).

  (** [reverse_parameter_mappings], the same table in both programs. *)
Definition reverse_parameter_mappings : list (string * string) :=
    [ ("projectPath", "project_path"); ("scenePath", "scene_path");
      ("rootNodeType", "root_node_type"); ("parentNodePath", "parent_node_path");
      ("nodeType", "node_type"); ("nodeName", "node_name");
      ("texturePath", "texture_path"); ("nodePath", "node_path");
      ("outputPath", "output_path"); ("meshItemNames", "mesh_item_names");
      ("newPath", "new_path"); ("filePath", "file_path");
      ("directory", "directory"); ("recursive", "recursive"); ("scene", "scene") ].

Fixpoint dict_get {A} (k : string) (d : list (string * A)) : option A :=
    match d with
    | [] => None
    | (k', v) :: d' => if String.eqb k' k then Some v else dict_get k d'
    end.

  (** [d[k] = v] on an insertion-ordered dictionary. *)
Fixpoint dict_set {A} (k : string) (v : A) (d : list (string * A))
    : list (string * A) :=
    match d with
    | [] => [(k, v)]
    | (k', v') :: d' =>
        if String.eqb k' k then (k', v) :: d' else (k', v') :: dict_set k v d'
    end.

Definition snake_key (key : string) : string :=
    match dict_get key reverse_parameter_mappings with
    | Some sk => sk
    | None => generic_snake key
    end.

End Primitives.

(** ** Results of the tools *)

(** A project as [find_godot_projects] reports it: the dictionary
    [{'path': ..., 'name': ...}]. *)
Record project : Type := mkProject {
  path : string;
  name : string;
}.

(** The dictionary [get_debug_output] returns; [message] is present only
    when the child was found terminated. *)
Record debug_output : Type := mkDebug {
  message : option string;
  output : list string;
  errors : list string;
}.

(** The dictionary [stop_project] returns. *)
Record stop_output : Type := mkStop {
  stop_message : string;
  finalOutput : list string;
  finalErrors : list string;
}.

Definition hidden (d : string) : bool := Py.startswith d ".".

(** [for x in xs: body], threading the list being built. *)
Fixpoint for_each {A B} (xs : list A) (acc : B) (body : A -> B -> M B) : M B :=
  match xs with
  | [] => ret acc
  | x :: xs' => acc' <- body x acc ;; for_each xs' acc' body
  end.

(** ** The session seen from outside

    A session evolves by the requests the manager handles and by what
    the child does in between: it prints a line, which the reader of
    that stream enqueues, or it exits. *)
Inductive child_event : Type :=
| ChildStdout (line : string)
| ChildStderr (line : string)
| ChildExit (p : pid) (returncode : Z).

Inductive request : Type :=
| ReqRun (projectPath : string) (scene : option string)
| ReqPoll
| ReqStop
| ReqCleanup.

Inductive step : Type :=
| Child (c : child_event)
| Request (r : request).

Definition exit_child (rc : Z) (q : proc) : proc :=
  if alive (p_status q) then set_status (Exited rc) q else q.

Definition child_step (c : child_event) (s : state) : state :=
  match c with
  | ChildStdout line => set_stdout_queue (stdout_queue s ++ [line])%list s
  | ChildStderr line => set_stderr_queue (stderr_queue s ++ [line])%list s
  | ChildExit p rc => set_procs (update_nth p (exit_child rc) (procs s)) s
  end.

(** The lines the child has printed on each stream, in order. *)
Fixpoint printed_out (steps : list step) : list string :=
  match steps with
  | [] => []
  | Child (ChildStdout line) :: rest => line :: printed_out rest
  | _ :: rest => printed_out rest
  end.

Fixpoint printed_err (steps : list step) : list string :=
  match steps with
  | [] => []
  | Child (ChildStderr line) :: rest => line :: printed_err rest
  | _ :: rest => printed_err rest
  end.

(** Steps of a session that is neither restarted nor stopped: polls and
    the child's own events. *)
Definition poll_or_child (st : step) : bool :=
  match st with
  | Child _ => true
  | Request ReqPoll => true
  | Request _ => false
  end.

(** The state of a child in the table; a handle that names no child
    counts as exited. *)
Definition status_of (p : pid) (s : state) : pstatus :=
  match get_proc p s with
  | Some q => p_status q
  | None => Exited 0
  end.

(** ** [godot_mcp.py]: class [GodotMCP] *)

Module GodotMCP.
Section WithEnv.

  Variable E : env.

  (** [convert_camel_to_snake_case]: dictionaries are converted
      recursively, also inside lists. *)
Fixpoint convert_camel_to_snake_case (params : pvalue) : pvalue :=
    match params with
    | PDict d =>
        PDict
          ((fix items (d : list (string * pvalue)) (result : list (string * pvalue)) :=
              match d with
              | [] => result
              | (key, value) :: d' =>
                  items d'
                    (dict_set (snake_key key)
                       match value with
                       | PDict _ => convert_camel_to_snake_case value
                       | PList l =>
                           PList (map (fun item =>
                                         match item with
                                         | PDict _ => convert_camel_to_snake_case item
                                         | _ => item
                                         end) l)
                       | _ => value
                       end result)
              end) d [])
    | _ => params
    end.

  (** [cleanup]. *)
Definition cleanup : M unit :=
    s <- get ;;
    match active_process s with
    | None => ret tt
    | Some p =>
        try_except
          (st <- poll p ;;
           if alive st then terminate p ;; wait p 5 else ret tt)
          (fun e =>
             if is_TimeoutExpired e then
               st <- poll p ;;
               if alive st then kill p else ret tt
             else ret tt) ;;
        modify (set_active None) ;;
        modify (set_output []) ;;
        modify (set_errors [])
    end.

  (** [get_debug_output]. *)
Definition get_debug_output : M debug_output :=
    s <- get ;;
    match active_process s with
    | None => raise (PyExn RuntimeError "No active Godot process. Use run_project first.")
    | Some p =>
        st <- poll p ;;
        if alive st then
          _read_output_queues ;;
          s' <- get ;;
          ret (mkDebug None (active_process_output s') (active_process_errors s'))
        else
          _read_output_queues ;;
          s' <- get ;;
          let final_output := active_process_output s' in
          let final_errors := active_process_errors s' in
          cleanup ;;
          ret (mkDebug (Some "Godot process terminated.") final_output final_errors)
    end.

  (** [stop_project]. *)
Definition stop_project : M stop_output :=
    s <- get ;;
    match active_process s with
    | None => raise (PyExn RuntimeError "No active Godot process to stop.")
    | Some p =>
        st <- poll p ;;
        if alive st then
          _read_output_queues ;;
          s' <- get ;;
          let final_output := active_process_output s' in
          let final_errors := active_process_errors s' in
          cleanup ;;
          ret (mkStop "Godot project stopped" final_output final_errors)
        else
          _read_output_queues ;;
          s' <- get ;;
          let final_output := active_process_output s' in
          let final_errors := active_process_errors s' in
          cleanup ;;
          ret (mkStop "Godot process already terminated" final_output final_errors)
    end.

  (** The block [if not self.godot_path: self.detect_godot_path_sync();
      if not self.godot_path: raise RuntimeError(...)]. *)
Definition ensure_godot_path : M unit :=
    s <- get ;;
    if no_godot_path s then
      detect_godot_path_sync E ;;
      s' <- get ;;
      if no_godot_path s' then
        raise (PyExn RuntimeError "Could not find a valid Godot executable path")
      else ret tt
    else ret tt.

  (** The block [# Kill any existing process] of [run_project]. *)
Definition stop_existing : M unit :=
    s <- get ;;
    match active_process s with
    | Some old =>
        st <- poll old ;;
        if alive st then stop_project ;; ret tt else ret tt
    | None => ret tt
    end.

  (** [run_project]; the result is the text under ["message"]. *)
Definition run_project (projectPath : string) (scene : option string) : M string :=
    if Py.falsy projectPath then raise (PyExn ValueError "Project path is required")
    else
      let projectPath := PosixPath.abspath (cwd E) projectPath in
      if negb (validate_path projectPath) then
        raise (PyExn ValueError ("Invalid project path format (e.g., contains " ++ dq ++ ".." ++ dq ++ ")"))
      else if match scene with
              | Some sc => negb (Py.falsy sc) && negb (validate_path sc)
              | None => false
              end then
        raise (PyExn ValueError ("Invalid scene path format (e.g., contains " ++ dq ++ ".." ++ dq ++ ")"))
      else
        try_except
          (ensure_godot_path ;;
           let project_file := PosixPath.join projectPath "project.godot" in
           ex <- os_path_exists E project_file ;;
           if negb ex then
             raise (PyExn FileNotFoundError
                      ("Not a valid Godot project (project.godot not found): " ++ projectPath))
           else
             stop_existing ;;
             s <- get ;;
             let cmd_args := ["-d"; "--path"; projectPath] in
             let command := the_godot_path s :: cmd_args in
             process <- launch_session E command ;;
             st <- poll process ;;
             match st with
             | Exited returncode =>
                 _read_output_queues ;;
                 s' <- get ;;
                 let stdout_str := Py.join nl (active_process_output s') in
                 let stderr_str := Py.join nl (active_process_errors s') in
                 modify (set_active None) ;;
                 raise (PyExn RuntimeError
                          ("Godot process exited immediately with code "
                             ++ str_of_Z returncode ++ ". Stdout: '"
                             ++ Py.take 200 stdout_str ++ "...' Stderr: '"
                             ++ Py.take 200 stderr_str ++ "...'"))
             | Alive =>
                 ret "Godot project started in debug mode. Use get_debug_output to see output."
             end)
          (fun e =>
             if is_FileNotFoundError e then raise e
             else
               s <- get ;;
               match active_process s with
               | Some _ => cleanup
               | None => ret tt
               end ;;
               raise (PyExn RuntimeError ("Failed to run Godot project: " ++ str_exn E e))).

  (** [execute_operation]. *)
Definition execute_operation (operation : string)
             (params : list (string * pvalue)) (project_path : string)
    : M (string * string) :=
    let snake_case_params := convert_camel_to_snake_case (PDict params) in
    ensure_godot_path ;;
    try_except
      (s <- get ;;
       let params_json := json_dumps E JsonCompact snake_case_params in
       let debug_args := if GODOT_DEBUG_MODE E then ["--debug-godot"] else [] in
       let command :=
         ([the_godot_path s; "--headless"; "--path"; project_path; "--script";
           operations_script_path E; operation; params_json] ++ debug_args)%list in
       subprocess_run E SiteOperation command (Some 60%nat))
      (fun e =>
         match e with
         | CalledProcessError _ _ out err => ret (out, err)
         | TimeoutExpired _ _ =>
             raise (PyExn RuntimeError ("Godot operation '" ++ operation ++ "' timed out"))
         | _ =>
             raise (PyExn RuntimeError
                      ("Error executing Godot operation '" ++ operation ++ "': "
                         ++ str_exn E e))
         end).

  (** The final loop of [find_godot_projects]: the first project of each
      path is kept. *)
Fixpoint unique_projects (seen_paths : list string) (projects : list project)
    : list project :=
    match projects with
    | [] => []
    | proj :: rest =>
        if Py.mem (path proj) seen_paths then unique_projects seen_paths rest
        else proj :: unique_projects (path proj :: seen_paths) rest
    end.

  (** [find_godot_projects]. *)
Definition find_godot_projects (directory : string) (recursive : bool)
    : M (list project) :=
    let abs_directory := PosixPath.abspath (cwd E) directory in
    projects <-
      try_except
        (let project_file := PosixPath.join abs_directory "project.godot" in
         ex <- os_path_exists E project_file ;;
         let projects :=
           if ex then [mkProject abs_directory (PosixPath.basename abs_directory)]
           else [] in
         if recursive then
           triples <- os_walk E (fun d => negb (hidden d)) abs_directory ;;
           for_each triples projects
             (fun '(root, _, _) projects =>
                if negb (String.eqb root abs_directory) then
                  let project_file := PosixPath.join root "project.godot" in
                  ex <- os_path_exists E project_file ;;
                  if ex then
                    let abs_root := PosixPath.abspath (cwd E) root in
                    ret (projects ++ [mkProject abs_root (PosixPath.basename abs_root)])%list
                  else ret projects
                else ret projects)
         else
           entries <- os_listdir E abs_directory ;;
           for_each entries projects
             (fun entry_name projects =>
                let entry_path := PosixPath.join abs_directory entry_name in
                isd <- os_path_isdir E entry_path ;;
                if isd then
                  if hidden entry_name then ret projects
                  else
                    let subdir_project_file := PosixPath.join entry_path "project.godot" in
                    ex <- os_path_exists E subdir_project_file ;;
                    if ex then
                      let abs_entry_path := PosixPath.abspath (cwd E) entry_path in
                      ret (projects ++ [mkProject abs_entry_path entry_name])%list
                    else ret projects
                else ret projects))
        (fun e =>
           if is_FileNotFoundError e then
             raise (PyExn FileNotFoundError ("Directory not found: " ++ directory))
           else if is_PermissionError e then
             raise (PyExn PermissionError
                      ("Permission denied accessing directory: " ++ directory))
           else
             raise (PyExn RuntimeError
                      ("Failed to list projects in " ++ directory ++ ": " ++ str_exn E e))) ;;
    ret (unique_projects [] projects).

  (** [list_projects]. *)
Definition list_projects (directory : string) (recursive : bool)
    : M (list project) :=
    if Py.falsy directory then raise (PyExn ValueError "Directory is required")
    else if negb (validate_path directory) then
      raise (PyExn ValueError ("Invalid directory path format (e.g., contains " ++ dq ++ ".." ++ dq ++ ")"))
    else
      let abs_directory := PosixPath.abspath (cwd E) directory in
      try_except
        (ex <- os_path_exists E abs_directory ;;
         if negb ex then
           raise (PyExn FileNotFoundError ("Directory does not exist: " ++ abs_directory))
         else
           isd <- os_path_isdir E abs_directory ;;
           if negb isd then
             raise (PyExn NotADirectoryError ("Path is not a directory: " ++ abs_directory))
           else find_godot_projects abs_directory recursive)
        (fun e =>
           if is_FileNotFoundError e || is_NotADirectoryError e || is_PermissionError e
           then raise e
           else raise (PyExn RuntimeError ("Failed to list projects: " ++ str_exn E e))).

  (** [get_godot_version]. *)
Definition get_godot_version : M string :=
    try_except
      (ensure_godot_path ;;
       s <- get ;;
       let command := [the_godot_path s; "--version"] in
       r <- subprocess_run E SiteVersion command (Some 10%nat) ;;
       ret (Py.strip (fst r)))
      (fun e =>
         if is_CalledProcessError e || is_FileNotFoundError e || is_BuiltinTimeoutError e
         then
           let stderr_info :=
             match e with
             | CalledProcessError _ _ _ err => " Stderr: '" ++ Py.strip err ++ "'"
             | _ => EmptyString
             end in
           raise (PyExn RuntimeError
                    ("Failed to get Godot version: " ++ str_exn E e ++ stderr_info))
         else
           raise (PyExn RuntimeError ("Failed to get Godot version: " ++ str_exn E e))).

  (** [if stderr and ("error" in stderr.lower() or w in stderr.lower())]. *)
Definition stderr_reports (stderr w : string) : bool :=
    negb (Py.falsy stderr)
    && (Py.contains (Py.lower stderr) "error" || Py.contains (Py.lower stderr) w).

  (** The check of the project marker file every tool starts its [try]
      block with. *)
Definition require_project (projectPath : string) : M unit :=
    let project_file := PosixPath.join projectPath "project.godot" in
    ex <- os_path_exists E project_file ;;
    if negb ex then
      raise (PyExn FileNotFoundError
               ("Not a valid Godot project (project.godot not found): " ++ projectPath))
    else ret tt.

  (** [create_scene]. *)
Definition create_scene (projectPath scenePath rootNodeType : string) : M string :=
    if Py.falsy projectPath || Py.falsy scenePath then
      raise (PyExn ValueError "Project path and scene path are required")
    else
      let projectPath := PosixPath.abspath (cwd E) projectPath in
      if negb (validate_path projectPath) || negb (validate_path scenePath) then
        raise (PyExn ValueError
                 ("Invalid path format (e.g., contains " ++ dq ++ ".." ++ dq ++ ")"))
      else
        let scenePath :=
          if negb (Py.endswith (Py.lower scenePath) ".tscn")
          then scenePath ++ ".tscn" else scenePath in
        try_except
          (require_project projectPath ;;
           let full_scene_path := PosixPath.join projectPath scenePath in
           _ <- os_path_exists E full_scene_path ;;
           let params := [("scenePath", PStr scenePath);
                          ("rootNodeType", PStr rootNodeType)] in
           r <- execute_operation "create_scene" params projectPath ;;
           let stdout := fst r in
           let stderr := snd r in
           if stderr_reports stderr "failed" then
             let error_msg := "Failed to create scene '" ++ scenePath
                                ++ "'. Godot stderr: " ++ Py.strip stderr in
             if Py.contains stderr "Invalid node type" then
               raise (PyExn ValueError
                        ("Invalid root node type: '" ++ rootNodeType
                           ++ "'. Godot stderr: " ++ Py.strip stderr))
             else raise (PyExn RuntimeError error_msg)
           else if Py.contains stdout "Cannot create file" then
             raise (PyExn RuntimeError
                      ("Failed to create scene file '" ++ scenePath
                         ++ "'. Godot stdout: " ++ Py.strip stdout))
           else
             ret ("Scene '" ++ scenePath ++ "' created successfully (Root: "
                    ++ rootNodeType ++ "). Godot output: " ++ Py.strip stdout))
          (fun e =>
             if is_FileNotFoundError e then raise e
             else raise (PyExn RuntimeError ("Failed to create scene: " ++ str_exn E e))).

  (** [export_mesh_library]. *)
Definition export_mesh_library (projectPath scenePath outputPath : string)
             (meshItemNames : option (list string)) : M string :=
    if Py.falsy projectPath || Py.falsy scenePath || Py.falsy outputPath then
      raise (PyExn ValueError "Missing required parameters: projectPath, scenePath, outputPath")
    else
      let projectPath := PosixPath.abspath (cwd E) projectPath in
      if negb (validate_path projectPath) || negb (validate_path scenePath)
         || negb (validate_path outputPath) then
        raise (PyExn ValueError
                 ("Invalid path format (e.g., contains " ++ dq ++ ".." ++ dq ++ ")"))
      else
        let outputPath :=
          if negb (Py.endswith (Py.lower outputPath) ".res"
                   || Py.endswith (Py.lower outputPath) ".tres")
          then outputPath ++ ".res" else outputPath in
        try_except
          (require_project projectPath ;;
           let scene_full_path := PosixPath.join projectPath scenePath in
           ex <- os_path_exists E scene_full_path ;;
           if negb ex then
             raise (PyExn FileNotFoundError ("Scene file does not exist: " ++ scenePath))
           else
             let params := [("scenePath", PStr scenePath);
                            ("outputPath", PStr outputPath)] in
             let params :=
               match meshItemNames with
               | Some names => dict_set "meshItemNames" (PList (map PStr names)) params
               | None => params
               end in
             r <- execute_operation "export_mesh_library" params projectPath ;;
             let stdout := fst r in
             let stderr := snd r in
             if stderr_reports stderr "failed" then
               raise (PyExn RuntimeError
                        ("Failed to export MeshLibrary to '" ++ outputPath
                           ++ "'. Godot stderr: " ++ Py.strip stderr))
             else if Py.contains stdout "Failed to export"
                     || Py.contains stdout "No meshes found" then
               raise (PyExn RuntimeError
                        ("Failed to export MeshLibrary to '" ++ outputPath
                           ++ "'. Godot stdout: " ++ Py.strip stdout))
             else
               ret ("MeshLibrary exported successfully from '" ++ scenePath
                      ++ "' to '" ++ outputPath ++ "'. Godot output: " ++ Py.strip stdout))
          (fun e =>
             if is_FileNotFoundError e then raise e
             else raise (PyExn RuntimeError
                           ("Failed to export mesh library: " ++ str_exn E e))).

  (** The version gate shared by [get_uid] and [update_project_uids]. *)
Definition require_godot_44 : M unit :=
    version <-
      try_except get_godot_version
        (fun e =>
           raise (PyExn RuntimeError
                    ("Failed to get Godot version to check UID support: " ++ str_exn E e))) ;;
    if negb (is_godot_44_or_later version) then
      raise (PyExn RuntimeError
               ("UIDs require Godot 4.4+ (Current version: " ++ version ++ ")"))
    else ret tt.

  (** [get_uid]. *)
Definition get_uid (projectPath filePath : string) : M string :=
    if Py.falsy projectPath || Py.falsy filePath then
      raise (PyExn ValueError "Missing required parameters: projectPath, filePath")
    else
      let projectPath := PosixPath.abspath (cwd E) projectPath in
      if negb (validate_path projectPath) || negb (validate_path filePath) then
        raise (PyExn ValueError
                 ("Invalid path format (e.g., contains " ++ dq ++ ".." ++ dq ++ ")"))
      else
        try_except
          (ensure_godot_path ;;
           require_project projectPath ;;
           let file_full_path := PosixPath.join projectPath filePath in
           ex <- os_path_exists E file_full_path ;;
           if negb ex then
             raise (PyExn FileNotFoundError ("File does not exist: " ++ filePath))
           else
             require_godot_44 ;;
             let params := [("filePath", PStr filePath)] in
             r <- execute_operation "get_uid" params projectPath ;;
             let stdout := fst r in
             let stderr := snd r in
             if stderr_reports stderr "failed" then
               if Py.contains stderr "not a resource" then
                 raise (PyExn ValueError
                          ("File '" ++ filePath
                             ++ "' is not a recognized Godot resource. Godot stderr: "
                             ++ Py.strip stderr))
               else
                 raise (PyExn RuntimeError
                          ("Failed to get UID for '" ++ filePath
                             ++ "'. Godot stderr: " ++ Py.strip stderr))
             else if Py.contains stdout "Failed to get UID"
                     || Py.contains stdout "not found" then
               raise (PyExn RuntimeError
                        ("Failed to get UID for '" ++ filePath
                           ++ "'. Godot stdout: " ++ Py.strip stdout))
             else
               let uid := Py.strip stdout in
               if negb (Py.startswith uid "uid://") then
                 raise (PyExn RuntimeError
                          ("Command did not return a valid UID. Output: " ++ uid))
               else ret uid)
          (fun e =>
             if is_FileNotFoundError e then raise e
             else if is_RuntimeError e then raise e
             else raise (PyExn RuntimeError ("Failed to get UID: " ++ str_exn E e))).

  (** [update_project_uids]. *)
Definition update_project_uids (projectPath : string) : M string :=
    if Py.falsy projectPath then raise (PyExn ValueError "Project path is required")
    else
      let projectPath := PosixPath.abspath (cwd E) projectPath in
      if negb (validate_path projectPath) then
        raise (PyExn ValueError
                 ("Invalid project path format (e.g., contains " ++ dq ++ ".." ++ dq ++ ")"))
      else
        try_except
          (ensure_godot_path ;;
           require_project projectPath ;;
           require_godot_44 ;;
           r <- execute_operation "resave_resources" [] projectPath ;;
           let stdout := fst r in
           let stderr := snd r in
           if stderr_reports stderr "failed to save"
              && Py.contains stderr "Failed to save resource" then
             raise (PyExn RuntimeError
                      ("Failed to update project UIDs. Godot stderr: " ++ Py.strip stderr))
           else if Py.contains stdout "Failed to resave resources" then
             raise (PyExn RuntimeError
                      ("Failed to update project UIDs. Godot stdout: " ++ Py.strip stdout))
           else
             ret ("Project UIDs update process completed. Godot output:" ++ nl
                    ++ Py.strip stdout))
          (fun e =>
             if is_FileNotFoundError e then raise e
             else if is_RuntimeError e then raise e
             else raise (PyExn RuntimeError
                           ("Failed to update project UIDs: " ++ str_exn E e))).

  (** One step of the session under [GodotMCP]. *)
Definition session_step (st : step) (s : state) : state :=
    match st with
    | Child c => child_step c s
    | Request (ReqRun projectPath scene) => snd (run_project projectPath scene s)
    | Request ReqPoll => snd (get_debug_output s)
    | Request ReqStop => snd (stop_project s)
    | Request ReqCleanup => snd (cleanup s)
    end.

Definition session_run (steps : list step) (s : state) : state :=
    fold_left (fun s st => session_step st s) steps s.

End WithEnv.
End GodotMCP.

(** ** [save_godot.py]: class [GodotServer]

    A handler receives the tool's arguments by their camelCase names, as
    [normalize_parameters] leaves them; an absent argument is [None].
    The arguments the handlers read are JSON strings, apart from the
    boolean [recursive]. *)

(** The result payload of a handler: the texts of its [content] items,
    and whether the [isError] flag is set. *)
Record response : Type := mkResponse {
  content : list string;
  isError : bool;
}.

(** [create_error_response]. *)
Definition create_error_response (msg : string) (possible_solutions : list string)
  : response :=
  mkResponse
    (msg :: match possible_solutions with
            | [] => []
            | _ => ["Possible solutions:" ++ nl ++ "- "
                      ++ Py.join (nl ++ "- ") possible_solutions]
            end)
    true.

(** A successful payload with one text item. *)
Definition text_response (text : string) : response := mkResponse [text] false.

(** [not x] for an optional string argument. *)
Definition missing (x : option string) : bool :=
  match x with
  | None => true
  | Some v => Py.falsy v
  end.

Definition arg (x : option string) : string :=
  match x with Some v => v | None => EmptyString end.

Definition project_json (proj : project) : pvalue :=
  PDict [("path", PStr (path proj)); ("name", PStr (name proj))].

Module GodotServer.
Section WithEnv.

  Variable E : env.

  (** [convert_camel_to_snake_case]: only nested dictionaries are
      converted recursively. *)
Fixpoint convert_camel_to_snake_case (params : pvalue) : pvalue :=
    match params with
    | PDict d =>
        PDict
          ((fix items (d : list (string * pvalue)) (result : list (string * pvalue)) :=
              match d with
              | [] => result
              | (key, value) :: d' =>
                  items d'
                    (dict_set (snake_key key)
                       match value with
                       | PDict _ => convert_camel_to_snake_case value
                       | _ => value
                       end result)
              end) d [])
    | _ => params
    end.

  (** [cleanup]. *)
Definition cleanup : M unit :=
    s <- get ;;
    match active_process s with
    | None => ret tt
    | Some p =>
        try_except
          (terminate p ;; wait p 5)
          (fun e => if is_TimeoutExpired e then kill p else raise e) ;;
        modify (set_active None) ;;
        modify (set_output []) ;;
        modify (set_errors [])
    end.

  (** The block [if not self.godot_path: await self.detect_godot_path()]
      of the handlers; the result tells whether [godot_path] is still
      unset. *)
Definition godot_path_missing : M bool :=
    s <- get ;;
    if no_godot_path s then
      detect_godot_path E ;;
      s' <- get ;;
      ret (no_godot_path s')
    else ret false.

Definition no_godot_response : response :=
    create_error_response "Could not find a valid Godot executable path"
      ["Ensure Godot is installed correctly";
       "Set GODOT_PATH environment variable to specify the correct path"].

Definition not_a_project_response (project_path : string) : response :=
    create_error_response ("Not a valid Godot project: " ++ project_path)
      ["Ensure the path points to a directory containing a project.godot file";
       "Use list_projects to find valid Godot projects"].

Definition invalid_path_solutions : list string :=
    ["Provide a valid path without " ++ dq ++ ".." ++ dq
       ++ " or other potentially unsafe characters"].

Definition install_solutions : list string :=
    ["Ensure Godot is installed correctly";
     "Check if the GODOT_PATH environment variable is set correctly";
     "Verify the project path is accessible"].

  (** The block [# Kill any existing process] of [handle_run_project]. *)
Definition stop_existing : M unit :=
    s <- get ;;
    match active_process s with
    | Some _ => cleanup
    | None => ret tt
    end.

  (** [handle_run_project]. *)
Definition handle_run_project (project_path scene : option string) : M response :=
    if missing project_path then
      ret (create_error_response "Project path is required"
             ["Provide a valid path to a Godot project directory"])
    else
      let project_path := arg project_path in
      if negb (validate_path project_path) then
        ret (create_error_response "Invalid project path" invalid_path_solutions)
      else
        try_except
          (nogp <- godot_path_missing ;;
           if nogp then ret no_godot_response
           else
             let project_file := PosixPath.join project_path "project.godot" in
             ex <- os_path_exists E project_file ;;
             if negb ex then ret (not_a_project_response project_path)
             else
               stop_existing ;;
               let cmd_args :=
                 (["-d"; "--path"; project_path]
                    ++ (if negb (missing scene) && validate_path (arg scene)
                        then [arg scene] else []))%list in
               s <- get ;;
               let command := the_godot_path s :: cmd_args in
               process <- launch_session E command ;;
               st <- poll process ;;
               match st with
               | Exited returncode =>
                   _read_output_queues ;;
                   s' <- get ;;
                   let stdout_str := Py.join nl (active_process_output s') in
                   let stderr_str := Py.join nl (active_process_errors s') in
                   modify (set_active None) ;;
                   ret (create_error_response
                          ("Godot process exited immediately with code "
                             ++ str_of_Z returncode)
                          ["Stdout: " ++ stdout_str;
                           "Stderr: " ++ stderr_str;
                           "Check if the Godot executable path is correct";
                           "Verify the project path and scene path are valid"])
               | Alive =>
                   ret (text_response
                          "Godot project started in debug mode. Use get_debug_output to see output.")
               end)
          (fun e =>
             s <- get ;;
             match active_process s with
             | Some _ => cleanup
             | None => ret tt
             end ;;
             ret (create_error_response
                    ("Failed to run Godot project: " ++ str_exn E e) install_solutions)).

  (** [handle_get_debug_output]. *)
Definition handle_get_debug_output : M response :=
    s <- get ;;
    match active_process s with
    | None =>
        ret (create_error_response "No active Godot process."
               ["Use run_project to start a Godot project first";
                "Check if the Godot process crashed unexpectedly"])
    | Some _ =>
        _read_output_queues ;;
        s' <- get ;;
        ret (text_response
               (json_dumps E JsonIndent2
                  (PDict [("output", PList (map PStr (active_process_output s')));
                          ("errors", PList (map PStr (active_process_errors s')))])))
    end.

  (** [handle_stop_project]: the payload is built after [cleanup]. *)
Definition handle_stop_project : M response :=
    s <- get ;;
    match active_process s with
    | None =>
        ret (create_error_response "No active Godot process to stop."
               ["Use run_project to start a Godot project first";
                "The process may have already terminated"])
    | Some _ =>
        _read_output_queues ;;
        cleanup ;;
        s' <- get ;;
        ret (text_response
               (json_dumps E JsonIndent2
                  (PDict [("message", PStr "Godot project stopped");
                          ("finalOutput", PList (map PStr (active_process_output s')));
                          ("finalErrors", PList (map PStr (active_process_errors s')))])))
    end.

  (** [execute_operation]: [subprocess.run] is called without a timeout. *)
Definition execute_operation (operation : string)
             (params : list (string * pvalue)) (project_path : string)
    : M (string * string) :=
    let snake_case_params := convert_camel_to_snake_case (PDict params) in
    s <- get ;;
    (if no_godot_path s then
       detect_godot_path E ;;
       s' <- get ;;
       if no_godot_path s' then
         raise (PyExn RuntimeError "Could not find a valid Godot executable path")
       else ret tt
     else ret tt) ;;
    try_except
      (s <- get ;;
       let params_json := json_dumps E JsonDefault snake_case_params in
       let debug_args := if GODOT_DEBUG_MODE E then ["--debug-godot"] else [] in
       let command :=
         ([the_godot_path s; "--headless"; "--path"; project_path; "--script";
           operations_script_path E; operation; params_json] ++ debug_args)%list in
       subprocess_run E SiteOperation command None)
      (fun e =>
         match e with
         | CalledProcessError _ _ out err => ret (out, err)
         | _ =>
             raise (PyExn RuntimeError
                      ("Error executing Godot operation: " ++ str_exn E e))
         end).

  (** [find_godot_projects].  The list is built in place and returned
      also when the scan raises; only [os.listdir] can raise here, before
      anything but the root's own entry is appended. *)
Definition find_godot_projects (directory : string) (recursive : bool)
    : M (list project) :=
    let project_file := PosixPath.join directory "project.godot" in
    ex <- os_path_exists E project_file ;;
    let projects :=
      if ex then [mkProject directory (PosixPath.basename directory)] else [] in
    try_except
      (if negb recursive then
         entries <- os_listdir E directory ;;
         for_each entries projects
           (fun entry_name projects =>
              let entry_path := PosixPath.join directory entry_name in
              isd <- os_path_isdir E entry_path ;;
              if isd then
                if hidden entry_name then ret projects
                else
                  let subdir_project_file := PosixPath.join entry_path "project.godot" in
                  ex <- os_path_exists E subdir_project_file ;;
                  if ex then ret (projects ++ [mkProject entry_path entry_name])%list
                  else ret projects
              else ret projects)
       else
         triples <- os_walk E (fun d => negb (hidden d)) directory ;;
         for_each triples projects
           (fun '(root, _, _) projects =>
              let project_file := PosixPath.join root "project.godot" in
              ex <- os_path_exists E project_file ;;
              if ex then
                ret (projects ++ [mkProject root (PosixPath.basename root)])%list
              else ret projects))
      (fun _ => ret projects).

  (** [handle_list_projects]. *)
Definition handle_list_projects (directory : option string) (recursive : bool)
    : M response :=
    if missing directory then
      ret (create_error_response "Directory is required"
             ["Provide a valid directory path to search for Godot projects"])
    else
      let directory := arg directory in
      if negb (validate_path directory) then
        ret (create_error_response "Invalid directory path" invalid_path_solutions)
      else
        try_except
          (ex <- os_path_exists E directory ;;
           if negb ex then
             ret (create_error_response ("Directory does not exist: " ++ directory)
                    ["Provide a valid directory path that exists on the system"])
           else
             projects <- find_godot_projects directory recursive ;;
             ret (text_response
                    (json_dumps E JsonIndent2 (PList (map project_json projects)))))
          (fun e =>
             ret (create_error_response ("Failed to list projects: " ++ str_exn E e)
                    ["Ensure the directory exists and is accessible";
                     "Check if you have permission to read the directory"])).

  (** The inner [try] of [handle_get_uid] and
      [handle_update_project_uids]: the version string, or the payload
      the handler returns when the version cannot be read. *)
Definition read_version : M (string + response) :=
    try_except
      (s <- get ;;
       let command := [the_godot_path s; "--version"] in
       r <- subprocess_run E SiteVersion command (Some 10%nat) ;;
       ret (inl (Py.strip (fst r))))
      (fun e =>
         if is_CalledProcessError e || is_FileNotFoundError e || is_BuiltinTimeoutError e
         then
           ret (inr (create_error_response
                       ("Failed to get Godot version to check UID support: "
                          ++ str_exn E e)
                       ["Ensure Godot is installed correctly";
                        "Check if the GODOT_PATH environment variable is set correctly"]))
         else raise e).

Definition version_gate_response (version : string) : response :=
    create_error_response
      ("UIDs are only supported in Godot 4.4 or later. Current version: " ++ version)
      ["Upgrade to Godot 4.4 or later to use UIDs";
       "Use resource paths instead of UIDs for this version of Godot"].

  (** [if stderr and ("Failed to" in stderr or "error" in stderr.lower())]. *)
Definition stderr_failed (stderr : string) : bool :=
    negb (Py.falsy stderr)
    && (Py.contains stderr "Failed to" || Py.contains (Py.lower stderr) "error").

  (** [handle_get_uid]. *)
Definition handle_get_uid (project_path file_path : option string) : M response :=
    if missing project_path || missing file_path then
      ret (create_error_response "Missing required parameters"
             ["Provide projectPath and filePath"])
    else
      let project_path := arg project_path in
      let file_path := arg file_path in
      if negb (validate_path project_path) || negb (validate_path file_path) then
        ret (create_error_response "Invalid path"
               ["Provide valid paths without " ++ dq ++ ".." ++ dq
                  ++ " or other potentially unsafe characters"])
      else
        try_except
          (nogp <- godot_path_missing ;;
           if nogp then ret no_godot_response
           else
             ex <- os_path_exists E (PosixPath.join project_path "project.godot") ;;
             if negb ex then ret (not_a_project_response project_path)
             else
               let file_full_path := PosixPath.join project_path file_path in
               ex <- os_path_exists E file_full_path ;;
               if negb ex then
                 ret (create_error_response ("File does not exist: " ++ file_path)
                        ["Ensure the file path is correct"])
               else
                 v <- read_version ;;
                 match v with
                 | inr resp => ret resp
                 | inl version =>
                     if negb (is_godot_44_or_later version) then
                       ret (version_gate_response version)
                     else
                       let params := [("filePath", PStr file_path)] in
                       r <- execute_operation "get_uid" params project_path ;;
                       let stdout := fst r in
                       let stderr := snd r in
                       if stderr_failed stderr then
                         ret (create_error_response ("Failed to get UID: " ++ stderr)
                                ["Check if the file is a valid Godot resource";
                                 "Ensure the file path is correct";
                                 "Godot stdout: " ++ stdout])
                       else
                         ret (text_response
                                ("UID for " ++ file_path ++ ": " ++ Py.strip stdout))
                 end)
          (fun e =>
             ret (create_error_response ("Failed to get UID: " ++ str_exn E e)
                    install_solutions)).

  (** [handle_update_project_uids]. *)
Definition handle_update_project_uids (project_path : option string) : M response :=
    if missing project_path then
      ret (create_error_response "Project path is required"
             ["Provide a valid path to a Godot project directory"])
    else
      let project_path := arg project_path in
      if negb (validate_path project_path) then
        ret (create_error_response "Invalid project path" invalid_path_solutions)
      else
        try_except
          (nogp <- godot_path_missing ;;
           if nogp then ret no_godot_response
           else
             ex <- os_path_exists E (PosixPath.join project_path "project.godot") ;;
             if negb ex then ret (not_a_project_response project_path)
             else
               v <- read_version ;;
               match v with
               | inr resp => ret resp
               | inl version =>
                   if negb (is_godot_44_or_later version) then
                     ret (version_gate_response version)
                   else
                     let params := [("projectPath", PStr project_path)] in
                     r <- execute_operation "resave_resources" params project_path ;;
                     let stdout := fst r in
                     let stderr := snd r in
                     if stderr_failed stderr then
                       ret (create_error_response
                              ("Failed to update project UIDs: " ++ stderr)
                              ["Check if the project is valid";
                               "Ensure you have write permissions to the project directory";
                               "Godot stdout: " ++ stdout])
                     else
                       ret (text_response
                              ("Project UIDs updated successfully." ++ nl ++ nl
                                 ++ "Output: " ++ stdout))
               end)
          (fun e =>
             ret (create_error_response
                    ("Failed to update project UIDs: " ++ str_exn E e)
                    install_solutions)).

  (** One step of the session under [GodotServer]. *)
Definition session_step (st : step) (s : state) : state :=
    match st with
    | Child c => child_step c s
    | Request (ReqRun projectPath scene) =>
        snd (handle_run_project (Some projectPath) scene s)
    | Request ReqPoll => snd (handle_get_debug_output s)
    | Request ReqStop => snd (handle_stop_project s)
    | Request ReqCleanup => snd (cleanup s)
    end.

Definition session_run (steps : list step) (s : state) : state :=
    fold_left (fun s st => session_step st s) steps s.

End WithEnv.
End GodotServer.

(** ** Further functions of the two programs *)

(** *** Parameter names of [save_godot.py] *)

(** [parameter_mappings], from snake_case to camelCase;
    [reverse_parameter_mappings] is built from it by swapping each pair. *)
Definition parameter_mappings : list (string * string) :=
  [ ("project_path", "projectPath"); ("scene_path", "scenePath");
    ("root_node_type", "rootNodeType"); ("parent_node_path", "parentNodePath");
    ("node_type", "nodeType"); ("node_name", "nodeName");
    ("texture_path", "texturePath"); ("node_path", "nodePath");
    ("output_path", "outputPath"); ("mesh_item_names", "meshItemNames");
    ("new_path", "newPath"); ("file_path", "filePath");
    ("directory", "directory"); ("recursive", "recursive"); ("scene", "scene") ].

(** [self.parameter_mappings.get(key, key)]. *)
Definition normalized_key (key : string) : string :=
  match dict_get key parameter_mappings with
  | Some k => k
  | None => key
  end.

(** [normalize_parameters]: nested dictionaries are normalised
    recursively, every other value is kept. *)
Fixpoint normalize_parameters (params : pvalue) : pvalue :=
  match params with
  | PDict d =>
      PDict
        ((fix items (d : list (string * pvalue)) (result : list (string * pvalue)) :=
            match d with
            | [] => result
            | (key, value) :: d' =>
                items d'
                  (dict_set (normalized_key key)
                     match value with
                     | PDict _ => normalize_parameters value
                     | _ => value
                     end result)
            end) d [])
  | _ => params
  end.

(** *** File names and the lines of [project.godot] *)

(** [s.rfind(c)] for a one-character [c]: the index of its last
    occurrence, [-1] when there is none. *)
Fixpoint rfind (c : ascii) (s : string) : Z :=
  match s with
  | EmptyString => (-1)%Z
  | String a s' =>
      let i := rfind c s' in
      if (0 <=? i)%Z then (i + 1)%Z
      else if Ascii.eqb a c then 0%Z else (-1)%Z
  end.

Fixpoint all_dots (s : string) : bool :=
  match s with
  | EmptyString => true
  | String c s' => Ascii.eqb c "."%char && all_dots s'
  end.

(** [os.path.splitext]: the extension starts at the last dot of the last
    component, unless only dots precede it there. *)
Definition splitext (p : string) : string * string :=
  let sepIndex := rfind "/"%char p in
  let dotIndex := rfind "."%char p in
  if (dotIndex >? sepIndex)%Z then
    let filenameIndex := (sepIndex + 1)%Z in
    if negb (all_dots (substring (Z.to_nat filenameIndex)
                         (Z.to_nat (dotIndex - filenameIndex)) p))
    then (substring 0 (Z.to_nat dotIndex) p,
          substring (Z.to_nat dotIndex) (String.length p - Z.to_nat dotIndex) p)
    else (p, EmptyString)
  else (p, EmptyString).

(** [s.split(sep, 1)] for a one-character separator. *)
Fixpoint split_once (sep : ascii) (s : string) : list string :=
  match s with
  | EmptyString => [EmptyString]
  | String c s' =>
      if Ascii.eqb c sep then [EmptyString; s']
      else match split_once sep s' with
           | [] => [String c EmptyString]
           | w :: ws => String c w :: ws
           end
  end.

(** [s[1:-1]]. *)
Definition slice_1_m1 (s : string) : string :=
  substring 1 (String.length s - 2) s.

(** The counters of [get_project_structure]. *)
Record structure : Type := mkStructure {
  scenes : nat;
  scripts : nat;
  assets : nat;
  other : nat;
}.

(** The dictionary [get_project_info] returns; [structure] is the
    counters, or the text under ["error"] when counting failed. *)
Record project_info : Type := mkInfo {
  info_name : string;
  info_path : string;
  godotVersion : string;
  info_structure : structure + string;
}.

(** *** [godot_mcp.py]: the remaining tools of [GodotMCP] *)

Module GodotMCPTools.
Section WithEnv.

  Variable E : env.

  (** The text lines [open(path, 'r', encoding='utf-8')] iterates over,
      each with its line end; [None] when the file cannot be opened.
      Reading leaves no event in the trace. *)
  Variable read_lines : string -> option (list string).

  (** The body of the loop over [files] in [get_project_structure]. *)
Definition count_file (file : string) (st : structure) : structure :=
    if Py.startswith file "." then st
    else if Py.endswith file ".import" then st
    else
      let ext := Py.lower (snd (splitext file)) in
      if String.eqb ext ".tscn" then
        mkStructure (S (scenes st)) (scripts st) (assets st) (other st)
      else if Py.mem ext [".gd"; ".gdscript"; ".cs"] then
        mkStructure (scenes st) (S (scripts st)) (assets st) (other st)
      else if Py.mem ext [".png"; ".jpg"; ".jpeg"; ".webp"; ".svg"; ".ttf"; ".wav";
                          ".mp3"; ".ogg"; ".glb"; ".gltf"; ".obj"; ".tres"; ".res"] then
        mkStructure (scenes st) (scripts st) (S (assets st)) (other st)
      else if String.eqb file "project.godot" then st
      else mkStructure (scenes st) (scripts st) (assets st) (S (other st)).

  (** [get_project_structure]: hidden directories are pruned from the
      walk. *)
Definition get_project_structure (project_path : string) : M structure :=
    try_except
      (triples <- os_walk E (fun d => negb (hidden d)) project_path ;;
       ret (fold_left
              (fun st '(_, _, files) => fold_left (fun st file => count_file file st) files st)
              triples (mkStructure 0 0 0 0)))
      (fun e =>
         raise (PyExn RuntimeError
                  ("Failed to get project structure for " ++ project_path ++ ": "
                     ++ str_exn E e))).

  (** The loop of [get_project_info] over the lines of [project.godot]:
      a quoted name is stored and the loop goes on, an unquoted name is
      stored and ends the loop. *)
Fixpoint config_name (lines : list string) (project_name : string) : string :=
    match lines with
    | [] => project_name
    | line :: rest =>
        let line_strip := Py.strip line in
        if Py.startswith line_strip "config/name=" then
          let parts := split_once "="%char line_strip in
          if (1 <? List.length parts)%nat then
            let name_value := Py.strip (nth 1 parts EmptyString) in
            if Py.startswith name_value dq && Py.endswith name_value dq then
              config_name rest (slice_1_m1 name_value)
            else name_value
          else config_name rest project_name
        else config_name rest project_name
    end.

  (** [get_project_info]. *)
Definition get_project_info (projectPath : string) : M project_info :=
    if Py.falsy projectPath then raise (PyExn ValueError "Project path is required")
    else
      let projectPath := PosixPath.abspath (cwd E) projectPath in
      if negb (validate_path projectPath) then
        raise (PyExn ValueError
                 ("Invalid project path format (e.g., contains " ++ dq ++ ".." ++ dq ++ ")"))
      else
        try_except
          (let project_file := PosixPath.join projectPath "project.godot" in
           ex <- os_path_exists E project_file ;;
           if negb ex then
             raise (PyExn FileNotFoundError
                      ("Not a valid Godot project (project.godot not found): " ++ projectPath))
           else
             godot_version <-
               try_except (GodotMCP.get_godot_version E)
                 (fun e => ret ("Error getting version: " ++ str_exn E e)) ;;
             project_structure <-
               try_except
                 (st <- get_project_structure projectPath ;; ret (inl st))
                 (fun e => ret (inr ("Failed to get structure: " ++ str_exn E e))) ;;
             let project_name := PosixPath.basename projectPath in
             let project_name :=
               match read_lines project_file with
               | Some lines => config_name lines project_name
               | None => project_name
               end in
             ret (mkInfo project_name projectPath godot_version project_structure))
          (fun e =>
             if is_FileNotFoundError e then raise e
             else raise (PyExn RuntimeError
                           ("Failed to get project info: " ++ str_exn E e))).

  (** [launch_editor]: the editor is started with [Popen] and no handle
      of it is kept; [scene] is not read on this host. *)
Definition launch_editor (projectPath : string) (scene : option string) : M string :=
    if Py.falsy projectPath then raise (PyExn ValueError "Project path is required")
    else
      let projectPath := PosixPath.abspath (cwd E) projectPath in
      if negb (validate_path projectPath) then
        raise (PyExn ValueError
                 ("Invalid project path format (e.g., contains " ++ dq ++ ".." ++ dq ++ ")"))
      else
        try_except
          (GodotMCP.ensure_godot_path E ;;
           GodotMCP.require_project E projectPath ;;
           s <- get ;;
           let command := [the_godot_path s; "-e"; "--path"; projectPath] in
           _ <- popen E command ;;
           ret ("Godot editor launch initiated for project at " ++ projectPath ++ "."))
          (fun e =>
             if is_FileNotFoundError e then raise e
             else raise (PyExn RuntimeError
                           ("Failed to launch Godot editor: " ++ str_exn E e))).

  (** [add_node]. *)
Definition add_node (projectPath scenePath nodeType nodeName parentNodePath : string)
             (properties : option (list (string * pvalue))) : M string :=
    if Py.falsy projectPath || Py.falsy scenePath || Py.falsy nodeType
       || Py.falsy nodeName then
      raise (PyExn ValueError
               "Missing required parameters: projectPath, scenePath, nodeType, nodeName")
    else
      let projectPath := PosixPath.abspath (cwd E) projectPath in
      if negb (validate_path projectPath) || negb (validate_path scenePath) then
        raise (PyExn ValueError
                 ("Invalid path format (e.g., contains " ++ dq ++ ".." ++ dq ++ ")"))
      else
        try_except
          (GodotMCP.require_project E projectPath ;;
           let scene_full_path := PosixPath.join projectPath scenePath in
           ex <- os_path_exists E scene_full_path ;;
           if negb ex then
             raise (PyExn FileNotFoundError ("Scene file does not exist: " ++ scenePath))
           else
             let params :=
               [("scenePath", PStr scenePath);
                ("parentNodePath", PStr parentNodePath);
                ("nodeType", PStr nodeType);
                ("nodeName", PStr nodeName);
                ("properties",
                 PDict match properties with Some d => d | None => [] end)] in
             r <- GodotMCP.execute_operation E "add_node" params projectPath ;;
             let stdout := fst r in
             let stderr := snd r in
             if GodotMCP.stderr_reports stderr "failed" then
               if Py.contains stderr "Invalid node type" then
                 raise (PyExn ValueError
                          ("Invalid node type: '" ++ nodeType ++ "'. Godot stderr: "
                             ++ Py.strip stderr))
               else if Py.contains stderr "Parent node not found" then
                 raise (PyExn ValueError
                          ("Parent node not found: '" ++ parentNodePath
                             ++ "'. Godot stderr: " ++ Py.strip stderr))
               else if Py.contains stderr "Node name already exists" then
                 raise (PyExn ValueError
                          ("Node name '" ++ nodeName ++ "' already exists under parent '"
                             ++ parentNodePath ++ "'. Godot stderr: " ++ Py.strip stderr))
               else
                 raise (PyExn RuntimeError
                          ("Failed to add node '" ++ nodeName ++ "'. Godot stderr: "
                             ++ Py.strip stderr))
             else if Py.contains stdout "Failed to add node" then
               raise (PyExn RuntimeError
                        ("Failed to add node '" ++ nodeName ++ "'. Godot stdout: "
                           ++ Py.strip stdout))
             else
               ret ("Node '" ++ nodeName ++ "' (" ++ nodeType
                      ++ ") added successfully to '" ++ scenePath ++ "' under '"
                      ++ parentNodePath ++ "'. Godot output: " ++ Py.strip stdout))
          (fun e =>
             if is_FileNotFoundError e then raise e
             else raise (PyExn RuntimeError ("Failed to add node: " ++ str_exn E e))).

  (** [load_sprite]: [FileNotFoundError] and [TypeError] are re-raised
      as they are. *)
Definition load_sprite (projectPath scenePath nodePath texturePath : string) : M string :=
    if Py.falsy projectPath || Py.falsy scenePath || Py.falsy nodePath
       || Py.falsy texturePath then
      raise (PyExn ValueError
               "Missing required parameters: projectPath, scenePath, nodePath, texturePath")
    else
      let projectPath := PosixPath.abspath (cwd E) projectPath in
      if negb (validate_path projectPath) || negb (validate_path scenePath)
         || negb (validate_path texturePath) then
        raise (PyExn ValueError
                 ("Invalid path format (e.g., contains " ++ dq ++ ".." ++ dq ++ ")"))
      else
        try_except
          (GodotMCP.require_project E projectPath ;;
           let scene_full_path := PosixPath.join projectPath scenePath in
           ex <- os_path_exists E scene_full_path ;;
           if negb ex then
             raise (PyExn FileNotFoundError ("Scene file does not exist: " ++ scenePath))
           else
             let texture_full_path := PosixPath.join projectPath texturePath in
             ex <- os_path_exists E texture_full_path ;;
             if negb ex then
               raise (PyExn FileNotFoundError
                        ("Texture file does not exist: " ++ texturePath))
             else
               let params :=
                 [("scenePath", PStr scenePath);
                  ("nodePath", PStr nodePath);
                  ("texturePath", PStr texturePath)] in
               r <- GodotMCP.execute_operation E "load_sprite" params projectPath ;;
               let stdout := fst r in
               let stderr := snd r in
               if GodotMCP.stderr_reports stderr "failed" then
                 if Py.contains stderr "Node not found" then
                   raise (PyExn ValueError
                            ("Node not found at path: '" ++ nodePath
                               ++ "'. Godot stderr: " ++ Py.strip stderr))
                 else if Py.contains stderr "is not a Sprite"
                         || Py.contains stderr "is not a TextureRect" then
                   raise (PyExn TypeError
                            ("Node '" ++ nodePath
                               ++ "' is not a compatible type (Sprite2D, Sprite3D, TextureRect). Godot stderr: "
                               ++ Py.strip stderr))
                 else
                   raise (PyExn RuntimeError
                            ("Failed to load sprite for node '" ++ nodePath
                               ++ "'. Godot stderr: " ++ Py.strip stderr))
               else if Py.contains stdout "Failed to load texture"
                       || Py.contains stdout "Node not found" then
                 raise (PyExn RuntimeError
                          ("Failed to load sprite for node '" ++ nodePath
                             ++ "'. Godot stdout: " ++ Py.strip stdout))
               else
                 ret ("Texture '" ++ texturePath ++ "' loaded successfully into node '"
                        ++ nodePath ++ "' in scene '" ++ scenePath
                        ++ "'. Godot output: " ++ Py.strip stdout))
          (fun e =>
             if is_FileNotFoundError e || is_TypeError e then raise e
             else raise (PyExn RuntimeError ("Failed to load sprite: " ++ str_exn E e))).

  (** [save_scene]: [.tscn] is appended to [newPath] only; a [scenePath]
      without the extension is used as given. *)
Definition save_scene (projectPath scenePath : string) (newPath : option string)
    : M string :=
    if Py.falsy projectPath || Py.falsy scenePath then
      raise (PyExn ValueError "Missing required parameters: projectPath, scenePath")
    else
      let projectPath := PosixPath.abspath (cwd E) projectPath in
      if negb (validate_path projectPath) || negb (validate_path scenePath) then
        raise (PyExn ValueError
                 ("Invalid path format (e.g., contains " ++ dq ++ ".." ++ dq ++ ")"))
      else if negb (missing newPath) && negb (validate_path (arg newPath)) then
        raise (PyExn ValueError
                 ("Invalid new path format (e.g., contains " ++ dq ++ ".." ++ dq ++ ")"))
      else
        let newPath :=
          if negb (missing newPath)
             && negb (Py.endswith (Py.lower (arg newPath)) ".tscn")
          then Some (arg newPath ++ ".tscn") else newPath in
        try_except
          (GodotMCP.require_project E projectPath ;;
           let scene_full_path := PosixPath.join projectPath scenePath in
           ex <- os_path_exists E scene_full_path ;;
           if negb ex then
             raise (PyExn FileNotFoundError ("Scene file does not exist: " ++ scenePath))
           else
             let params := [("scenePath", PStr scenePath)] in
             let params :=
               if negb (missing newPath)
               then dict_set "newPath" (PStr (arg newPath)) params else params in
             r <- GodotMCP.execute_operation E "save_scene" params projectPath ;;
             let stdout := fst r in
             let stderr := snd r in
             if GodotMCP.stderr_reports stderr "failed" then
               raise (PyExn RuntimeError
                        ("Failed to save scene '" ++ scenePath ++ "'. Godot stderr: "
                           ++ Py.strip stderr))
             else if Py.contains stdout "Failed to save scene"
                     || Py.contains stdout "Cannot create file" then
               raise (PyExn RuntimeError
                        ("Failed to save scene '" ++ scenePath ++ "'. Godot stdout: "
                           ++ Py.strip stdout))
             else
               let save_target := if negb (missing newPath) then arg newPath else scenePath in
               ret ("Scene saved successfully to '" ++ save_target
                      ++ "'. Godot output: " ++ Py.strip stdout))
          (fun e =>
             if is_FileNotFoundError e then raise e
             else raise (PyExn RuntimeError ("Failed to save scene: " ++ str_exn E e))).

End WithEnv.
End GodotMCPTools.

(** *** [save_godot.py]: project structure and project name *)

Module GodotServerTools.
Section WithEnv.

  Variable E : env.

  (** The body of the loop over [files] in
      [get_project_structure_async]. *)
Definition count_file (file : string) (st : structure) : structure :=
    if Py.startswith file "." then st
    else
      let ext := Py.lower (snd (splitext file)) in
      if String.eqb ext ".tscn" then
        mkStructure (S (scenes st)) (scripts st) (assets st) (other st)
      else if Py.mem ext [".gd"; ".gdscript"; ".cs"] then
        mkStructure (scenes st) (S (scripts st)) (assets st) (other st)
      else if Py.mem ext [".png"; ".jpg"; ".jpeg"; ".webp"; ".svg"; ".ttf"; ".wav";
                          ".mp3"; ".ogg"] then
        mkStructure (scenes st) (scripts st) (S (assets st)) (other st)
      else mkStructure (scenes st) (scripts st) (assets st) (S (other st)).

  (** [get_project_structure_async]: the walk is not pruned; the files
      of a directory whose own name is hidden are skipped.  The first
      component of the result is the text under ["error"], if any. *)
Definition get_project_structure_async (project_path : string)
    : M (option string * structure) :=
    try_except
      (triples <- os_walk E (fun _ => true) project_path ;;
       ret (None,
            fold_left
              (fun st '(root, _, files) =>
                 if Py.startswith (PosixPath.basename root) "." then st
                 else fold_left (fun st file => count_file file st) files st)
              triples (mkStructure 0 0 0 0)))
      (fun _ => ret (Some "Failed to get project structure", mkStructure 0 0 0 0)).

  (** The loop of [handle_get_project_info] over the lines of
      [project.godot]: only a quoted name is stored, and it ends the
      loop. *)
Fixpoint config_name (lines : list string) (project_name : string) : string :=
    match lines with
    | [] => project_name
    | line :: rest =>
        if Py.startswith (Py.strip line) "config/name=" then
          let parts := split_once "="%char (Py.strip line) in
          if (1 <? List.length parts)%nat then
            let name_value := Py.strip (nth 1 parts EmptyString) in
            if Py.startswith name_value dq && Py.endswith name_value dq then
              slice_1_m1 name_value
            else config_name rest project_name
          else config_name rest project_name
        else config_name rest project_name
    end.

End WithEnv.
End GodotServerTools.

(** *** The search for the engine executable

    [is_valid_godot_path] and the detection built on it, the same in
    both programs up to what happens when nothing is found.  The cache
    [validated_paths] is threaded through the calls.  The host is Linux:
    [platform.system()] selects the Linux candidates and fallback. *)

Module Resolver.
Section WithEnv.

  Variable E : env.

  (** [os.environ.get('GODOT_PATH')], [os.path.expanduser('~')] and the
      configuration flag [strictPathValidation]. *)
  Variable GODOT_PATH : option string.
  Variable home : string.
  Variable strict_path_validation : bool.

  (** [is_valid_godot_path_sync]. *)
Definition is_valid_godot_path_sync (path : string) : M bool :=
    if String.eqb (Py.lower path) "godot" then ret true
    else os_path_exists E path.

  (** [is_valid_godot_path]: the verdict and the cache after the call. *)
Definition is_valid_godot_path (path : string) (validated_paths : list (string * bool))
    : M (bool * list (string * bool)) :=
    match dict_get path validated_paths with
    | Some verdict => ret (verdict, validated_paths)
    | None =>
        try_except
          (absent <-
             (if negb (String.eqb (Py.lower path) "godot") then
                ex <- os_path_exists E path ;; ret (negb ex)
              else ret false) ;;
           if absent then ret (false, dict_set path false validated_paths)
           else
             let command :=
               if negb (String.eqb (Py.lower path) "godot")
               then [path; "--version"] else ["godot"; "--version"] in
             _ <- subprocess_run E SiteVersion command (Some 10%nat) ;;
             ret (true, dict_set path true validated_paths))
          (fun _ => ret (false, dict_set path false validated_paths))
    end.

  (** The candidates of the automatic detection on Linux. *)
Definition possible_paths : list string :=
    [ "godot"; "/usr/bin/godot"; "/usr/local/bin/godot"; "/snap/bin/godot";
      PosixPath.join (PosixPath.join (PosixPath.join home ".local") "bin") "godot" ].

  (** The loop [for path in possible_paths], which returns at the first
      valid candidate; the result tells whether one was found. *)
Fixpoint try_paths (paths : list string) (validated_paths : list (string * bool))
    : M (bool * list (string * bool)) :=
    match paths with
    | [] => ret (false, validated_paths)
    | path :: rest =>
        let normalized_path := PosixPath.normpath path in
        r <- is_valid_godot_path normalized_path validated_paths ;;
        if fst r then
          modify (set_godot_path (Some normalized_path)) ;;
          ret (true, snd r)
        else try_paths rest (snd r)
    end.

  (** The part the two detection functions share: the current path, the
      environment variable, the candidates. *)
Definition search (validated_paths : list (string * bool))
    : M (bool * list (string * bool)) :=
    s <- get ;;
    r <- (if no_godot_path s then ret (false, validated_paths)
          else is_valid_godot_path (the_godot_path s) validated_paths) ;;
    if fst r then ret r
    else
      r <- match GODOT_PATH with
           | Some value =>
               let normalized_path := PosixPath.normpath value in
               r' <- is_valid_godot_path normalized_path (snd r) ;;
               if fst r' then
                 modify (set_godot_path (Some normalized_path)) ;;
                 ret r'
               else ret r'
           | None => ret (false, snd r)
           end ;;
      if fst r then ret r
      else try_paths possible_paths (snd r).

  (** [detect_godot_path_sync] of [godot_mcp.py]. *)
Definition detect_godot_path_sync (validated_paths : list (string * bool))
    : M (list (string * bool)) :=
    r <- search validated_paths ;;
    if fst r then ret (snd r)
    else
      (if strict_path_validation then modify (set_godot_path None)
       else modify (set_godot_path (Some (PosixPath.normpath "/usr/bin/godot")))) ;;
      ret (snd r).

  (** [detect_godot_path] of [save_godot.py]. *)
Definition detect_godot_path (validated_paths : list (string * bool))
    : M (list (string * bool)) :=
    r <- search validated_paths ;;
    if fst r then ret (snd r)
    else if strict_path_validation then
      raise (PyExn RuntimeError
               "Could not find a valid Godot executable. Set GODOT_PATH or provide a valid path in config.")
    else
      modify (set_godot_path (Some (PosixPath.normpath "/usr/bin/godot"))) ;;
      ret (snd r).

  (** The part of [GodotMCP.__init__] that settles [godot_path], from
      the [godotPath] entry of the configuration. *)
Definition init (godotPath : option string) : M (list (string * bool)) :=
    (if negb (missing godotPath) then
       let normalized_path := PosixPath.normpath (arg godotPath) in
       modify (set_godot_path (Some normalized_path)) ;;
       ok <- is_valid_godot_path_sync normalized_path ;;
       if negb ok then modify (set_godot_path None) else ret tt
     else ret tt) ;;
    validated_paths <- detect_godot_path_sync [] ;;
    s <- get ;;
    if no_godot_path s then
      if strict_path_validation then
        raise (PyExn RuntimeError
                 "Failed to find a valid Godot executable path during initialization.")
      else ret validated_paths
    else ret validated_paths.

End WithEnv.
End Resolver.

(** ** Invariants and concrete worlds *)

(** At most one session: a child that is running is the one the manager
    holds, the handle names a child of the table, and every launch found
    no child running. *)
Definition one_session (s : state) : Prop :=
  (forall p, status_of p s = Alive -> active_process s = Some p)
  /\ (forall p, active_process s = Some p -> p < List.length (procs s))
  /\ (forall p cmd live, In (EvPopen p cmd live) (trace s) -> live = []).

(** A directory is a project when it holds the marker file. *)
Definition has_marker (es : list (string * node)) : Prop :=
  assoc "project.godot" es <> None.

Fixpoint has_slash (s : string) : bool :=
  match s with
  | EmptyString => false
  | String c s' => Ascii.eqb c PosixPath.sep || has_slash s'
  end.

(** A name a directory entry can bear. *)
Definition valid_name (n : string) : bool :=
  negb (Py.falsy n) && negb (String.eqb n ".") && negb (String.eqb n "..")
  && negb (has_slash n).

(** What it means for a run of the engine to outlast a timeout of [t]
    seconds. *)
Definition outlasts (b : run_behaviour) (t : nat) : Prop :=
  match b with
  | RunExits d _ _ _ => t < d
  | RunHangs => True
  | RunLaunchFails _ => False
  end.

(** The tree of the specification's example: a project at [/root] and
    one in its subdirectory [sub]; a second project at [/home/user/secret]
    beside the working directory [/home/user/work]. *)
Definition example_fs : node :=
  Dir [("root", Dir [("project.godot", File);
                     ("main.tscn", File);
                     ("sub", Dir [("project.godot", File)])]);
       ("home", Dir [("user", Dir [("work", Dir []);
                                   ("secret", Dir [("project.godot", File)])])])].

(** An engine of version 4.3 whose runs print the version and exit at
    once, and whose sessions print one line and honour SIGTERM. *)
Definition example_env : env :=
  mkEnv example_fs "/home/user/work" "/srv/godot_operations.gd" true
        (Some "/usr/bin/godot")
        (fun _ _ => RunExits 1 0 "4.3.stable.official" EmptyString)
        (fun _ _ => mkSpawn None ["ready"] [] None (Some (1, 0%Z)))
        (fun _ _ => "{}") (fun _ _ => "non-zero exit") (fun _ _ => "timed out").

(** The same world with an engine whose runs fail with exit code 1. *)
Definition failing_env : env :=
  mkEnv example_fs "/home/user/work" "/srv/godot_operations.gd" true
        (Some "/usr/bin/godot")
        (fun _ _ => RunExits 1 1 "partial output" "ERROR: scene is broken")
        (fun _ _ => mkSpawn None [] [] None None)
        (fun _ _ => "{}") (fun _ _ => "non-zero exit") (fun _ _ => "timed out").

(** The same world with an engine whose runs never end. *)
Definition hanging_env : env :=
  mkEnv example_fs "/home/user/work" "/srv/godot_operations.gd" true
        (Some "/usr/bin/godot")
        (fun _ _ => RunHangs)
        (fun _ _ => mkSpawn None [] [] None None)
        (fun _ _ => "{}") (fun _ _ => "non-zero exit") (fun _ _ => "timed out").

Definition example_state : state := init_state (Some "/usr/bin/godot").

(** A running session: child 0 is alive, one line is accumulated and one
    is queued on each stream. *)
Definition running_state : state :=
  mkState (Some 0) ["a"] ["x"] ["b"] ["y"] (Some "/usr/bin/godot")
          [mkProc ["/usr/bin/godot"; "-d"; "--path"; "/root"] Alive false (Some (1, 0%Z))]
          [].

(** A project at [/game] with files of every class, hidden entries, an
    [.import] file, and a hook below the hidden directory [.git]. *)
Definition project_fs : node :=
  Dir [("game", Dir [("project.godot", File);
                     ("main.tscn", File);
                     ("icon.png", File);
                     ("icon.png.import", File);
                     ("player.gd", File);
                     ("notes.txt", File);
                     (".gitignore", File);
                     (".git", Dir [("config", File);
                                   ("hooks", Dir [("pre-commit.sample", File)])]);
                     ("levels", Dir [("one.tscn", File); ("two.TSCN", File)])])].

(** That project with an engine whose runs exit with code 1 and [err]
    on stderr. *)
Definition complaining_env (err : string) : env :=
  mkEnv project_fs "/game" "/srv/godot_operations.gd" true
        (Some "/usr/bin/godot")
        (fun _ _ => RunExits 1 1 EmptyString err)
        (fun _ _ => mkSpawn None [] [] None None)
        (fun _ _ => "{}") (fun _ _ => "non-zero exit") (fun _ _ => "timed out").

(** The lines of a [project.godot] that sets the name twice. *)
Definition example_lines : list string :=
  ["[application]" ++ nl;
   "config/name=" ++ dq ++ "First" ++ dq ++ nl;
   "config/name=" ++ dq ++ "Second" ++ dq ++ nl;
   "run/main_scene=" ++ dq ++ "res://main.tscn" ++ dq ++ nl].

(** A session whose child has exited on its own. *)
Definition exited_state : state := child_step (ChildExit 0 0%Z) running_state.

(** ** Notions used in the proofs *)

(** A path component that is a plain name other than [..]. *)
Definition clean (c : string) : Prop := has_slash c = false /\ c <> "..".

(** A loop whose body only appends to the list it threads. *)
Definition appends {A B} (body : A -> list B -> M (list B)) (x : A) : Prop :=
  forall acc s, exists l s', body x acc s = (Return (acc ++ l)%list, s').

(** The launches recorded in a trace, each by the children that were
    running at that moment. *)
Fixpoint launches (tr : list event) : list (list pid) :=
  match tr with
  | [] => []
  | EvPopen _ _ live :: tr' => live :: launches tr'
  | _ :: tr' => launches tr'
  end.

(** The runs of the operations script recorded in a trace. *)
Fixpoint script_runs (tr : list event) : list (list string) :=
  match tr with
  | [] => []
  | EvRun SiteOperation _ cmd _ :: tr' => cmd :: script_runs tr'
  | _ :: tr' => script_runs tr'
  end.

(** No child of the table is running. *)
Definition all_exited (s : state) : Prop := forall p, status_of p s <> Alive.

(** Every launch of the trace found no child running. *)
Definition clean_launches (s : state) : Prop :=
  forall live, In live (launches (trace s)) -> live = [].

(** [establishes P m Q]: from a state in [P], [m] ends in a state in
    [Q], whatever its outcome. *)
Definition establishes {A} (P : state -> Prop) (m : M A) (Q : state -> Prop) : Prop :=
  forall s, P s -> Q (snd (m s)).

(** Between the stop of the old session and the launch of the new one:
    no child is running. *)
Definition quiet (s : state) : Prop :=
  all_exited s
  /\ (forall p, active_process s = Some p -> p < List.length (procs s))
  /\ clean_launches s.

(** The state a successful launch of [command] leaves behind. *)
Definition launched (E : env) (command : list string) (s : state) : state :=
  let p := List.length (procs s) in
  let b := spawn_oracle E p command in
  mkState (Some p) [] [] (sb_early_out b) (sb_early_err b) (godot_path s)
          (procs s ++ [mkProc command
                         match sb_early_exit b with
                         | Some rc => Exited rc
                         | None => Alive
                         end false (sb_term b)])%list
          (trace s ++ [EvPopen p command (live_pids 0 (procs s)); EvSleep])%list.

(** The state [_read_output_queues] leaves. *)
Definition drained (s : state) : state :=
  set_stderr_queue []
    (set_errors (active_process_errors s ++ stderr_queue s)%list
       (set_stdout_queue []
          (set_output (active_process_output s ++ stdout_queue s)%list s))).

(** The command [execute_operation] of [godot_mcp.py] runs. *)
Definition operation_command (E : env) (gp operation : string)
           (params : list (string * pvalue)) (project_path : string) : list string :=
  ([gp; "--headless"; "--path"; project_path; "--script";
    operations_script_path E; operation;
    json_dumps E JsonCompact (GodotMCP.convert_camel_to_snake_case (PDict params))]
     ++ (if GODOT_DEBUG_MODE E then ["--debug-godot"] else []))%list.

(** A computation that returns or raises from every state. *)
Definition terminates {A} (m : M A) : Prop := forall s, fst (m s) <> Diverge.

(** Names in snake_case: no upper-case letter, no leading underscore. *)
Fixpoint no_upper (s : string) : bool :=
  match s with
  | EmptyString => true
  | String c s' => negb (is_upper c) && no_upper s'
  end.

Fixpoint ascii_only (s : string) : bool :=
  match s with
  | EmptyString => true
  | String c s' => (nat_of_ascii c <? 128)%nat && ascii_only s'
  end.

Definition snake_name (key : string) : bool :=
  ascii_only key && no_upper key && negb (Py.startswith key "_").

Fixpoint distinct (keys : list string) : bool :=
  match keys with
  | [] => true
  | k :: ks => negb (Py.mem k ks) && distinct ks
  end.

(** A dictionary, with the dictionaries nested in it as values, whose
    keys are distinct names in snake_case. *)
Fixpoint snake_keys (v : pvalue) : bool :=
  match v with
  | PDict d =>
      distinct (map fst d)
      && (fix all (d : list (string * pvalue)) : bool :=
            match d with
            | [] => true
            | (k, v') :: d' =>
                snake_name k
                && match v' with PDict _ => snake_keys v' | _ => true end
                && all d'
            end) d
  | _ => true
  end.

(** Values whose dictionary keys, at every depth, are ASCII. *)
Fixpoint ascii_keys (v : pvalue) : bool :=
  match v with
  | PStr _ => true
  | PList l =>
      (fix all (l : list pvalue) : bool :=
         match l with
         | [] => true
         | x :: l' => ascii_keys x && all l'
         end) l
  | PDict d =>
      (fix all (d : list (string * pvalue)) : bool :=
         match d with
         | [] => true
         | (k, x) :: d' => ascii_only k && ascii_keys x && all d'
         end) d
  end.

(** What [convert_camel_to_snake_case] of [godot_mcp.py] does to a
    value of a dictionary. *)
Definition mcp_convert_value (value : pvalue) : pvalue :=
  match value with
  | PDict _ => GodotMCP.convert_camel_to_snake_case value
  | PList l =>
      PList (map (fun item => match item with
                              | PDict _ => GodotMCP.convert_camel_to_snake_case item
                              | _ => item
                              end) l)
  | _ => value
  end.

(** The value a line of [project.godot] gives the project name, if it
    is a [config/name=] line: what follows the first [=], stripped. *)
Definition name_value (line : string) : option string :=
  let line_strip := Py.strip line in
  if Py.startswith line_strip "config/name=" then
    Some (Py.strip (substring 12 (String.length line_strip - 12) line_strip))
  else None.

(** [s.startswith('"') and s.endswith('"')]. *)
Definition quoted (s : string) : bool := Py.startswith s dq && Py.endswith s dq.

Definition add_structure (a b : structure) : structure :=
  mkStructure (scenes a + scenes b) (scripts a + scripts b)
              (assets a + assets b) (other a + other b).

(** The files [get_project_structure] of [godot_mcp.py] counts, by
    recursion on the tree: every file of the directory by its class, and
    every subdirectory that is not hidden. *)
Fixpoint tree_count (n : node) : structure :=
  match n with
  | File => mkStructure 0 0 0 0
  | Dir es =>
      (fix entries (l : list (string * node)) : structure :=
         match l with
         | [] => mkStructure 0 0 0 0
         | (name, child) :: l' =>
             add_structure
               match child with
               | File => GodotMCPTools.count_file name (mkStructure 0 0 0 0)
               | Dir _ => if hidden name then mkStructure 0 0 0 0 else tree_count child
               end
               (entries l')
         end) es
  end.

Definition count_files (files : list string) (st : structure) : structure :=
  fold_left (fun st file => GodotMCPTools.count_file file st) files st.

Definition count_triples (triples : list (string * list string * list string))
           (st : structure) : structure :=
  fold_left (fun st '(_, _, files) => count_files files st) triples st.

(** The files [get_project_structure_async] of [save_godot.py] counts,
    by recursion on the tree; [skip] tells whether the directory's own
    name is hidden.  Every subdirectory is entered, hidden or not. *)
Fixpoint server_tree_count (skip : bool) (n : node) : structure :=
  match n with
  | File => mkStructure 0 0 0 0
  | Dir es =>
      (fix entries (l : list (string * node)) : structure :=
         match l with
         | [] => mkStructure 0 0 0 0
         | (name, child) :: l' =>
             add_structure
               match child with
               | File => if skip then mkStructure 0 0 0 0
                         else GodotServerTools.count_file name (mkStructure 0 0 0 0)
               | Dir _ => server_tree_count (hidden name) child
               end
               (entries l')
         end) es
  end.

(** Directory entries bear names without a slash. *)
Fixpoint plain_names (n : node) : bool :=
  match n with
  | File => true
  | Dir es =>
      (fix all (l : list (string * node)) : bool :=
         match l with
         | [] => true
         | (name, child) :: l' => negb (has_slash name) && plain_names child && all l'
         end) es
  end.

Definition server_count_files (files : list string) (st : structure) : structure :=
  fold_left (fun st file => GodotServerTools.count_file file st) files st.

Definition server_count_triples (triples : list (string * list string * list string))
           (st : structure) : structure :=
  fold_left (fun st '(root, _, files) =>
               if Py.startswith (PosixPath.basename root) "." then st
               else server_count_files files st) triples st.

(** What escapes a tool whose [try] re-raises [FileNotFoundError] and
    wraps the rest: a [ValueError] comes from the checks of the
    arguments, made before anything is touched. *)
Definition wraps_errors {A} (s : state) (r : outcome A * state) : Prop :=
  fst r <> Diverge
  /\ (forall e, fst r = Raise e ->
        match e with
        | PyExn ValueError _ => snd r = s
        | PyExn FileNotFoundError _ | PyExn RuntimeError _ => True
        | _ => False
        end).

(** * Properties *)

(** ** Lists, the process table and the queues *)

Lemma drain_app : forall q acc, drain q acc = (acc ++ q)%list.
Proof.
  induction q as [|l q IH]; intro acc; simpl.
  - now rewrite app_nil_r.
  - rewrite IH, <- app_assoc. reflexivity.
Qed.

Lemma nth_error_update_nth_eq {A} (f : A -> A) :
  forall l n x, nth_error l n = Some x -> nth_error (update_nth n f l) n = Some (f x).
Proof.
  induction l as [|y l IH]; intros [|n] x H; simpl in *; try discriminate.
  - now inversion H.
  - now apply IH.
Qed.

Lemma nth_error_update_nth_neq {A} (f : A -> A) :
  forall l n m, n <> m -> nth_error (update_nth n f l) m = nth_error l m.
Proof.
  induction l as [|y l IH]; intros [|n] [|m] H; simpl in *; try reflexivity.
  - congruence.
  - apply IH. congruence.
Qed.

Lemma nth_error_update_nth_none {A} (f : A -> A) :
  forall l n m, nth_error l m = None -> nth_error (update_nth n f l) m = None.
Proof.
  induction l as [|y l IH]; intros [|n] [|m] H; simpl in *;
    try reflexivity; try discriminate; auto.
Qed.

Lemma length_update_nth {A} (f : A -> A) :
  forall l n, List.length (update_nth n f l) = List.length l.
Proof.
  induction l as [|y l IH]; intros [|n]; simpl; auto.
Qed.

(** Unfolds the monad and the process primitives, leaving the table
    lookups in place. *)
Ltac run_monad :=
  cbv [bind ret raise diverge get modify log try_except poll terminate wait kill
       _read_output_queues _start_output_threads get_proc status_of] in *;
  cbn [fst snd] in *.

Ltac crunch := cbn -[nth_error update_nth String.append Nat.ltb Nat.leb Z.eqb].

(** ** C4: requests without a session *)

(** C4.  With no active session ([active_process] is [None], as after
    construction and after every teardown) [get_debug_output] and
    [stop_project] fail: [godot_mcp.py] raises the no-active-process
    [RuntimeError], [save_godot.py] returns the no-active-process error
    payload; neither touches the state. *)
Theorem no_session_requests_fail :
  forall (E : env) (s : state),
    active_process s = None ->
    GodotMCP.get_debug_output s
      = (Raise (PyExn RuntimeError "No active Godot process. Use run_project first."), s)
    /\ GodotMCP.stop_project s
      = (Raise (PyExn RuntimeError "No active Godot process to stop."), s)
    /\ (exists r, GodotServer.handle_get_debug_output E s = (Return r, s)
                  /\ isError r = true
                  /\ hd EmptyString (content r) = "No active Godot process.")
    /\ (exists r, GodotServer.handle_stop_project E s = (Return r, s)
                  /\ isError r = true
                  /\ hd EmptyString (content r) = "No active Godot process to stop.").
Proof.
  intros E s Hidle.
  unfold GodotMCP.get_debug_output, GodotMCP.stop_project,
    GodotServer.handle_get_debug_output, GodotServer.handle_stop_project.
  run_monad. rewrite Hidle.
  repeat split; try reflexivity; eexists; repeat split.
Qed.

Lemma no_session_requests_fail_witness :
  active_process example_state = None
  /\ fst (GodotMCP.get_debug_output example_state)
     = Raise (PyExn RuntimeError "No active Godot process. Use run_project first.").
Proof.
  split; [reflexivity|].
  rewrite (proj1 (no_session_requests_fail example_env example_state eq_refl)).
  reflexivity.
Defined.

(** A teardown leaves the manager without a session. *)
Lemma cleanup_clears_handle :
  forall s, active_process (snd (GodotMCP.cleanup s)) = None.
Proof.
  intro s. unfold GodotMCP.cleanup. run_monad.
  destruct (active_process s) as [p|] eqn:Ha; [|exact Ha].
  destruct (nth_error (procs s) p) as [q|] eqn:Hq; crunch; [|reflexivity].
  destruct (p_status q) eqn:Hst; crunch; [|reflexivity].
  rewrite (nth_error_update_nth_eq set_signalled _ _ _ Hq). crunch. rewrite Hst.
  destruct (p_term q) as [[d rc]|]; crunch.
  - destruct (d <=? 5)%nat; crunch; [reflexivity|].
    rewrite (nth_error_update_nth_eq set_signalled _ _ _ Hq). crunch.
    rewrite Hst. reflexivity.
  - rewrite (nth_error_update_nth_eq set_signalled _ _ _ Hq). crunch.
    rewrite Hst. reflexivity.
Qed.

(** ** C9: stopping a running session *)

(** C9.  [stop_project] of [godot_mcp.py] on a session whose child is
    running drains both queues, sends SIGTERM, waits with a timeout of 5
    seconds and sends SIGKILL exactly when the child has not exited by
    then; it returns the accumulated lines followed by the drained ones
    and leaves the manager idle: no handle, both sequences empty, the
    child exited. *)
Theorem stop_project_running :
  forall (s : state) (p : pid) (q : proc),
    active_process s = Some p ->
    nth_error (procs s) p = Some q ->
    p_status q = Alive ->
    let graceful :=
      match p_term q with Some (d, _) => (d <=? 5)%nat | None => false end in
    let s' := snd (GodotMCP.stop_project s) in
    fst (GodotMCP.stop_project s)
      = Return (mkStop "Godot project stopped"
                  (active_process_output s ++ stdout_queue s)%list
                  (active_process_errors s ++ stderr_queue s)%list)
    /\ trace s' = (trace s ++ EvTerminate p :: EvWait p 5
                     :: (if graceful then [] else [EvKill p]))%list
    /\ alive (status_of p s') = false
    /\ active_process s' = None
    /\ active_process_output s' = []
    /\ active_process_errors s' = []
    /\ stdout_queue s' = [] /\ stderr_queue s' = [].
Proof.
  intros s p q Ha Hq Hst graceful s'. subst s' graceful.
  pose proof (nth_error_update_nth_eq set_signalled _ _ _ Hq) as Hq1.
  unfold GodotMCP.stop_project, GodotMCP.cleanup.
  run_monad.
  repeat (progress (rewrite ?Ha, ?Hq, ?Hq1, ?Hst; crunch)).
  rewrite !drain_app.
  destruct (p_term q) as [[d rc]|]; crunch.
  - destruct (d <=? 5)%nat eqn:Hd; crunch.
    + repeat split; try reflexivity.
      * now rewrite <- app_assoc.
      * now rewrite (nth_error_update_nth_eq _ _ _ _ Hq1).
    + repeat (progress (rewrite ?Ha, ?Hq, ?Hq1, ?Hst; crunch)).
      repeat split; try reflexivity.
      * now rewrite <- !app_assoc.
      * rewrite (nth_error_update_nth_eq _ _ _ _ Hq1). cbn. now rewrite Hst.
  - repeat (progress (rewrite ?Ha, ?Hq, ?Hq1, ?Hst; crunch)).
    repeat split; try reflexivity.
    * now rewrite <- !app_assoc.
    * rewrite (nth_error_update_nth_eq _ _ _ _ Hq1). cbn. now rewrite Hst.
Qed.

Lemma stop_project_running_witness :
  fst (GodotMCP.stop_project running_state)
    = Return (mkStop "Godot project stopped" ["a"; "b"] ["x"; "y"])
  /\ trace (snd (GodotMCP.stop_project running_state)) = [EvTerminate 0; EvWait 0 5]
  /\ active_process (snd (GodotMCP.stop_project running_state)) = None.
Proof.
  pose proof (stop_project_running running_state 0
                (mkProc ["/usr/bin/godot"; "-d"; "--path"; "/root"] Alive false
                        (Some (1, 0%Z)))
                eq_refl eq_refl eq_refl) as H.
  cbv zeta in H. destruct H as (H1 & H2 & _ & H4 & _).
  repeat split; assumption.
Defined.

(** [save_godot.py] builds its payload after [cleanup] has emptied the
    sequences: the final lines it reports are always empty. *)
Lemma handle_stop_project_reports_nothing :
  fst (GodotServer.handle_stop_project example_env running_state)
  = Return (text_response
              (json_dumps example_env JsonIndent2
                 (PDict [("message", PStr "Godot project stopped");
                         ("finalOutput", PList []);
                         ("finalErrors", PList [])]))).
Proof. reflexivity. Qed.

(** ** C5 and C6: the one-shot invoker *)

(** C5.  When the engine run of [execute_operation] ends with a
    non-zero return code (within the 60 seconds of [godot_mcp.py]; at
    any time under [save_godot.py], which sets no timeout), the invoker
    raises nothing and returns the captured streams as they are. *)
Theorem nonzero_exit_returns_output :
  forall (E : env) (operation : string) (params : list (string * pvalue))
         (project_path : string) (s : state)
         (d : nat) (rc : Z) (out err : string),
    no_godot_path s = false ->
    (forall cmd, run_oracle E (List.length (procs s)) cmd = RunExits d rc out err) ->
    rc <> 0%Z ->
    (d <= 60 ->
     fst (GodotMCP.execute_operation E operation params project_path s)
       = Return (out, err))
    /\ fst (GodotServer.execute_operation E operation params project_path s)
       = Return (out, err).
Proof.
  intros E operation params project_path s d rc out err Hgp Hrun Hrc.
  apply Z.eqb_neq in Hrc.
  split.
  - intro Hd.
    unfold GodotMCP.execute_operation, GodotMCP.ensure_godot_path, subprocess_run.
    run_monad. rewrite Hgp. crunch. rewrite Hrun. crunch.
    replace (60 <? d)%nat with false by (symmetry; apply Nat.ltb_ge; exact Hd).
    crunch. rewrite Hrc. reflexivity.
  - unfold GodotServer.execute_operation, subprocess_run.
    run_monad. rewrite Hgp. crunch. rewrite Hrun. crunch.
    rewrite Hrc. reflexivity.
Qed.

Lemma nonzero_exit_returns_output_witness :
  fst (GodotMCP.execute_operation failing_env "create_scene"
         [("scenePath", PStr "main.tscn")] "/root" example_state)
    = Return ("partial output", "ERROR: scene is broken")
  /\ fst (GodotServer.execute_operation failing_env "create_scene"
            [("scenePath", PStr "main.tscn")] "/root" example_state)
    = Return ("partial output", "ERROR: scene is broken").
Proof.
  pose proof (nonzero_exit_returns_output failing_env "create_scene"
                [("scenePath", PStr "main.tscn")] "/root" example_state
                1 1%Z "partial output" "ERROR: scene is broken"
                eq_refl (fun _ => eq_refl)) as H.
  destruct H as [H1 H2]; [discriminate|].
  split; [apply H1; repeat constructor | exact H2].
Defined.

(** C6.  When the engine run of [execute_operation] in [godot_mcp.py]
    outlasts the timeout of 60 seconds, the invoker raises the error
    that names the operation as timed out, and the child it spawned has
    been killed: the run and the kill are the two interactions of the
    call, and the child is in the table as exited on SIGKILL. *)
Theorem timeout_raises_and_kills :
  forall (E : env) (operation : string) (params : list (string * pvalue))
         (project_path : string) (s : state),
    no_godot_path s = false ->
    (forall cmd, outlasts (run_oracle E (List.length (procs s)) cmd) 60) ->
    let r := GodotMCP.execute_operation E operation params project_path s in
    let child := List.length (procs s) in
    fst r = Raise (PyExn RuntimeError ("Godot operation '" ++ operation ++ "' timed out"))
    /\ (exists cmd,
          trace (snd r)
            = (trace s ++ [EvRun SiteOperation child cmd (Some 60); EvKill child])%list
          /\ procs (snd r) = (procs s ++ [mkProc cmd (Exited (-9)) false None])%list)
    /\ status_of child (snd r) = Exited (-9).
Proof.
  intros E operation params project_path s Hgp Hrun r child. subst r child.
  unfold GodotMCP.execute_operation, GodotMCP.ensure_godot_path, subprocess_run.
  run_monad. rewrite Hgp. crunch.
  match goal with
  | |- context [run_oracle E _ ?c] => specialize (Hrun c); destruct (run_oracle E _ c)
  end; cbn in Hrun.
  - apply Nat.ltb_lt in Hrun. crunch. rewrite Hrun. crunch.
    repeat split.
    + eexists. split; [rewrite <- app_assoc; reflexivity | reflexivity].
    + rewrite nth_error_app2, Nat.sub_diag by lia. reflexivity.
  - crunch. repeat split.
    + eexists. split; [rewrite <- app_assoc; reflexivity | reflexivity].
    + rewrite nth_error_app2, Nat.sub_diag by lia. reflexivity.
  - contradiction.
Qed.

Lemma timeout_raises_and_kills_witness :
  fst (GodotMCP.execute_operation hanging_env "add_node" [] "/root" example_state)
    = Raise (PyExn RuntimeError "Godot operation 'add_node' timed out")
  /\ status_of 0 (snd (GodotMCP.execute_operation hanging_env "add_node" []
                          "/root" example_state))
     = Exited (-9).
Proof.
  pose proof (timeout_raises_and_kills hanging_env "add_node" [] "/root"
                example_state eq_refl (fun _ => I)) as H.
  cbv zeta in H. destruct H as (H1 & _ & H3).
  split; assumption.
Defined.

(** X18.  [save_godot.py] calls [subprocess.run] without a timeout: a run that
    never ends is never interrupted, and no error is raised. *)
Lemma unbounded_invoker_never_times_out :
  forall (E : env) (operation : string) (params : list (string * pvalue))
         (project_path : string) (s : state),
    no_godot_path s = false ->
    (forall cmd, run_oracle E (List.length (procs s)) cmd = RunHangs) ->
    fst (GodotServer.execute_operation E operation params project_path s) = Diverge
    /\ status_of (List.length (procs s))
         (snd (GodotServer.execute_operation E operation params project_path s))
       = Alive.
Proof.
  intros E operation params project_path s Hgp Hrun.
  unfold GodotServer.execute_operation, subprocess_run.
  run_monad. rewrite Hgp. crunch. rewrite Hrun. crunch.
  split; [reflexivity|].
  rewrite nth_error_app2, Nat.sub_diag by lia. reflexivity.
Qed.

Lemma unbounded_invoker_never_times_out_witness :
  fst (GodotServer.execute_operation hanging_env "add_node" [] "/root" example_state)
  = Diverge.
Proof.
  exact (proj1 (unbounded_invoker_never_times_out hanging_env "add_node" [] "/root"
                  example_state eq_refl (fun _ => eq_refl))).
Defined.

(** ** Paths: splitting, joining and normalising *)

Lemma split_nonempty : forall sep s, Py.split sep s <> [].
Proof.
  intros sep s. destruct s as [|c s]; simpl; [discriminate|].
  destruct (Ascii.eqb c sep); [discriminate|].
  destruct (Py.split sep s); discriminate.
Qed.

Lemma split_app_sep : forall sep a b,
  Py.split sep (a ++ String sep b) = (Py.split sep a ++ Py.split sep b)%list.
Proof.
  intros sep a b. induction a as [|c a IH]; simpl.
  - now rewrite Ascii.eqb_refl.
  - destruct (Ascii.eqb c sep); [now rewrite IH|].
    rewrite IH. pose proof (split_nonempty sep a) as Hne.
    destruct (Py.split sep a); [contradiction|reflexivity].
Qed.

Lemma split_no_slash : forall s, has_slash s = false -> Py.split PosixPath.sep s = [s].
Proof.
  induction s as [|c s IH]; simpl; intro H; [reflexivity|].
  apply orb_false_iff in H. destruct H as [Hc Hs].
  rewrite Hc, (IH Hs). reflexivity.
Qed.

Lemma split_parts_no_slash : forall s x,
  In x (Py.split PosixPath.sep s) -> has_slash x = false.
Proof.
  induction s as [|c s IH]; simpl; intros x Hin.
  - destruct Hin as [<-|[]]. reflexivity.
  - destruct (Ascii.eqb c PosixPath.sep) eqn:Hc.
    + destruct Hin as [<-|Hin]; [reflexivity|auto].
    + pose proof (split_nonempty PosixPath.sep s) as Hne.
      destruct (Py.split PosixPath.sep s) as [|w ws]; [contradiction|].
      destruct Hin as [<-|Hin].
      * simpl. rewrite Hc. apply IH. now left.
      * apply IH. now right.
Qed.

Lemma split_join : forall comps,
  comps <> [] -> Forall (fun c => has_slash c = false) comps ->
  Py.split PosixPath.sep (Py.join "/" comps) = comps.
Proof.
  induction comps as [|c comps IH]; intros Hne Hall; [contradiction|].
  inversion Hall as [|? ? Hc Hrest]; subst.
  destruct comps as [|c' comps'].
  - simpl. now apply split_no_slash.
  - change (Py.join "/" (c :: c' :: comps')) with (c ++ String "/" (Py.join "/" (c' :: comps'))).
    unfold PosixPath.sep in *.
    rewrite split_app_sep, IH by (auto; discriminate).
    pose proof (split_no_slash c Hc) as Hs. unfold PosixPath.sep in Hs.
    now rewrite Hs.
Qed.

Lemma norm_comps_absolute : forall comps i acc,
  i <> 0 -> Forall clean acc ->
  Forall (fun c => has_slash c = false) comps ->
  Forall clean (PosixPath.norm_comps i acc comps).
Proof.
  induction comps as [|c comps IH]; intros i acc Hi Hacc Hcomps; simpl.
  - now apply Forall_rev.
  - inversion Hcomps as [|? ? Hc Hrest]; subst.
    destruct (String.eqb c "" || String.eqb c ".") eqn:Hskip; [now apply IH|].
    destruct (String.eqb c "..") eqn:Hdd; simpl.
    + replace (i =? 0)%nat with false by (symmetry; now apply Nat.eqb_neq).
      simpl.
      destruct acc as [|top acc'].
      * now apply IH.
      * inversion Hacc as [|? ? Htop Hacc']; subst.
        destruct (String.eqb top "..") eqn:Htd.
        -- apply String.eqb_eq in Htd. destruct Htop as [_ Htop]. contradiction.
        -- now apply IH.
    + apply IH; auto. constructor; auto. split; [assumption|].
      now apply String.eqb_neq.
Qed.

Lemma mem_false : forall x xs, ~ In x xs -> Py.mem x xs = false.
Proof.
  induction xs as [|y ys IH]; simpl; intro H; [reflexivity|].
  rewrite IH by tauto.
  destruct (String.eqb x y) eqn:Hxy; [|reflexivity].
  apply String.eqb_eq in Hxy. subst. tauto.
Qed.

Lemma mem_true : forall x xs, In x xs -> Py.mem x xs = true.
Proof.
  induction xs as [|y ys IH]; simpl; intro H; [contradiction|].
  destruct H as [->|H]; [now rewrite String.eqb_refl|].
  rewrite (IH H). apply orb_true_r.
Qed.

Lemma startswith_slash : forall r, Py.startswith (String "/" r) "/" = true.
Proof. intros [|c r]; reflexivity. Qed.

Lemma isabs_inv : forall p, PosixPath.isabs p = true -> exists r, p = String "/" r.
Proof.
  intros [|c r]; unfold PosixPath.isabs, Py.startswith; cbn [String.prefix];
    [discriminate|].
  destruct (ascii_dec "/" c) as [<-|]; [eauto|discriminate].
Qed.

(** The body of a normalised absolute path has no [..] component. *)
Lemma split_join_clean : forall comps,
  Forall clean comps -> ~ In ".." (Py.split PosixPath.sep (Py.join "/" comps)).
Proof.
  intros comps Hall Hin.
  destruct comps as [|c comps].
  - simpl in Hin. destruct Hin as [H|[]]. discriminate.
  - rewrite split_join in Hin.
    + rewrite Forall_forall in Hall. destruct (Hall _ Hin) as [_ H]. now apply H.
    + discriminate.
    + eapply Forall_impl; [|exact Hall]. intros a [Ha _]. exact Ha.
Qed.

Lemma normpath_absolute_valid : forall r,
  validate_path (PosixPath.normpath (String "/" r)) = true.
Proof.
  intro r. unfold PosixPath.normpath.
  change (Py.falsy (String "/" r)) with false. cbv iota.
  rewrite startswith_slash.
  set (i := if Py.startswith (String "/" r) "//" && negb (Py.startswith (String "/" r) "///") then 2 else 1).
  assert (Hi : i <> 0) by (subst i; destruct (_ && _); discriminate).
  assert (Hclean : Forall clean (PosixPath.norm_comps i [] (Py.split PosixPath.sep (String "/" r)))).
  { apply norm_comps_absolute; auto.
    apply Forall_forall. intros x Hx. eapply split_parts_no_slash; eauto. }
  set (comps := PosixPath.norm_comps i [] (Py.split PosixPath.sep (String "/" r))) in *.
  pose proof (split_join_clean comps Hclean) as Hbody.
  cbv zeta.
  assert (Hcase : i = 1 \/ i = 2) by (subst i; destruct (_ && _); auto).
  unfold validate_path.
  destruct Hcase as [-> | ->]; cbn [Py.falsy String.append orb].
  - change ("/" ++ Py.join "/" comps) with (String "/" (Py.join "/" comps)).
    cbn [Py.falsy orb Py.split]. change (Ascii.eqb "/" PosixPath.sep) with true. cbv iota.
    rewrite mem_false; [reflexivity|].
    intros [H|H]; [discriminate|contradiction].
  - change ("//" ++ Py.join "/" comps) with (String "/" (String "/" (Py.join "/" comps))).
    cbn [Py.falsy orb Py.split]. change (Ascii.eqb "/" PosixPath.sep) with true. cbv iota.
    rewrite mem_false; [reflexivity|].
    intros [H|[H|H]]; [discriminate|discriminate|contradiction].
Qed.

Lemma join_absolute : forall cwd p,
  PosixPath.isabs cwd = true -> exists r, PosixPath.join cwd p = String "/" r.
Proof.
  intros cwd p Hcwd. destruct (isabs_inv _ Hcwd) as [c ->].
  unfold PosixPath.join.
  destruct (Py.startswith p "/") eqn:Hp.
  - now apply isabs_inv.
  - destruct (Py.falsy (String "/" c) || Py.endswith (String "/" c) "/"); simpl; eauto.
Qed.

Theorem validate_path_abspath : forall cwd p,
  PosixPath.isabs cwd = true -> validate_path (PosixPath.abspath cwd p) = true.
Proof.
  intros cwd p Hcwd. unfold PosixPath.abspath.
  destruct (PosixPath.isabs p) eqn:Hp.
  - destruct (isabs_inv _ Hp) as [r ->]. apply normpath_absolute_valid.
  - destruct (join_absolute cwd p Hcwd) as [r ->]. apply normpath_absolute_valid.
Qed.

Lemma string_app_assoc : forall a b c : string, (a ++ b) ++ c = a ++ (b ++ c).
Proof. induction a as [|x a IH]; intros; simpl; [reflexivity|now rewrite IH]. Qed.

Lemma endswith_inv : forall s p, Py.endswith s p = true -> exists a, s = a ++ p.
Proof.
  induction s as [|c s IH]; intros p H; cbn [Py.endswith] in H.
  - rewrite orb_false_r in H. apply String.eqb_eq in H. subst. now exists "".
  - apply orb_true_iff in H. destruct H as [H|H].
    + apply String.eqb_eq in H. subst. now exists "".
    + destruct (IH _ H) as [a ->]. now exists (String c a).
Qed.

Lemma valid_name_inv : forall n,
  valid_name n = true ->
  Py.falsy n = false /\ String.eqb n "." = false /\ String.eqb n ".." = false
  /\ has_slash n = false.
Proof.
  intros n H. unfold valid_name in H.
  repeat (apply andb_true_iff in H; destruct H as [H ?]).
  repeat split; now apply negb_true_iff.
Qed.

Lemma valid_name_not_empty : forall n, valid_name n = true -> String.eqb n "" = false.
Proof.
  intros n H. destruct (valid_name_inv n H) as (Hf & _).
  destruct n; [discriminate|reflexivity].
Qed.

Lemma resolve_snoc : forall cs anc cur n,
  valid_name n = true ->
  resolve anc cur (cs ++ [n])
  = match resolve anc cur cs with
    | Some (Dir es) => assoc n es
    | _ => None
    end.
Proof.
  intros cs anc cur n Hn.
  destruct (valid_name_inv n Hn) as (_ & Hdot & Hdd & _).
  pose proof (valid_name_not_empty n Hn) as He.
  revert anc cur.
  induction cs as [|c cs IH]; intros anc cur; simpl.
  - destruct cur as [|es]; [reflexivity|].
    rewrite He, Hdot, Hdd. simpl. destruct (assoc n es); reflexivity.
  - destruct cur as [|es]; [reflexivity|].
    destruct (String.eqb c "" || String.eqb c "."); [apply IH|].
    destruct (String.eqb c "..").
    + destruct anc; apply IH.
    + destruct (assoc c es); [apply IH|reflexivity].
Qed.

Lemma resolve_snoc_empty : forall cs anc cur,
  resolve anc cur (cs ++ [""])
  = match resolve anc cur cs with
    | Some (Dir es) => Some (Dir es)
    | _ => None
    end.
Proof.
  induction cs as [|c cs IH]; intros anc cur; simpl.
  - destruct cur; reflexivity.
  - destruct cur as [|es]; [reflexivity|].
    destruct (String.eqb c "" || String.eqb c "."); [apply IH|].
    destruct (String.eqb c "..").
    + destruct anc; apply IH.
    + destruct (assoc c es); [apply IH|reflexivity].
Qed.

Lemma startswith_app : forall d x, Py.falsy d = false ->
  Py.startswith (d ++ x) "/" = Py.startswith d "/".
Proof.
  intros [|c d] x H; [discriminate|].
  unfold Py.startswith. cbn [String.append String.prefix].
  destruct (ascii_dec "/" c); [|reflexivity].
  destruct d; [destruct x|]; reflexivity.
Qed.

Lemma valid_name_relative : forall n, valid_name n = true -> Py.startswith n "/" = false.
Proof.
  intros n H. destruct (valid_name_inv n H) as (_ & _ & _ & Hs).
  destruct n as [|c n]; [reflexivity|].
  unfold Py.startswith. cbn [String.prefix]. simpl in Hs.
  apply orb_false_iff in Hs. destruct Hs as [Hc _].
  destruct (ascii_dec "/" c) as [<-|]; [discriminate|reflexivity].
Qed.

Lemma falsy_app : forall d x, Py.falsy d = false -> Py.falsy (d ++ x) = false.
Proof. intros [|c d] x H; [discriminate|reflexivity]. Qed.

(** An entry of a directory is found under the joined path. *)
Lemma lookup_join : forall E d n,
  Py.falsy d = false -> valid_name n = true ->
  lookup_path E (PosixPath.join d n)
  = match lookup_path E d with
    | Some (Dir es) => assoc n es
    | _ => None
    end.
Proof.
  intros E d n Hd Hn.
  pose proof (valid_name_inv n Hn) as (_ & _ & _ & Hslash).
  unfold PosixPath.join. rewrite (valid_name_relative n Hn), Hd. cbn [orb].
  unfold lookup_path, PosixPath.isabs. rewrite Hd.
  destruct (Py.endswith d "/") eqn:Hend.
  - destruct (endswith_inv _ _ Hend) as [a ->].
    rewrite falsy_app by assumption.
    rewrite startswith_app by assumption.
    set (Q := fun x => if Py.startswith (a ++ "/") "/" then x else cwd E ++ "/" ++ x).
    assert (HQ : exists Y, (forall x, Q ((a ++ "/") ++ x) = Y ++ String "/" x)).
    { subst Q. destruct (Py.startswith (a ++ "/") "/").
      - exists a. intro x. now rewrite string_app_assoc.
      - exists (cwd E ++ "/" ++ a). intro x.
        now rewrite !string_app_assoc. }
    destruct HQ as [Y HY].
    change (if Py.startswith (a ++ "/") "/" then (a ++ "/") ++ n else cwd E ++ "/" ++ (a ++ "/") ++ n)
      with (Q ((a ++ "/") ++ n)).
    replace (if Py.startswith (a ++ "/") "/" then a ++ "/" else cwd E ++ "/" ++ a ++ "/")
      with (Q ((a ++ "/") ++ "")).
    2:{ subst Q. cbv beta. rewrite string_app_assoc. reflexivity. }
    rewrite !HY. unfold PosixPath.sep.
    rewrite !split_app_sep.
    pose proof (split_no_slash n Hslash) as Hs. unfold PosixPath.sep in Hs. rewrite Hs.
    cbn [Py.split].
    rewrite resolve_snoc by assumption. rewrite resolve_snoc_empty.
    destruct (resolve [] (fs E) (Py.split "/" Y)) as [[|es]|]; reflexivity.
  - rewrite falsy_app by assumption.
    rewrite startswith_app by assumption.
    assert (HQ : (if Py.startswith d "/" then d ++ "/" ++ n else cwd E ++ "/" ++ d ++ "/" ++ n)
                 = (if Py.startswith d "/" then d else cwd E ++ "/" ++ d) ++ String "/" n).
    { destruct (Py.startswith d "/"); [reflexivity|].
      now rewrite !string_app_assoc. }
    rewrite HQ. unfold PosixPath.sep. rewrite split_app_sep.
    pose proof (split_no_slash n Hslash) as Hs. unfold PosixPath.sep in Hs. rewrite Hs.
    now rewrite resolve_snoc.
Qed.

(** ** C1: project discovery *)

Lemma assoc_in : forall n es v, assoc n es = Some v -> In (n, v) es.
Proof.
  induction es as [|[k w] es IH]; intros v H; simpl in H; [discriminate|].
  destruct (String.eqb k n) eqn:Hk.
  - apply String.eqb_eq in Hk. inversion H. subst. now left.
  - right. now apply IH.
Qed.

Lemma walk_node_subdir : forall keep top es n es',
  In (n, Dir es') es -> keep n = true ->
  In (PosixPath.join top n, filter keep (dir_names es'), file_names es')
     (walk_node keep top (Dir es)).
Proof.
  intros keep top es n es' Hin Hkeep.
  cbn [walk_node]. right.
  induction es as [|[k child] es IH]; [contradiction|].
  apply in_or_app.
  destruct Hin as [Heq|Hin].
  - inversion Heq; subst. left. cbn [is_dir andb]. rewrite Hkeep.
    cbn [walk_node]. now left.
  - right. now apply IH.
Qed.

Lemma for_each_appends {A B} (body : A -> list B -> M (list B)) :
  forall xs, (forall x, In x xs -> appends body x) ->
  forall acc s, exists l s', for_each xs acc body s = (Return (acc ++ l)%list, s').
Proof.
  induction xs as [|x xs IH]; intros Hall acc s; cbn [for_each].
  - exists [], s. now rewrite app_nil_r.
  - destruct (Hall x (or_introl eq_refl) acc s) as (l & s1 & Hx).
    unfold bind. rewrite Hx.
    destruct (IH (fun y Hy => Hall y (or_intror Hy)) (acc ++ l)%list s1) as (l' & s2 & Hr).
    rewrite Hr. exists (l ++ l')%list, s2. now rewrite app_assoc.
Qed.

Lemma for_each_hits {A B} (body : A -> list B -> M (list B)) (x : A) (y : B) :
  forall xs, (forall x', In x' xs -> appends body x') ->
  In x xs ->
  (forall acc s, exists l s', body x acc s = (Return (acc ++ l)%list, s') /\ In y l) ->
  forall acc s, exists l s', for_each xs acc body s = (Return (acc ++ l)%list, s') /\ In y l.
Proof.
  induction xs as [|x' xs IH]; intros Hall Hin Hx acc s; [contradiction|].
  cbn [for_each]. unfold bind.
  destruct Hin as [->|Hin].
  - destruct (Hx acc s) as (l & s1 & Hb & Hy). rewrite Hb.
    destruct (for_each_appends body xs (fun z Hz => Hall z (or_intror Hz)) (acc ++ l)%list s1)
      as (l' & s2 & Hr).
    rewrite Hr. exists (l ++ l')%list, s2. split; [now rewrite app_assoc|].
    apply in_or_app. now left.
  - destruct (Hall x' (or_introl eq_refl) acc s) as (l & s1 & Hb). rewrite Hb.
    destruct (IH (fun z Hz => Hall z (or_intror Hz)) Hin Hx (acc ++ l)%list s1)
      as (l' & s2 & Hr & Hy).
    rewrite Hr. exists (l ++ l')%list, s2. split; [now rewrite app_assoc|].
    apply in_or_app. now right.
Qed.

Lemma unique_projects_keeps : forall projects seen p,
  In p (map path projects) -> Py.mem p seen = false ->
  In p (map path (GodotMCP.unique_projects seen projects)).
Proof.
  induction projects as [|proj rest IH]; intros seen p Hin Hseen; [contradiction|].
  cbn [GodotMCP.unique_projects].
  destruct (Py.mem (path proj) seen) eqn:Hm.
  - destruct Hin as [Heq|Hin]; [congruence|]. now apply IH.
  - destruct (String.eqb p (path proj)) eqn:Hp.
    + apply String.eqb_eq in Hp. left. now symmetry.
    + destruct Hin as [Heq|Hin].
      * apply String.eqb_neq in Hp. congruence.
      * right. apply IH; [assumption|]. cbn [Py.mem]. now rewrite Hp, Hseen.
Qed.

Lemma string_length_app : forall a b, String.length (a ++ b) = String.length a + String.length b.
Proof. induction a as [|c a IH]; intro b; simpl; [reflexivity|now rewrite IH]. Qed.

Lemma join_longer : forall d n, Py.falsy d = false -> valid_name n = true ->
  String.eqb (PosixPath.join d n) d = false.
Proof.
  intros d n Hd Hn. apply String.eqb_neq. intro Heq.
  apply (f_equal String.length) in Heq.
  unfold PosixPath.join in Heq. rewrite (valid_name_relative n Hn) in Heq.
  destruct (valid_name_inv n Hn) as (Hf & _).
  destruct n as [|c n]; [discriminate|].
  destruct (Py.falsy d || Py.endswith d "/");
    rewrite ?string_length_app in Heq; simpl in Heq; lia.
Qed.

Lemma join_not_falsy : forall d n, Py.falsy d = false -> Py.falsy (PosixPath.join d n) = false.
Proof.
  intros d n Hd. unfold PosixPath.join.
  destruct (Py.startswith n "/") eqn:Hn.
  - destruct n; [discriminate|reflexivity].
  - rewrite Hd. cbn [orb]. destruct (Py.endswith d "/"); now apply falsy_app.
Qed.

Lemma validate_path_not_falsy : forall p, validate_path p = true -> Py.falsy p = false.
Proof. intros [|c p] H; [discriminate|reflexivity]. Qed.

Section Discovery.

  Variable E : env.
  Variables (directory sub : string) (es es' : list (string * node)).
  Hypothesis Hdir : lookup_path E directory = Some (Dir es).
  Hypothesis Hroot : has_marker es.
  Hypothesis Hname : valid_name sub = true.
  Hypothesis Hvisible : hidden sub = false.
  Hypothesis Hsub : assoc sub es = Some (Dir es').
  Hypothesis Hmarker : has_marker es'.
  Hypothesis Hnonempty : Py.falsy directory = false.

Lemma exists_root_marker :
    lookup_path E (PosixPath.join directory "project.godot") <> None.
Proof. rewrite lookup_join by (assumption || reflexivity). now rewrite Hdir. Qed.

Lemma lookup_subdir : lookup_path E (PosixPath.join directory sub) = Some (Dir es').
Proof. rewrite lookup_join by assumption. now rewrite Hdir. Qed.

Lemma exists_sub_marker :
    lookup_path E (PosixPath.join (PosixPath.join directory sub) "project.godot") <> None.
Proof.
    rewrite lookup_join; [|now apply join_not_falsy|reflexivity].
    now rewrite lookup_subdir.
Qed.

Lemma server_find_root_and_subdir : forall recursive s,
    exists projects s',
      GodotServer.find_godot_projects E directory recursive s = (Return projects, s')
      /\ In directory (map path projects)
      /\ In (PosixPath.join directory sub) (map path projects).
Proof.
    intros recursive s.
    pose proof exists_root_marker as Hr. pose proof exists_sub_marker as Hs.
    pose proof lookup_subdir as Hl.
    unfold GodotServer.find_godot_projects, os_path_exists.
    unfold bind at 1. unfold bind at 1. unfold log, modify, ret.
    destruct (lookup_path E (PosixPath.join directory "project.godot")) as [m|] eqn:Hm;
      [clear Hr|contradiction].
    unfold try_except.
    destruct recursive; cbn [negb].
    - unfold os_walk. unfold bind at 1. unfold bind at 1. unfold log, modify, ret.
      rewrite Hdir.
      match goal with
      | |- context [for_each ?xs ?a0 ?body ?st0] =>
          assert (Hfh : exists l s', for_each xs a0 body st0 = (Return (a0 ++ l)%list, s')
                        /\ In (mkProject (PosixPath.join directory sub)
                                 (PosixPath.basename (PosixPath.join directory sub))) l);
          [ apply (for_each_hits body
                      (PosixPath.join directory sub,
                       filter (fun d => negb (hidden d)) (dir_names es'), file_names es'))
          | destruct Hfh as (l & s2 & Hfe & Hin) ]
      end.
      + intros [[root ds] fns] _ acc s0. unfold bind, log, modify, ret.
        destruct (lookup_path E (PosixPath.join root "project.godot")); eauto.
        exists [], (add_event (EvExists (PosixPath.join root "project.godot")) s0).
        now rewrite app_nil_r.
      + apply walk_node_subdir; [now apply assoc_in | now rewrite Hvisible].
      + intros acc s0. unfold bind, log, modify, ret.
        destruct (lookup_path E (PosixPath.join (PosixPath.join directory sub) "project.godot"));
          [|contradiction].
        eexists _, _. split; [reflexivity|now left].
      + rewrite Hfe. exists ([mkProject directory (PosixPath.basename directory)] ++ l)%list, s2.
        split; [reflexivity|]. split; [now left|].
        rewrite map_app. apply in_or_app. right. now apply (in_map path) in Hin.
    - unfold os_listdir. unfold bind at 1. unfold bind at 1. unfold log, modify.
      rewrite Hdir. unfold ret at 1.
      match goal with
      | |- context [for_each ?xs ?a0 ?body ?st0] =>
          assert (Hfh : exists l s', for_each xs a0 body st0 = (Return (a0 ++ l)%list, s')
                        /\ In (mkProject (PosixPath.join directory sub) sub) l);
          [ apply (for_each_hits body sub)
          | destruct Hfh as (l & s2 & Hfe & Hin) ]
      end.
      + intros n _ acc s0. unfold os_path_isdir, bind, log, modify, ret.
        destruct (lookup_path E (PosixPath.join directory n)) as [[|?]|];
          try (exists [], (add_event (EvIsdir (PosixPath.join directory n)) s0);
               now rewrite app_nil_r).
        destruct (hidden n);
          try (exists [], (add_event (EvIsdir (PosixPath.join directory n)) s0);
               now rewrite app_nil_r).
        destruct (lookup_path E (PosixPath.join (PosixPath.join directory n) "project.godot")); eauto.
        eexists [], _. now rewrite app_nil_r.
      + exact (in_map fst _ _ (assoc_in _ _ _ Hsub)).
      + intros acc s0. unfold os_path_isdir, bind, log, modify, ret.
        rewrite Hl, Hvisible.
        destruct (lookup_path E (PosixPath.join (PosixPath.join directory sub) "project.godot"));
          [|contradiction].
        eexists _, _. split; [reflexivity|now left].
      + rewrite Hfe. exists ([mkProject directory (PosixPath.basename directory)] ++ l)%list, s2.
        split; [reflexivity|]. split; [now left|].
        rewrite map_app. apply in_or_app. right. now apply (in_map path) in Hin.
Qed.

Lemma mcp_find_root_and_subdir : forall recursive s,
    PosixPath.abspath (cwd E) directory = directory ->
    exists projects s',
      GodotMCP.find_godot_projects E directory recursive s = (Return projects, s')
      /\ In directory (map path projects)
      /\ In (PosixPath.abspath (cwd E) (PosixPath.join directory sub)) (map path projects).
Proof.
    intros recursive s Habs.
    pose proof exists_root_marker as Hr. pose proof exists_sub_marker as Hs.
    pose proof lookup_subdir as Hl.
    unfold GodotMCP.find_godot_projects. rewrite Habs.
    assert (Hscan : exists l s',
      (let project_file := PosixPath.join directory "project.godot" in
       ex <- os_path_exists E project_file ;;
       let projects :=
         if ex then [mkProject directory (PosixPath.basename directory)] else [] in
       if recursive then
         triples <- os_walk E (fun d => negb (hidden d)) directory ;;
         for_each triples projects
           (fun '(root, _, _) projects =>
              if negb (String.eqb root directory) then
                let project_file := PosixPath.join root "project.godot" in
                ex <- os_path_exists E project_file ;;
                if ex then
                  let abs_root := PosixPath.abspath (cwd E) root in
                  ret (projects ++ [mkProject abs_root (PosixPath.basename abs_root)])%list
                else ret projects
              else ret projects)
       else
         entries <- os_listdir E directory ;;
         for_each entries projects
           (fun entry_name projects =>
              let entry_path := PosixPath.join directory entry_name in
              isd <- os_path_isdir E entry_path ;;
              if isd then
                if hidden entry_name then ret projects
                else
                  let subdir_project_file := PosixPath.join entry_path "project.godot" in
                  ex <- os_path_exists E subdir_project_file ;;
                  if ex then
                    let abs_entry_path := PosixPath.abspath (cwd E) entry_path in
                    ret (projects ++ [mkProject abs_entry_path entry_name])%list
                  else ret projects
              else ret projects)) s
      = (Return ([mkProject directory (PosixPath.basename directory)] ++ l)%list, s')
      /\ In (PosixPath.abspath (cwd E) (PosixPath.join directory sub)) (map path l)).
    { cbv zeta. unfold os_path_exists.
      unfold bind at 1. unfold bind at 1. unfold log, modify, ret.
      destruct (lookup_path E (PosixPath.join directory "project.godot")) as [m|] eqn:Hm;
        [clear Hr|contradiction].
      destruct recursive.
      - unfold os_walk. unfold bind at 1. unfold bind at 1. unfold log, modify, ret.
        rewrite Hdir.
        match goal with
        | |- context [for_each ?xs ?a0 ?body ?st0] =>
            assert (Hfh : exists l s', for_each xs a0 body st0 = (Return (a0 ++ l)%list, s')
                          /\ In (mkProject (PosixPath.abspath (cwd E) (PosixPath.join directory sub))
                                   (PosixPath.basename
                                      (PosixPath.abspath (cwd E) (PosixPath.join directory sub)))) l);
            [ apply (for_each_hits body
                        (PosixPath.join directory sub,
                         filter (fun d => negb (hidden d)) (dir_names es'), file_names es'))
            | destruct Hfh as (l & s2 & Hfe & Hin) ]
        end.
        + intros [[root ds] fns] _ acc s0. unfold bind, log, modify, ret.
          destruct (negb (String.eqb root directory));
            [|exists [], s0; now rewrite app_nil_r].
          destruct (lookup_path E (PosixPath.join root "project.godot")); eauto.
          eexists [], _. now rewrite app_nil_r.
        + apply walk_node_subdir; [now apply assoc_in | now rewrite Hvisible].
        + intros acc s0. unfold bind, log, modify, ret.
          rewrite join_longer by assumption. cbn [negb].
          destruct (lookup_path E (PosixPath.join (PosixPath.join directory sub) "project.godot"));
            [|contradiction].
          eexists _, _. split; [reflexivity|now left].
        + rewrite Hfe. exists l, s2. split; [reflexivity|].
          now apply (in_map path) in Hin.
      - unfold os_listdir. unfold bind at 1. unfold bind at 1. unfold log, modify.
        rewrite Hdir. unfold ret at 1.
        match goal with
        | |- context [for_each ?xs ?a0 ?body ?st0] =>
            assert (Hfh : exists l s', for_each xs a0 body st0 = (Return (a0 ++ l)%list, s')
                          /\ In (mkProject (PosixPath.abspath (cwd E) (PosixPath.join directory sub))
                                   sub) l);
            [ apply (for_each_hits body sub)
            | destruct Hfh as (l & s2 & Hfe & Hin) ]
        end.
        + intros n _ acc s0. unfold os_path_isdir, bind, log, modify, ret.
          destruct (lookup_path E (PosixPath.join directory n)) as [[|?]|];
            try (eexists [], _; now rewrite app_nil_r).
          destruct (hidden n); try (eexists [], _; now rewrite app_nil_r).
          destruct (lookup_path E (PosixPath.join (PosixPath.join directory n) "project.godot")); eauto.
          eexists [], _. now rewrite app_nil_r.
        + exact (in_map fst _ _ (assoc_in _ _ _ Hsub)).
        + intros acc s0. unfold os_path_isdir, bind, log, modify, ret.
          rewrite Hl, Hvisible.
          destruct (lookup_path E (PosixPath.join (PosixPath.join directory sub) "project.godot"));
            [|contradiction].
          eexists _, _. split; [reflexivity|now left].
        + rewrite Hfe. exists l, s2. split; [reflexivity|].
          now apply (in_map path) in Hin. }
    destruct Hscan as (l & s1 & Hscan & Hin).
    unfold bind at 1. unfold try_except at 1. cbv zeta in Hscan. rewrite Hscan.
    unfold ret. eexists _, _. split; [reflexivity|]. split.
    - cbn. now left.
    - apply unique_projects_keeps; [|reflexivity].
      rewrite map_app. apply in_or_app. now right.
Qed.

End Discovery.

(** ** C7: at most one session *)

(** The launches recorded in a trace, each with the children that were
    running. *)
Lemma launches_app : forall a b, launches (a ++ b)%list = (launches a ++ launches b)%list.
Proof.
  induction a as [|ev a IH]; intro b; [reflexivity|].
  destruct ev; cbn [app launches]; rewrite ?IH; reflexivity.
Qed.

Lemma launches_in : forall tr p cmd live,
  In (EvPopen p cmd live) tr -> In live (launches tr).
Proof.
  induction tr as [|ev tr IH]; intros p cmd live Hin; [contradiction|].
  destruct Hin as [->|Hin].
  - now left.
  - destruct ev; cbn [launches]; eauto using in_cons.
Qed.

Lemma live_pids_none : forall ps i,
  (forall p, match nth_error ps p with Some q => p_status q | None => Exited 0 end <> Alive) ->
  live_pids i ps = [].
Proof.
  induction ps as [|q ps IH]; intros i H; [reflexivity|].
  cbn [live_pids].
  pose proof (H 0) as H0. cbn in H0.
  destruct (p_status q); [contradiction|]. cbn [alive].
  apply IH. intro p. exact (H (S p)).
Qed.

Lemma status_of_update_eq : forall s p f q,
  nth_error (procs s) p = Some q ->
  status_of p (set_procs (update_nth p f (procs s)) s) = p_status (f q).
Proof.
  intros. unfold status_of, get_proc. cbn.
  now rewrite (nth_error_update_nth_eq f _ _ _ H).
Qed.

(** What [cleanup] of [godot_mcp.py] achieves when only the held child
    can be running. *)
Lemma mcp_cleanup_spec : forall s,
  (forall p, status_of p s = Alive -> active_process s = Some p) ->
  let r := GodotMCP.cleanup s in
  fst r = Return tt
  /\ all_exited (snd r)
  /\ active_process (snd r) = None
  /\ List.length (procs (snd r)) = List.length (procs s)
  /\ launches (trace (snd r)) = launches (trace s)
  /\ godot_path (snd r) = godot_path s.
Proof.
  intros s Hone. cbv zeta.
  unfold GodotMCP.cleanup. run_monad.
  destruct (active_process s) as [p|] eqn:Ha.
  2:{ repeat split; try assumption.
      intros p Hp. specialize (Hone p Hp). discriminate. }
  assert (Hothers : forall f p', p' <> p ->
            match nth_error (update_nth p f (procs s)) p' with
            | Some q => p_status q | None => Exited 0 end <> Alive).
  { intros f p' Hne Hal. rewrite nth_error_update_nth_neq in Hal by congruence.
    specialize (Hone p'). unfold status_of, get_proc in Hone.
    specialize (Hone Hal). congruence. }
  destruct (nth_error (procs s) p) as [q|] eqn:Hq; crunch.
  2:{ repeat split; try reflexivity.
      intros p' Hp. unfold status_of, get_proc in Hp. cbn in Hp.
      specialize (Hone p'). unfold status_of, get_proc in Hone.
      specialize (Hone Hp). inversion Hone; subst. rewrite Hq in Hp. discriminate. }
  destruct (p_status q) eqn:Hst; crunch.
  2:{ repeat split; try reflexivity.
      intros p' Hp. unfold status_of, get_proc in Hp. cbn in Hp.
      specialize (Hone p'). unfold status_of, get_proc in Hone.
      specialize (Hone Hp). inversion Hone; subst. rewrite Hq in Hp.
      rewrite Hst in Hp. discriminate. }
  pose proof (nth_error_update_nth_eq set_signalled _ _ _ Hq) as Hq1.
  rewrite Hq1. crunch. rewrite Hst.
  assert (Hfin : forall f g,
            (forall x, p_status (g (f x)) <> Alive) ->
            forall p', match nth_error (update_nth p g (update_nth p f (procs s))) p' with
                       | Some q => p_status q | None => Exited 0 end <> Alive).
  { intros f g Hfg p'. destruct (Nat.eq_dec p' p) as [->|Hne].
    - rewrite (nth_error_update_nth_eq g _ _ (f q)).
      + apply Hfg.
      + now apply nth_error_update_nth_eq.
    - rewrite nth_error_update_nth_neq by congruence. now apply Hothers. }
  destruct (p_term q) as [[d rc]|]; crunch.
  - destruct (d <=? 5)%nat; crunch.
    + repeat split; try reflexivity.
      * intro p'. unfold status_of, get_proc. cbn -[nth_error update_nth].
        apply Hfin. intros x Hx. cbn in Hx. discriminate Hx.
      * now rewrite !length_update_nth.
      * now rewrite !launches_app, !app_nil_r.
    + rewrite Hq1. crunch. rewrite Hst. crunch.
      repeat split; try reflexivity.
      * intro p'. unfold status_of, get_proc. cbn -[nth_error update_nth].
        apply Hfin. intros [c st sg tm]. cbn. destruct st; cbn; congruence.
      * now rewrite !length_update_nth.
      * now rewrite !launches_app, !app_nil_r.
  - rewrite Hq1. crunch. rewrite Hst. crunch.
    repeat split; try reflexivity.
    * intro p'. unfold status_of, get_proc. cbn -[nth_error update_nth].
      apply Hfin. intros [c st sg tm]. cbn. destruct st; cbn; congruence.
    * now rewrite !length_update_nth.
    * now rewrite !launches_app, !app_nil_r.
Qed.

Lemma launches_inv : forall tr live,
  In live (launches tr) -> exists p cmd, In (EvPopen p cmd live) tr.
Proof.
  induction tr as [|ev tr IH]; intros live Hin; [contradiction|].
  destruct ev; cbn [launches] in Hin;
    try (destruct (IH _ Hin) as (p0 & c0 & H0); exists p0, c0; now right).
  destruct Hin as [<-|Hin].
  - eexists _, _. now left.
  - destruct (IH _ Hin) as (p0 & c0 & H0). exists p0, c0. now right.
Qed.

(** The three parts of [one_session], the last one read off the
    launches of the trace. *)
Lemma one_session_intro : forall s,
  (forall p, status_of p s = Alive -> active_process s = Some p) ->
  (forall p, active_process s = Some p -> p < List.length (procs s)) ->
  clean_launches s ->
  one_session s.
Proof.
  intros s H1 H2 H3. repeat split; auto.
  intros p cmd live Hin. apply H3. eapply launches_in; eauto.
Qed.

Lemma one_session_launches : forall s, one_session s -> clean_launches s.
Proof.
  intros s (_ & _ & H) live Hin.
  destruct (launches_inv _ _ Hin) as (p & cmd & Hp). eauto.
Qed.

Lemma idle_one_session : forall s,
  all_exited s -> active_process s = None -> clean_launches s -> one_session s.
Proof.
  intros s Hex Ha Hl. apply one_session_intro; auto.
  - intros p Hp. now apply Hex in Hp.
  - intros p Hp. congruence.
Qed.

Lemma mcp_stop_spec : forall s,
  (forall p, status_of p s = Alive -> active_process s = Some p) ->
  let r := GodotMCP.stop_project s in
  all_exited (snd r)
  /\ active_process (snd r) = None
  /\ List.length (procs (snd r)) = List.length (procs s)
  /\ launches (trace (snd r)) = launches (trace s)
  /\ godot_path (snd r) = godot_path s.
Proof.
  intros s Hone. cbv zeta. unfold GodotMCP.stop_project.
  cbv [bind ret raise get modify poll _read_output_queues]. cbn [fst snd].
  case_eq (active_process s); [intros p Ha|intro Ha].
  2:{ cbn. repeat split; auto. intros p Hp. apply Hone in Hp. congruence. }
  destruct (alive _); cbv beta;
    match goal with |- context [GodotMCP.cleanup ?x] => set (s1 := x) end;
    (assert (Hone1 : forall p', status_of p' s1 = Alive -> active_process s1 = Some p')
       by (intros p' Hp; subst s1; cbn; apply Hone; exact Hp));
    pose proof (mcp_cleanup_spec s1 Hone1) as Hc; cbv zeta in Hc;
    destruct Hc as (Hret & Hex & Hact & Hlen & Hla & Hgp);
    destruct (GodotMCP.cleanup s1) as [o s2]; cbn [fst snd] in *; subst o; cbn [fst snd];
    repeat split; auto.
Qed.

Lemma mcp_poll_preserves : forall s,
  one_session s -> one_session (snd (GodotMCP.get_debug_output s)).
Proof.
  intros s Hs. pose proof (one_session_launches s Hs) as Hl.
  destruct Hs as (Hone & Hrange & _).
  unfold GodotMCP.get_debug_output.
  cbv [bind ret raise get modify poll _read_output_queues]. cbn [fst snd].
  case_eq (active_process s); [intros p Ha|intro Ha].
  2:{ cbn. apply one_session_intro; auto. }
  destruct (alive _); cbv beta.
  - cbn [fst snd]. apply one_session_intro; auto.
  - match goal with |- context [GodotMCP.cleanup ?x] => set (s1 := x) end.
    assert (Hone1 : forall p', status_of p' s1 = Alive -> active_process s1 = Some p')
      by (intros p' Hp; subst s1; cbn; apply Hone; exact Hp).
    pose proof (mcp_cleanup_spec s1 Hone1) as Hc; cbv zeta in Hc.
    destruct Hc as (Hret & Hex & Hact & Hlen & Hla & Hgp).
    destruct (GodotMCP.cleanup s1) as [o s2]; cbn [fst snd] in *; subst o; cbn [fst snd].
    apply idle_one_session; auto.
    intros live Hin. rewrite Hla in Hin. now apply Hl.
Qed.

Lemma child_step_preserves : forall c s, one_session s -> one_session (child_step c s).
Proof.
  intros c s Hs. pose proof (one_session_launches s Hs) as Hl.
  destruct Hs as (Hone & Hrange & _).
  destruct c as [line|line|p rc]; cbn [child_step];
    try (apply one_session_intro; auto).
  - intros p' Hp. cbn. apply Hone.
    unfold status_of, get_proc in *. cbn -[nth_error update_nth] in Hp.
    destruct (Nat.eq_dec p p') as [->|Hne].
    + destruct (nth_error (procs s) p') as [q|] eqn:Hq.
      * rewrite (nth_error_update_nth_eq _ _ _ _ Hq) in Hp.
        unfold exit_child in Hp. destruct (alive (p_status q)) eqn:Hal.
        -- cbn in Hp. discriminate.
        -- exact Hp.
      * rewrite nth_error_update_nth_none in Hp by assumption. discriminate.
    + now rewrite nth_error_update_nth_neq in Hp by assumption.
  - intros p' Hp. cbn -[update_nth]. rewrite length_update_nth. now apply Hrange.
Qed.

(** [establishes P m Q]: from a state in [P], [m] ends in a state in
    [Q], whatever its outcome. *)
(** Between the stop of the old session and the launch of the new one:
    no child is running. *)
Lemma establishes_bind {A B} (P R Q : state -> Prop) (m : M A) (k : A -> M B) :
  establishes P m R -> (forall s, R s -> Q s) ->
  (forall a, establishes R (k a) Q) ->
  establishes P (bind m k) Q.
Proof.
  intros Hm HRQ Hk s Hs. unfold bind.
  specialize (Hm s Hs). destruct (m s) as [[a|e|] s1]; cbn [snd] in *; auto.
  now apply Hk.
Qed.

Lemma establishes_try {A} (P R Q : state -> Prop) (m : M A) (h : exn -> M A) :
  establishes P m R -> (forall s, R s -> Q s) ->
  (forall e, establishes R (h e) Q) ->
  establishes P (try_except m h) Q.
Proof.
  intros Hm HRQ Hh s Hs. unfold try_except.
  specialize (Hm s Hs). destruct (m s) as [[a|e|] s1]; cbn [snd] in *; auto.
  now apply Hh.
Qed.

Lemma establishes_raise {A} (P : state -> Prop) (e : exn) :
  establishes P (@raise A e) P.
Proof. intros s Hs. exact Hs. Qed.

Lemma establishes_ret {A} (P : state -> Prop) (a : A) :
  establishes P (ret a) P.
Proof. intros s Hs. exact Hs. Qed.

Lemma quiet_one_session : forall s, quiet s -> one_session s.
Proof.
  intros s (Hex & Hr & Hl). apply one_session_intro; auto.
  intros p Hp. now apply Hex in Hp.
Qed.

Lemma ensure_godot_path_preserves : forall E,
  establishes one_session (GodotMCP.ensure_godot_path E) one_session.
Proof.
  intros E s Hs. pose proof (one_session_launches s Hs) as Hl.
  destruct Hs as (Hone & Hrange & _).
  unfold GodotMCP.ensure_godot_path, detect_godot_path_sync.
  cbv [bind ret raise get modify log]. cbn [fst snd].
  destruct (no_godot_path s); cbn [snd]; [|apply one_session_intro; auto].
  destruct (no_godot_path _); cbn [snd]; apply one_session_intro; auto;
    intros live Hin; cbn in Hin; rewrite launches_app, app_nil_r in Hin; auto.
Qed.

Lemma os_path_exists_preserves : forall E p,
  establishes one_session (os_path_exists E p) one_session.
Proof.
  intros E p s Hs. pose proof (one_session_launches s Hs) as Hl.
  destruct Hs as (Hone & Hrange & _).
  unfold os_path_exists. cbv [bind ret modify log]. cbn [fst snd].
  apply one_session_intro; auto.
  intros live Hin; cbn in Hin; rewrite launches_app, app_nil_r in Hin; auto.
Qed.

Lemma poll_run : forall p s, poll p s = (Return (status_of p s), s).
Proof. reflexivity. Qed.

Lemma mcp_stop_existing_quiet :
  establishes one_session GodotMCP.stop_existing quiet.
Proof.
  intros s Hs. pose proof (one_session_launches s Hs) as Hl.
  destruct Hs as (Hone & Hrange & _).
  unfold GodotMCP.stop_existing. cbv [bind ret get]. cbn [fst snd].
  case_eq (active_process s); [intros old Ha|intro Ha].
  - rewrite poll_run. destruct (alive (status_of old s)) eqn:Hal.
    + pose proof (mcp_stop_spec s Hone) as Hst. cbv zeta in Hst.
      destruct Hst as (Hex & Hact & Hlen & Hla & _).
      destruct (GodotMCP.stop_project s) as [[a|e|] s1]; cbn [fst snd] in *;
        (split; [exact Hex|]); (split; [intros p Hp; congruence|]);
        intros live Hin; rewrite Hla in Hin; auto.
    + cbn [snd]. split; [|split; auto].
      intros p Hp. pose proof (Hone p Hp) as Hq. rewrite Ha in Hq. inversion Hq; subst.
      rewrite Hp in Hal. discriminate.
  - cbn [snd]. split; [|split; auto].
    intros p Hp. apply Hone in Hp. congruence.
Qed.

Lemma mcp_handler_preserves : forall E (e : exn),
  establishes one_session
    (fun s0 => (if is_FileNotFoundError e then raise e
     else
       (s <- get ;;
        match active_process s with
        | Some _ => GodotMCP.cleanup
        | None => ret tt
        end) ;;
       @raise string (PyExn RuntimeError ("Failed to run Godot project: " ++ str_exn E e))) s0)
    one_session.
Proof.
  intros E e s Hs. pose proof (one_session_launches s Hs) as Hl.
  destruct (is_FileNotFoundError e); [exact Hs|].
  destruct Hs as (Hone & Hrange & _).
  cbv [bind ret get raise]. cbn [fst snd].
  case_eq (active_process s); [intros p Ha|intro Ha].
  - pose proof (mcp_cleanup_spec s Hone) as Hc. cbv zeta in Hc.
    destruct Hc as (Hret & Hex & Hact & Hlen & Hla & _).
    destruct (GodotMCP.cleanup s) as [o s1]; cbn [fst snd] in *; subst o; cbn [snd].
    apply idle_one_session; auto. intros live Hin. rewrite Hla in Hin. auto.
  - cbn [snd]. apply one_session_intro; auto.
Qed.

Lemma update_nth_last {A} (f : A -> A) : forall l x,
  update_nth (List.length l) f (l ++ [x])%list = (l ++ [f x])%list.
Proof. induction l as [|y l IH]; intro x; cbn; [reflexivity|now rewrite IH]. Qed.

Lemma launch_session_run : forall E command s,
  launch_session E command s
  = match sb_launch (spawn_oracle E (List.length (procs s)) command) with
    | Some e => (Raise e, s)
    | None => (Return (List.length (procs s)), launched E command s)
    end.
Proof.
  intros E command s. unfold launch_session, popen, sleep_after_launch, launched.
  cbv [bind ret raise get modify log _start_output_threads].
  destruct (sb_launch (spawn_oracle E (List.length (procs s)) command)); [reflexivity|].
  cbv [set_procs set_stderr_queue set_stdout_queue set_errors set_output
       set_active add_event
       active_process active_process_output active_process_errors
       stdout_queue stderr_queue godot_path procs trace].
  destruct s as [a o e q1 q2 gp ps tr].
  cbv [active_process active_process_output active_process_errors
       stdout_queue stderr_queue godot_path procs trace].
  destruct (sb_early_exit (spawn_oracle E (List.length ps) command)) as [rc|].
  - rewrite update_nth_last. cbv [set_status p_cmd p_status p_signalled p_term].
    rewrite <- app_assoc. reflexivity.
  - rewrite <- app_assoc. reflexivity.
Qed.

Lemma status_of_old : forall s x p,
  p < List.length (procs s) ->
  status_of p (set_procs (procs s ++ [x])%list s) = status_of p s.
Proof.
  intros s x p Hp. unfold status_of, get_proc. cbn.
  now rewrite nth_error_app1.
Qed.

Lemma status_of_launched : forall E command s p,
  status_of p (launched E command s)
  = if (p <? List.length (procs s))%nat then status_of p s
    else if (p =? List.length (procs s))%nat then
           match sb_early_exit (spawn_oracle E (List.length (procs s)) command) with
           | Some rc => Exited rc
           | None => Alive
           end
    else Exited 0.
Proof.
  intros E command s p. unfold status_of, get_proc, launched. cbn -[Nat.ltb Nat.eqb].
  destruct (p <? List.length (procs s))%nat eqn:Hlt.
  - apply Nat.ltb_lt in Hlt. now rewrite nth_error_app1.
  - apply Nat.ltb_ge in Hlt. rewrite nth_error_app2 by assumption.
    destruct (p =? List.length (procs s))%nat eqn:Heq.
    + apply Nat.eqb_eq in Heq. subst. now rewrite Nat.sub_diag.
    + apply Nat.eqb_neq in Heq.
      destruct (p - List.length (procs s)) as [|n] eqn:Hn; [lia|].
      cbn. now destruct n.
Qed.

Lemma quiet_live_pids : forall s, quiet s -> live_pids 0 (procs s) = [].
Proof.
  intros s (Hex & _). apply live_pids_none. intro p. exact (Hex p).
Qed.

Lemma launched_launches : forall E command s,
  quiet s -> forall live, In live (launches (trace (launched E command s))) -> live = [].
Proof.
  intros E command s Hq live Hin. unfold launched in Hin. cbn [trace] in Hin.
  rewrite launches_app in Hin. cbn [launches] in Hin.
  rewrite (quiet_live_pids s Hq) in Hin.
  apply in_app_or in Hin. destruct Hin as [Hin|[<-|[]]]; [|reflexivity].
  destruct Hq as (_ & _ & Hl). now apply Hl.
Qed.

(** From a quiet state, the launch and the check that follows it leave
    at most the new child running, and it is the one held. *)
Lemma mcp_launch_tail : forall E projectPath,
  establishes quiet
    (s <- get ;;
     let cmd_args := ["-d"; "--path"; projectPath] in
     let command := the_godot_path s :: cmd_args in
     process <- launch_session E command ;;
     st <- poll process ;;
     match st with
     | Exited returncode =>
         _read_output_queues ;;
         s' <- get ;;
         let stdout_str := Py.join nl (active_process_output s') in
         let stderr_str := Py.join nl (active_process_errors s') in
         modify (set_active None) ;;
         raise (PyExn RuntimeError
                  ("Godot process exited immediately with code "
                     ++ str_of_Z returncode ++ ". Stdout: '"
                     ++ Py.take 200 stdout_str ++ "...' Stderr: '"
                     ++ Py.take 200 stderr_str ++ "...'"))
     | Alive =>
         ret "Godot project started in debug mode. Use get_debug_output to see output."
     end)
    one_session.
Proof.
  intros E projectPath s Hq.
  unfold bind at 1. unfold get at 1. cbv zeta.
  set (command := the_godot_path s :: _).
  unfold bind at 1. rewrite launch_session_run.
  destruct (sb_launch _) eqn:Hlaunch; [now apply quiet_one_session|].
  unfold bind at 1. rewrite poll_run.
  pose proof (status_of_launched E command s) as Hst.
  pose proof (launched_launches E command s Hq) as Hl.
  rewrite (Hst (List.length (procs s))), Nat.ltb_irrefl, Nat.eqb_refl.
  destruct Hq as (Hex & Hrange & _).
  destruct (sb_early_exit _) as [rc|] eqn:Hearly.
  - cbv [bind ret raise get modify _read_output_queues]. cbn [fst snd].
    apply idle_one_session; [|reflexivity|exact Hl].
    intros p Hp. unfold status_of, get_proc in Hp. cbn [procs set_active set_stderr_queue
      set_errors set_stdout_queue set_output] in Hp.
    fold (get_proc p (launched E command s)) in Hp.
    fold (status_of p (launched E command s)) in Hp.
    rewrite Hst in Hp.
    destruct (p <? _)%nat; [now apply Hex in Hp|].
    destruct (p =? _)%nat; discriminate.
  - cbn [snd]. apply one_session_intro; [| |exact Hl].
    + intros p Hp. rewrite Hst in Hp.
      destruct (p <? _)%nat eqn:Hlt; [now apply Hex in Hp|].
      destruct (p =? _)%nat eqn:Heq; [|discriminate].
      apply Nat.eqb_eq in Heq. subst. reflexivity.
    + intros p Hp. unfold launched in *. cbn in *. inversion Hp; subst.
      rewrite length_app. cbn. lia.
Qed.

Lemma mcp_run_project_preserves : forall E projectPath scene,
  establishes one_session (GodotMCP.run_project E projectPath scene) one_session.
Proof.
  intros E projectPath scene. unfold GodotMCP.run_project.
  destruct (Py.falsy projectPath); [apply establishes_raise|].
  cbv zeta.
  destruct (negb (validate_path _)); [apply establishes_raise|].
  destruct (match scene with Some _ => _ | None => _ end); [apply establishes_raise|].
  apply establishes_try with (R := one_session); auto.
  - apply establishes_bind with (R := one_session); auto.
    + apply ensure_godot_path_preserves.
    + intros _. apply establishes_bind with (R := one_session); auto.
      * apply os_path_exists_preserves.
      * intros ex. destruct (negb ex); [apply establishes_raise|].
        apply establishes_bind with (R := quiet).
        -- apply mcp_stop_existing_quiet.
        -- apply quiet_one_session.
        -- intros _. apply mcp_launch_tail.
  - intro e. apply mcp_handler_preserves.
Qed.

Lemma server_cleanup_spec : forall s,
  (forall p, status_of p s = Alive -> active_process s = Some p) ->
  let r := GodotServer.cleanup s in
  fst r = Return tt
  /\ all_exited (snd r)
  /\ active_process (snd r) = None
  /\ List.length (procs (snd r)) = List.length (procs s)
  /\ launches (trace (snd r)) = launches (trace s)
  /\ godot_path (snd r) = godot_path s.
Proof.
  intros s Hone. cbv zeta.
  unfold GodotServer.cleanup. run_monad.
  case_eq (active_process s); [intros p Ha|intro Ha].
  2:{ repeat split; try assumption.
      intros p Hp. specialize (Hone p Hp). congruence. }
  assert (Hothers : forall f p', p' <> p ->
            match nth_error (update_nth p f (procs s)) p' with
            | Some q => p_status q | None => Exited 0 end <> Alive).
  { intros f p' Hne Hal. rewrite nth_error_update_nth_neq in Hal by congruence.
    specialize (Hone p'). unfold status_of, get_proc in Hone.
    specialize (Hone Hal). congruence. }
  crunch.
  destruct (nth_error (procs s) p) as [q|] eqn:Hq.
  2:{ rewrite (nth_error_update_nth_none set_signalled _ p p Hq). crunch.
      repeat split; try reflexivity.
      - intros p' Hp. unfold status_of, get_proc in Hp. cbn -[nth_error update_nth] in Hp.
        destruct (Nat.eq_dec p' p) as [->|Hne].
        + rewrite (nth_error_update_nth_none set_signalled _ p p Hq) in Hp. discriminate.
        + now apply (Hothers set_signalled p' Hne).
      - now rewrite length_update_nth.
      - now rewrite !launches_app, !app_nil_r. }
  pose proof (nth_error_update_nth_eq set_signalled _ _ _ Hq) as Hq1.
  rewrite Hq1. crunch.
  assert (Hfin : forall f g,
            (forall x, p_status (g (f x)) <> Alive) ->
            forall p', match nth_error (update_nth p g (update_nth p f (procs s))) p' with
                       | Some q => p_status q | None => Exited 0 end <> Alive).
  { intros f g Hfg p'. destruct (Nat.eq_dec p' p) as [->|Hne].
    - rewrite (nth_error_update_nth_eq g _ _ (f q)).
      + apply Hfg.
      + now apply nth_error_update_nth_eq.
    - rewrite nth_error_update_nth_neq by congruence. now apply Hothers. }
  destruct (p_status q) eqn:Hst; crunch.
  2:{ repeat split; try reflexivity.
      - intros p' Hp. unfold status_of, get_proc in Hp. cbn -[nth_error update_nth] in Hp.
        destruct (Nat.eq_dec p' p) as [->|Hne].
        + rewrite Hq1 in Hp. cbn in Hp. congruence.
        + now apply (Hothers set_signalled p' Hne).
      - now rewrite length_update_nth.
      - now rewrite !launches_app, !app_nil_r. }
  destruct (p_term q) as [[d rc]|]; crunch.
  - destruct (d <=? 5)%nat; crunch.
    + repeat split; try reflexivity.
      * intro p'. unfold status_of, get_proc. cbn -[nth_error update_nth].
        apply Hfin. intros x Hx. cbn in Hx. discriminate Hx.
      * now rewrite !length_update_nth.
      * now rewrite !launches_app, !app_nil_r.
    + repeat split; try reflexivity.
      * intro p'. unfold status_of, get_proc. cbn -[nth_error update_nth].
        apply Hfin. intros [c st sg tm]. cbn. destruct st; cbn; congruence.
      * now rewrite !length_update_nth.
      * now rewrite !launches_app, !app_nil_r.
  - repeat split; try reflexivity.
    * intro p'. unfold status_of, get_proc. cbn -[nth_error update_nth].
      apply Hfin. intros [c st sg tm]. cbn. destruct st; cbn; congruence.
    * now rewrite !length_update_nth.
    * now rewrite !launches_app, !app_nil_r.
Qed.

Lemma server_stop_existing_quiet :
  establishes one_session GodotServer.stop_existing quiet.
Proof.
  intros s Hs. pose proof (one_session_launches s Hs) as Hl.
  destruct Hs as (Hone & Hrange & _).
  unfold GodotServer.stop_existing. cbv [bind ret get]. cbn [fst snd].
  case_eq (active_process s); [intros old Ha|intro Ha].
  - pose proof (server_cleanup_spec s Hone) as Hst. cbv zeta in Hst.
    destruct Hst as (_ & Hex & Hact & Hlen & Hla & _).
    split; [exact Hex|]. split; [intros p Hp; congruence|].
    intros live Hin. rewrite Hla in Hin. auto.
  - cbn [snd]. split; [|split; auto].
    intros p Hp. apply Hone in Hp. congruence.
Qed.

Lemma server_cleanup_preserves :
  establishes one_session GodotServer.cleanup one_session.
Proof.
  intros s Hs. pose proof (one_session_launches s Hs) as Hl.
  destruct Hs as (Hone & Hrange & _).
  pose proof (server_cleanup_spec s Hone) as Hst. cbv zeta in Hst.
  destruct Hst as (_ & Hex & Hact & Hlen & Hla & _).
  apply idle_one_session; auto. intros live Hin. rewrite Hla in Hin. auto.
Qed.

Lemma mcp_cleanup_preserves :
  establishes one_session GodotMCP.cleanup one_session.
Proof.
  intros s Hs. pose proof (one_session_launches s Hs) as Hl.
  destruct Hs as (Hone & Hrange & _).
  pose proof (mcp_cleanup_spec s Hone) as Hst. cbv zeta in Hst.
  destruct Hst as (_ & Hex & Hact & Hlen & Hla & _).
  apply idle_one_session; auto. intros live Hin. rewrite Hla in Hin. auto.
Qed.

Lemma mcp_stop_preserves :
  establishes one_session GodotMCP.stop_project one_session.
Proof.
  intros s Hs. pose proof (one_session_launches s Hs) as Hl.
  destruct Hs as (Hone & Hrange & _).
  pose proof (mcp_stop_spec s Hone) as Hst. cbv zeta in Hst.
  destruct Hst as (Hex & Hact & Hlen & Hla & _).
  apply idle_one_session; auto. intros live Hin. rewrite Hla in Hin. auto.
Qed.

Lemma read_queues_preserves :
  establishes one_session _read_output_queues one_session.
Proof.
  intros s Hs. pose proof (one_session_launches s Hs) as Hl.
  destruct Hs as (Hone & Hrange & _).
  apply one_session_intro; auto.
Qed.

Lemma server_poll_preserves : forall E,
  establishes one_session (GodotServer.handle_get_debug_output E) one_session.
Proof.
  intros E s Hs. unfold GodotServer.handle_get_debug_output.
  cbv [bind ret get]. cbn [fst snd].
  destruct (active_process s); [|exact Hs].
  pose proof (read_queues_preserves s Hs) as H.
  destruct (_read_output_queues s) as [[[]|e|] s1]; exact H.
Qed.

Lemma server_stop_preserves : forall E,
  establishes one_session (GodotServer.handle_stop_project E) one_session.
Proof.
  intros E s Hs. unfold GodotServer.handle_stop_project.
  unfold bind at 1. unfold get at 1.
  destruct (active_process s); [|exact Hs].
  revert s Hs. change (establishes one_session
    (_read_output_queues ;; GodotServer.cleanup ;; s' <- get ;;
     ret (text_response
            (json_dumps E JsonIndent2
               (PDict [("message", PStr "Godot project stopped");
                       ("finalOutput", PList (map PStr (active_process_output s')));
                       ("finalErrors", PList (map PStr (active_process_errors s')))]))))
    one_session).
  apply establishes_bind with (R := one_session); auto.
  - apply read_queues_preserves.
  - intros _. apply establishes_bind with (R := one_session); auto.
    + apply server_cleanup_preserves.
    + intros _ s Hs. exact Hs.
Qed.

Lemma godot_path_missing_preserves : forall E,
  establishes one_session (GodotServer.godot_path_missing E) one_session.
Proof.
  intros E s Hs. pose proof (one_session_launches s Hs) as Hl.
  destruct Hs as (Hone & Hrange & _).
  unfold GodotServer.godot_path_missing, detect_godot_path.
  cbv [bind ret raise get modify log]. cbn [fst snd].
  destruct (no_godot_path s); cbn [snd]; [|apply one_session_intro; auto].
  destruct (detected_path E); cbn [fst snd]; apply one_session_intro; auto;
    intros live Hin; cbn in Hin; rewrite launches_app, app_nil_r in Hin; auto.
Qed.

Lemma server_launch_tail : forall E project_path scene,
  establishes quiet
    (let cmd_args :=
       (["-d"; "--path"; project_path]
          ++ (if negb (missing scene) && validate_path (arg scene)
              then [arg scene] else []))%list in
     s <- get ;;
     let command := the_godot_path s :: cmd_args in
     process <- launch_session E command ;;
     st <- poll process ;;
     match st with
     | Exited returncode =>
         _read_output_queues ;;
         s' <- get ;;
         let stdout_str := Py.join nl (active_process_output s') in
         let stderr_str := Py.join nl (active_process_errors s') in
         modify (set_active None) ;;
         ret (create_error_response
                ("Godot process exited immediately with code "
                   ++ str_of_Z returncode)
                ["Stdout: " ++ stdout_str;
                 "Stderr: " ++ stderr_str;
                 "Check if the Godot executable path is correct";
                 "Verify the project path and scene path are valid"])
     | Alive =>
         ret (text_response
                "Godot project started in debug mode. Use get_debug_output to see output.")
     end)
    one_session.
Proof.
  intros E project_path scene s Hq. cbv zeta.
  unfold bind at 1. unfold get at 1.
  set (command := the_godot_path s :: _).
  unfold bind at 1. rewrite launch_session_run.
  destruct (sb_launch _) eqn:Hlaunch; [now apply quiet_one_session|].
  unfold bind at 1. rewrite poll_run.
  pose proof (status_of_launched E command s) as Hst.
  pose proof (launched_launches E command s Hq) as Hl.
  rewrite (Hst (List.length (procs s))), Nat.ltb_irrefl, Nat.eqb_refl.
  destruct Hq as (Hex & Hrange & _).
  destruct (sb_early_exit _) as [rc|] eqn:Hearly.
  - cbv [bind ret raise get modify _read_output_queues]. cbn [fst snd].
    apply idle_one_session; [|reflexivity|exact Hl].
    intros p Hp. unfold status_of, get_proc in Hp. cbn [procs set_active set_stderr_queue
      set_errors set_stdout_queue set_output] in Hp.
    fold (get_proc p (launched E command s)) in Hp.
    fold (status_of p (launched E command s)) in Hp.
    rewrite Hst in Hp.
    destruct (p <? _)%nat; [now apply Hex in Hp|].
    destruct (p =? _)%nat; discriminate.
  - cbn [snd]. apply one_session_intro; [| |exact Hl].
    + intros p Hp. rewrite Hst in Hp.
      destruct (p <? _)%nat eqn:Hlt; [now apply Hex in Hp|].
      destruct (p =? _)%nat eqn:Heq; [|discriminate].
      apply Nat.eqb_eq in Heq. subst. reflexivity.
    + intros p Hp. unfold launched in *. cbn in *. inversion Hp; subst.
      rewrite length_app. cbn. lia.
Qed.

Lemma server_run_project_preserves : forall E project_path scene,
  establishes one_session (GodotServer.handle_run_project E project_path scene) one_session.
Proof.
  intros E project_path scene. unfold GodotServer.handle_run_project.
  destruct (missing project_path); [apply establishes_ret|].
  cbv zeta.
  destruct (negb (validate_path _)); [apply establishes_ret|].
  apply establishes_try with (R := one_session); auto.
  - apply establishes_bind with (R := one_session); auto.
    + apply godot_path_missing_preserves.
    + intros nogp. destruct nogp; [apply establishes_ret|].
      apply establishes_bind with (R := one_session); auto.
      * apply os_path_exists_preserves.
      * intros ex. destruct (negb ex); [apply establishes_ret|].
        apply establishes_bind with (R := quiet).
        -- apply server_stop_existing_quiet.
        -- apply quiet_one_session.
        -- intros _. apply (server_launch_tail E (arg project_path) scene).
  - intros e s Hs. cbv [bind get ret]. cbn [fst snd].
    destruct (active_process s); [|exact Hs].
    pose proof (server_cleanup_preserves s Hs) as H.
    destruct (GodotServer.cleanup s) as [[[]|e'|] s1]; exact H.
Qed.

Lemma init_one_session : forall gp, one_session (init_state gp).
Proof.
  intro gp. apply one_session_intro.
  - intros p Hp. unfold status_of, get_proc in Hp. cbn in Hp.
    destruct p; discriminate.
  - intros p Hp. discriminate.
  - intros live Hin. contradiction.
Qed.

Lemma mcp_session_run_preserves : forall E steps s,
  one_session s -> one_session (GodotMCP.session_run E steps s).
Proof.
  intros E steps. unfold GodotMCP.session_run.
  induction steps as [|st steps IH]; intros s Hs; [exact Hs|].
  cbn [fold_left]. apply IH.
  destruct st as [c|[pp sc| | |]]; cbn [GodotMCP.session_step].
  - now apply child_step_preserves.
  - now apply mcp_run_project_preserves.
  - now apply mcp_poll_preserves.
  - now apply mcp_stop_preserves.
  - now apply mcp_cleanup_preserves.
Qed.

Lemma server_session_run_preserves : forall E steps s,
  one_session s -> one_session (GodotServer.session_run E steps s).
Proof.
  intros E steps. unfold GodotServer.session_run.
  induction steps as [|st steps IH]; intros s Hs; [exact Hs|].
  cbn [fold_left]. apply IH.
  destruct st as [c|[pp sc| | |]]; cbn [GodotServer.session_step].
  - now apply child_step_preserves.
  - now apply server_run_project_preserves.
  - now apply server_poll_preserves.
  - now apply server_stop_preserves.
  - now apply server_cleanup_preserves.
Qed.

(** C7.  Along every sequence of requests and child events from the
    freshly built manager, under either program: a child that is running
    is the one whose handle the manager holds, so at most one session
    exists; and every session launch found no child running, so a
    session that was active when [run_project] was called had been
    stopped, and was seen exited, before the new child was started. *)
Theorem at_most_one_session :
  forall (E : env) (steps : list step) (gp : option string),
    one_session (GodotMCP.session_run E steps (init_state gp))
    /\ one_session (GodotServer.session_run E steps (init_state gp)).
Proof.
  intros E steps gp. split.
  - apply mcp_session_run_preserves, init_one_session.
  - apply server_session_run_preserves, init_one_session.
Qed.

(** ** C3: polling *)

Lemma read_queues_run : forall s,
  _read_output_queues s
  = (Return tt,
     set_stderr_queue []
       (set_errors (active_process_errors s ++ stderr_queue s)%list
          (set_stdout_queue []
             (set_output (active_process_output s ++ stdout_queue s)%list s)))).
Proof.
  intro s. unfold _read_output_queues. cbv [bind modify]. cbn [fst snd].
  rewrite !drain_app. reflexivity.
Qed.

Lemma mcp_cleanup_returns : forall s, fst (GodotMCP.cleanup s) = Return tt.
Proof.
  intro s. unfold GodotMCP.cleanup. run_monad.
  destruct (active_process s) as [p|]; [|reflexivity].
  destruct (nth_error (procs s) p) as [q|] eqn:Hq; crunch; [|reflexivity].
  destruct (p_status q) eqn:Hst; crunch; [|reflexivity].
  rewrite (nth_error_update_nth_eq set_signalled _ _ _ Hq). crunch. rewrite Hst.
  destruct (p_term q) as [[d rc]|]; crunch.
  - destruct (d <=? 5)%nat; crunch; [reflexivity|].
    rewrite (nth_error_update_nth_eq set_signalled _ _ _ Hq). crunch.
    rewrite Hst. reflexivity.
  - rewrite (nth_error_update_nth_eq set_signalled _ _ _ Hq). crunch.
    rewrite Hst. reflexivity.
Qed.

Lemma mcp_poll_run : forall s,
  GodotMCP.get_debug_output s
  = match active_process s with
    | None =>
        (Raise (PyExn RuntimeError "No active Godot process. Use run_project first."), s)
    | Some p =>
        if alive (status_of p s) then
          (Return (mkDebug None
                     (active_process_output s ++ stdout_queue s)%list
                     (active_process_errors s ++ stderr_queue s)%list),
           drained s)
        else
          (Return (mkDebug (Some "Godot process terminated.")
                     (active_process_output s ++ stdout_queue s)%list
                     (active_process_errors s ++ stderr_queue s)%list),
           snd (GodotMCP.cleanup (drained s)))
    end.
Proof.
  intro s. unfold GodotMCP.get_debug_output.
  unfold bind at 1. unfold get at 1.
  destruct (active_process s) as [p|]; [|reflexivity].
  unfold bind at 1. rewrite poll_run.
  destruct (alive (status_of p s)).
  - unfold bind at 1. rewrite read_queues_run. reflexivity.
  - unfold bind at 1. rewrite read_queues_run.
    unfold bind at 1. unfold get at 1. unfold bind.
    fold (drained s).
    pose proof (mcp_cleanup_returns (drained s)) as Hret.
    destruct (GodotMCP.cleanup (drained s)) as [o s2]. cbn [fst snd] in *. subst o.
    reflexivity.
Qed.

(** What a poll returns, and what it leaves when the session survives
    it. *)
Lemma mcp_poll_spec : forall s,
  let r := GodotMCP.get_debug_output s in
  (forall d, fst r = Return d ->
     output d = (active_process_output s ++ stdout_queue s)%list
     /\ errors d = (active_process_errors s ++ stderr_queue s)%list)
  /\ (active_process (snd r) <> None ->
      active_process s <> None
      /\ (active_process_output (snd r) ++ stdout_queue (snd r)
          = active_process_output s ++ stdout_queue s)%list
      /\ (active_process_errors (snd r) ++ stderr_queue (snd r)
          = active_process_errors s ++ stderr_queue s)%list).
Proof.
  intro s. cbv zeta. rewrite mcp_poll_run.
  destruct (active_process s) as [p|] eqn:Ha.
  2:{ cbn. split; [discriminate|]. rewrite Ha. intro H. exfalso. now apply H. }
  destruct (alive (status_of p s)); cbn [fst snd].
  - split.
    + intros d Hd. inversion Hd; subst. split; reflexivity.
    + intros _. split; [discriminate|]. cbn. now rewrite !app_nil_r.
  - split.
    + intros d Hd. inversion Hd; subst. split; reflexivity.
    + rewrite cleanup_clears_handle. intro H. exfalso. now apply H.
Qed.

Lemma printed_out_cons_other : forall st rest,
  (forall line, st <> Child (ChildStdout line)) ->
  printed_out (st :: rest) = printed_out rest.
Proof.
  intros st rest H. destruct st as [[l|l|p rc]|r]; try reflexivity.
  exfalso. now apply (H l).
Qed.

Lemma mcp_session_conserves : forall E steps s po pe,
  forallb poll_or_child steps = true ->
  (active_process s <> None ->
   (active_process_output s ++ stdout_queue s)%list = po
   /\ (active_process_errors s ++ stderr_queue s)%list = pe) ->
  let s' := GodotMCP.session_run E steps s in
  active_process s' <> None ->
  (active_process_output s' ++ stdout_queue s')%list = (po ++ printed_out steps)%list
  /\ (active_process_errors s' ++ stderr_queue s')%list = (pe ++ printed_err steps)%list.
Proof.
  intros E steps. unfold GodotMCP.session_run.
  induction steps as [|st steps IH]; intros s po pe Hsteps Hinv; cbv zeta.
  - cbn. rewrite !app_nil_r. exact Hinv.
  - cbn [forallb] in Hsteps. apply andb_true_iff in Hsteps. destruct Hsteps as [Hst Hsteps].
    cbn [fold_left].
    destruct st as [[line|line|p rc]|[pp sc| | |]]; try discriminate Hst;
      cbn [GodotMCP.session_step child_step printed_out printed_err].
    + intro Hne.
      destruct (IH (set_stdout_queue (stdout_queue s ++ [line])%list s)
                  (po ++ [line])%list pe Hsteps) as [H1 H2]; [|exact Hne|].
      * cbn. intro Ha. destruct (Hinv Ha) as [Ho He]. split; [|exact He].
        now rewrite app_assoc, Ho.
      * split; [|exact H2]. rewrite H1, <- app_assoc. reflexivity.
    + intro Hne.
      destruct (IH (set_stderr_queue (stderr_queue s ++ [line])%list s)
                  po (pe ++ [line])%list Hsteps) as [H1 H2]; [|exact Hne|].
      * cbn. intro Ha. destruct (Hinv Ha) as [Ho He]. split; [exact Ho|].
        now rewrite app_assoc, He.
      * split; [exact H1|]. rewrite H2, <- app_assoc. reflexivity.
    + apply IH; [exact Hsteps|]. cbn. exact Hinv.
    + apply IH; [exact Hsteps|].
      destruct (mcp_poll_spec s) as [_ Hkeep]. cbv zeta in Hkeep.
      intro Hne. destruct (Hkeep Hne) as (Hact & Ho & He). rewrite Ho, He.
      now apply Hinv.
Qed.

(** C3.  Polling in [godot_mcp.py].  First, two successive
    [get_debug_output] calls on a session whose child is running at the
    first call, with no line enqueued in between (the child may exit in
    between), both succeed and return the same output and error
    sequences.  Second, along any interleaving of polls with lines
    printed by the child and exits, from the start of a session: what is
    accumulated followed by what is queued is exactly what the child has
    printed on that stream, in order, and every poll that succeeds
    returns exactly those lines: each line once, none lost. *)
Theorem polls_idempotent_and_lossless :
  forall (E : env),
    (forall (s : state) (p : pid) (exit_between : option Z),
        active_process s = Some p ->
        status_of p s = Alive ->
        let r1 := GodotMCP.get_debug_output s in
        let s1 := match exit_between with
                  | Some rc => child_step (ChildExit p rc) (snd r1)
                  | None => snd r1
                  end in
        let r2 := GodotMCP.get_debug_output s1 in
        exists d1 d2,
          fst r1 = Return d1 /\ fst r2 = Return d2
          /\ output d1 = output d2 /\ errors d1 = errors d2)
    /\ (forall (steps : list step) (s0 : state) (p : pid),
           active_process s0 = Some p ->
           active_process_output s0 = [] -> active_process_errors s0 = [] ->
           stdout_queue s0 = [] -> stderr_queue s0 = [] ->
           forallb poll_or_child steps = true ->
           let s := GodotMCP.session_run E steps s0 in
           (active_process s <> None ->
            (active_process_output s ++ stdout_queue s)%list = printed_out steps
            /\ (active_process_errors s ++ stderr_queue s)%list = printed_err steps)
           /\ (forall d, fst (GodotMCP.get_debug_output s) = Return d ->
                 output d = printed_out steps /\ errors d = printed_err steps)).
Proof.
  intro E. split.
  - intros s p exit_between Ha Hal. cbv zeta.
    rewrite (mcp_poll_run s), Ha, Hal. cbn [alive fst snd].
    set (s1 := match exit_between with Some rc => _ | None => _ end).
    assert (Hs1 : active_process s1 = Some p
                  /\ active_process_output s1 = (active_process_output s ++ stdout_queue s)%list
                  /\ active_process_errors s1 = (active_process_errors s ++ stderr_queue s)%list
                  /\ stdout_queue s1 = [] /\ stderr_queue s1 = []).
    { subst s1. destruct exit_between; cbn; auto. }
    destruct Hs1 as (Ha1 & Ho1 & He1 & Hq1 & Hq2).
    rewrite (mcp_poll_run s1), Ha1, Ho1, He1, Hq1, Hq2, !app_nil_r.
    destruct (alive (status_of p s1)); eexists _, _; repeat split.
  - intros steps s0 p Ha Ho He Hq1 Hq2 Hsteps. cbv zeta.
    assert (Hcons : active_process (GodotMCP.session_run E steps s0) <> None ->
              (active_process_output (GodotMCP.session_run E steps s0)
                 ++ stdout_queue (GodotMCP.session_run E steps s0))%list = printed_out steps
              /\ (active_process_errors (GodotMCP.session_run E steps s0)
                    ++ stderr_queue (GodotMCP.session_run E steps s0))%list
                 = printed_err steps).
    { intro Hne.
      apply (mcp_session_conserves E steps s0 [] [] Hsteps); [|exact Hne].
      intros _. rewrite Ho, He, Hq1, Hq2. split; reflexivity. }
    split; [exact Hcons|].
    intros d Hd.
    destruct (mcp_poll_spec (GodotMCP.session_run E steps s0)) as [Hret _].
    cbv zeta in Hret. destruct (Hret d Hd) as [H1 H2].
    rewrite (mcp_poll_run (GodotMCP.session_run E steps s0)) in Hd.
    destruct (active_process (GodotMCP.session_run E steps s0)) eqn:Hact;
      [|discriminate Hd].
    destruct Hcons as [H3 H4]; [discriminate|]. rewrite H1, H2. now split.
Qed.

Lemma polls_idempotent_and_lossless_witness :
  exists d1 d2,
    fst (GodotMCP.get_debug_output running_state) = Return d1
    /\ fst (GodotMCP.get_debug_output (snd (GodotMCP.get_debug_output running_state)))
       = Return d2
    /\ output d1 = output d2 /\ errors d1 = errors d2.
Proof.
  exact (proj1 (polls_idempotent_and_lossless example_env)
           running_state 0 None eq_refl eq_refl).
Defined.

(** ** C1: the listing tool *)

(** C1.  [list_projects] on a directory that holds the marker file and
    has an immediate subdirectory, not hidden, that holds it too: under
    either program and for either value of [recursive], the call succeeds
    and lists both the directory and the subdirectory.  The non-recursive
    search looks at the directory and at each of its immediate
    subdirectories; only deeper levels need [recursive]. *)
Theorem list_projects_root_and_subdir :
  forall (E : env) (directory sub : string) (es es' : list (string * node))
         (recursive : bool) (s : state),
    validate_path directory = true ->
    PosixPath.abspath (cwd E) directory = directory ->
    lookup_path E directory = Some (Dir es) ->
    has_marker es ->
    valid_name sub = true ->
    hidden sub = false ->
    assoc sub es = Some (Dir es') ->
    has_marker es' ->
    (exists projects,
        fst (GodotMCP.list_projects E directory recursive s) = Return projects
        /\ In directory (map path projects)
        /\ In (PosixPath.abspath (cwd E) (PosixPath.join directory sub))
              (map path projects))
    /\ (exists projects,
           fst (GodotServer.handle_list_projects E (Some directory) recursive s)
           = Return (text_response
                       (json_dumps E JsonIndent2 (PList (map project_json projects))))
           /\ In directory (map path projects)
           /\ In (PosixPath.join directory sub) (map path projects)).
Proof.
  intros E directory sub es es' recursive s Hval Habs Hdir Hroot Hname Hvis Hsub Hmark.
  pose proof (validate_path_not_falsy _ Hval) as Hne.
  split.
  - unfold GodotMCP.list_projects. rewrite Hne, Hval. cbn [negb]. rewrite Habs.
    unfold try_except, os_path_exists, os_path_isdir. cbv [bind log modify ret].
    rewrite Hdir. cbn [negb].
    match goal with
    | |- context [GodotMCP.find_godot_projects E directory recursive ?st] =>
        destruct (mcp_find_root_and_subdir E directory sub es es'
                    Hdir Hroot Hname Hvis Hsub Hmark Hne recursive st Habs)
          as (projects & s2 & Hf & H1 & H2)
    end.
    rewrite Hf. exists projects. cbn [fst]. auto.
  - unfold GodotServer.handle_list_projects. cbn [missing arg]. rewrite Hne, Hval.
    cbn [negb].
    unfold try_except, os_path_exists. cbv [bind log modify ret].
    rewrite Hdir. cbn [negb].
    match goal with
    | |- context [GodotServer.find_godot_projects E directory recursive ?st] =>
        destruct (server_find_root_and_subdir E directory sub es es'
                    Hdir Hroot Hname Hvis Hsub Hmark Hne recursive st)
          as (projects & s2 & Hf & H1 & H2)
    end.
    rewrite Hf. exists projects. cbn [fst]. auto.
Qed.

Lemma list_projects_root_and_subdir_witness :
  exists projects,
    fst (GodotMCP.list_projects example_env "/root" false example_state) = Return projects
    /\ In "/root" (map path projects)
    /\ In "/root/sub" (map path projects).
Proof.
  destruct (list_projects_root_and_subdir example_env "/root" "sub"
              [("project.godot", File); ("main.tscn", File);
               ("sub", Dir [("project.godot", File)])]
              [("project.godot", File)] false example_state
              eq_refl eq_refl eq_refl) as [H _];
    try reflexivity; try (unfold has_marker; cbn; discriminate).
  exact H.
Defined.

(** On the example tree, with a marker at [/root/project.godot] and at
    [/root/sub/project.godot], the non-recursive listing of [/root]
    returns [/root] and [/root/sub] under either program: it is not the
    root alone. *)
Lemma nonrecursive_listing_includes_subdir :
  fst (GodotMCP.list_projects example_env "/root" false example_state)
    = Return [mkProject "/root" "root"; mkProject "/root/sub" "sub"]
  /\ fst (GodotServer.find_godot_projects example_env "/root" false example_state)
    = Return [mkProject "/root" "root"; mkProject "/root/sub" "sub"]
  /\ fst (GodotMCP.list_projects example_env "/root" false example_state)
    <> Return [mkProject "/root" "root"].
Proof.
  assert (H : fst (GodotMCP.list_projects example_env "/root" false example_state)
              = Return [mkProject "/root" "root"; mkProject "/root/sub" "sub"])
    by (vm_compute; reflexivity).
  split; [exact H|]. split; [vm_compute; reflexivity|].
  rewrite H. discriminate.
Qed.

(** ** C10: extensions of saved files *)

Lemma mcp_execute_operation_trace :
  forall E operation params project_path s,
    no_godot_path s = false ->
    exists rest,
      trace (snd (GodotMCP.execute_operation E operation params project_path s))
      = (trace s
           ++ EvRun SiteOperation (List.length (procs s))
                (operation_command E (the_godot_path s) operation params project_path)
                (Some 60)
           :: rest)%list.
Proof.
  intros E operation params project_path s Hgp.
  unfold GodotMCP.execute_operation, GodotMCP.ensure_godot_path, subprocess_run,
    operation_command.
  run_monad. rewrite Hgp. crunch.
  match goal with
  | |- context [run_oracle E _ ?c] => destruct (run_oracle E _ c) as [d rc out err| |e]
  end; crunch.
  - destruct (60 <? d)%nat; crunch.
    + exists [EvKill (List.length (procs s))]. now rewrite <- app_assoc.
    + destruct (rc =? 0)%Z; crunch; exists []; reflexivity.
  - exists [EvKill (List.length (procs s))]. now rewrite <- app_assoc.
  - destruct e; crunch; exists []; reflexivity.
Qed.

(** A continuation and a handler that leave the state alone. *)
Lemma bind_pure_snd {A B} (m : M A) (k : A -> M B) :
  (forall a s, snd (k a s) = s) -> forall s, snd (bind m k s) = snd (m s).
Proof.
  intros Hk s. unfold bind. destruct (m s) as [[a|e|] s1]; cbn [snd]; auto.
Qed.

Lemma try_pure_snd {A} (m : M A) (h : exn -> M A) :
  (forall e s, snd (h e s) = s) -> forall s, snd (try_except m h s) = snd (m s).
Proof.
  intros Hh s. unfold try_except. destruct (m s) as [[a|e|] s1]; cbn [snd]; auto.
Qed.

(** C10.  [create_scene] runs the operations script with [scenePath]
    unchanged when its lower-cased form ends in [.tscn] and with [.tscn]
    appended otherwise, and looks for the scene file under that name;
    [export_mesh_library] runs it with [outputPath] unchanged when its
    lower-cased form ends in [.res] or [.tres] and with [.res] appended
    otherwise.  The run is the one the trace records after the checks on
    the project and the scene file. *)
Theorem saved_paths_get_their_extension :
  forall (E : env) (s : state) (projectPath scenePath : string),
    PosixPath.isabs (cwd E) = true ->
    Py.falsy projectPath = false ->
    validate_path scenePath = true ->
    no_godot_path s = false ->
    let abs := PosixPath.abspath (cwd E) projectPath in
    lookup_path E (PosixPath.join abs "project.godot") <> None ->
    (forall (rootNodeType : string),
        let scenePath' :=
          if Py.endswith (Py.lower scenePath) ".tscn" then scenePath
          else scenePath ++ ".tscn" in
        exists rest,
          trace (snd (GodotMCP.create_scene E projectPath scenePath rootNodeType s))
          = (trace s
               ++ [EvExists (PosixPath.join abs "project.godot");
                   EvExists (PosixPath.join abs scenePath');
                   EvRun SiteOperation (List.length (procs s))
                     (operation_command E (the_godot_path s) "create_scene"
                        [("scenePath", PStr scenePath');
                         ("rootNodeType", PStr rootNodeType)] abs)
                     (Some 60)]
               ++ rest)%list)
    /\ (forall (outputPath : string) (meshItemNames : option (list string)),
           validate_path outputPath = true ->
           lookup_path E (PosixPath.join abs scenePath) <> None ->
           let outputPath' :=
             if Py.endswith (Py.lower outputPath) ".res"
                || Py.endswith (Py.lower outputPath) ".tres"
             then outputPath else outputPath ++ ".res" in
           exists rest,
             trace (snd (GodotMCP.export_mesh_library E projectPath scenePath
                           outputPath meshItemNames s))
             = (trace s
                  ++ [EvExists (PosixPath.join abs "project.godot");
                      EvExists (PosixPath.join abs scenePath);
                      EvRun SiteOperation (List.length (procs s))
                        (operation_command E (the_godot_path s) "export_mesh_library"
                           ([("scenePath", PStr scenePath);
                             ("outputPath", PStr outputPath')]
                              ++ match meshItemNames with
                                 | Some names =>
                                     [("meshItemNames", PList (map PStr names))]
                                 | None => []
                                 end) abs)
                        (Some 60)]
                  ++ rest)%list).
Proof.
  intros E s projectPath scenePath Hcwd Hproj Hscene Hgp abs Hmarker.
  pose proof (validate_path_abspath (cwd E) projectPath Hcwd) as Habs.
  pose proof (validate_path_not_falsy _ Hscene) as Hsne.
  fold abs in Habs.
  split.
  - intros rootNodeType scenePath'.
    unfold GodotMCP.create_scene. rewrite Hproj, Hsne. cbn [orb]. cbv zeta.
    fold abs. rewrite Habs, Hscene. cbn [negb orb].
    replace (if negb (Py.endswith (Py.lower scenePath) ".tscn")
             then scenePath ++ ".tscn" else scenePath) with scenePath'
      by (subst scenePath'; destruct (Py.endswith (Py.lower scenePath) ".tscn"); reflexivity).
    rewrite try_pure_snd
      by (intros e s0; destruct (is_FileNotFoundError e); reflexivity).
    unfold GodotMCP.require_project, os_path_exists.
    cbv [bind log modify ret raise]. cbn [fst snd].
    destruct (lookup_path E (PosixPath.join abs "project.godot")); [|contradiction].
    cbn [negb].
    match goal with
    | |- context [GodotMCP.execute_operation E ?op ?ps ?pp ?st] =>
        destruct (mcp_execute_operation_trace E op ps pp st Hgp) as [rest Hrest];
        destruct (GodotMCP.execute_operation E op ps pp st) as [[r|e|] s3]
    end; cbn [fst snd] in *.
    + exists rest.
      match goal with |- trace ?t = _ => assert (Ht : t = s3) end.
      { destruct (GodotMCP.stderr_reports (snd r) "failed");
          [destruct (Py.contains (snd r) "Invalid node type"); reflexivity|].
        destruct (Py.contains (fst r) "Cannot create file"); reflexivity. }
      rewrite Ht, Hrest. cbn [trace add_event]. rewrite <- !app_assoc. reflexivity.
    + exists rest. rewrite Hrest. cbn [trace add_event]. rewrite <- !app_assoc. reflexivity.
    + exists rest. rewrite Hrest. cbn [trace add_event]. rewrite <- !app_assoc. reflexivity.
  - intros outputPath meshItemNames Hout Hsfile outputPath'.
    pose proof (validate_path_not_falsy _ Hout) as Hone.
    unfold GodotMCP.export_mesh_library. rewrite Hproj, Hsne, Hone. cbn [orb]. cbv zeta.
    fold abs. rewrite Habs, Hscene, Hout. cbn [negb orb].
    replace (if negb (Py.endswith (Py.lower outputPath) ".res"
                      || Py.endswith (Py.lower outputPath) ".tres")
             then outputPath ++ ".res" else outputPath) with outputPath'
      by (subst outputPath';
          destruct (Py.endswith (Py.lower outputPath) ".res"
                    || Py.endswith (Py.lower outputPath) ".tres"); reflexivity).
    rewrite try_pure_snd
      by (intros e s0; destruct (is_FileNotFoundError e); reflexivity).
    unfold GodotMCP.require_project, os_path_exists.
    cbv [bind log modify ret raise]. cbn [fst snd].
    destruct (lookup_path E (PosixPath.join abs "project.godot")); [|contradiction].
    destruct (lookup_path E (PosixPath.join abs scenePath)); [|contradiction].
    cbn [negb].
    replace (match meshItemNames with
             | Some names =>
                 dict_set "meshItemNames" (PList (map PStr names))
                   [("scenePath", PStr scenePath); ("outputPath", PStr outputPath')]
             | None => [("scenePath", PStr scenePath); ("outputPath", PStr outputPath')]
             end)
      with ([("scenePath", PStr scenePath); ("outputPath", PStr outputPath')]
              ++ match meshItemNames with
                 | Some names => [("meshItemNames", PList (map PStr names))]
                 | None => []
                 end)%list
      by (destruct meshItemNames; reflexivity).
    match goal with
    | |- context [GodotMCP.execute_operation E ?op ?ps ?pp ?st] =>
        destruct (mcp_execute_operation_trace E op ps pp st Hgp) as [rest Hrest];
        destruct (GodotMCP.execute_operation E op ps pp st) as [[r|e|] s3]
    end; cbn [fst snd] in *.
    + exists rest.
      match goal with |- trace ?t = _ => assert (Ht : t = s3) end.
      { destruct (GodotMCP.stderr_reports (snd r) "failed"); [reflexivity|].
        destruct (Py.contains (fst r) "Failed to export"
                  || Py.contains (fst r) "No meshes found"); reflexivity. }
      rewrite Ht, Hrest. cbn [trace add_event]. rewrite <- !app_assoc. reflexivity.
    + exists rest. rewrite Hrest. cbn [trace add_event]. rewrite <- !app_assoc. reflexivity.
    + exists rest. rewrite Hrest. cbn [trace add_event]. rewrite <- !app_assoc. reflexivity.
Qed.

Lemma saved_paths_get_their_extension_witness :
  exists rest,
    trace (snd (GodotMCP.create_scene example_env "/root" "main" "Node2D" example_state))
    = ([EvExists "/root/project.godot";
        EvExists "/root/main.tscn";
        EvRun SiteOperation 0
          ["/usr/bin/godot"; "--headless"; "--path"; "/root"; "--script";
           "/srv/godot_operations.gd"; "create_scene"; "{}"; "--debug-godot"]
          (Some 60)] ++ rest)%list.
Proof.
  assert (Hm : lookup_path example_env
                 (PosixPath.join (PosixPath.abspath (cwd example_env) "/root")
                    "project.godot") <> None)
    by (vm_compute; discriminate).
  destruct (proj1 (saved_paths_get_their_extension example_env example_state
                     "/root" "main" eq_refl eq_refl eq_refl eq_refl Hm) "Node2D")
    as [rest Hrest].
  exists rest. exact Hrest.
Defined.

(** ** C8: the version gate of the UID tools *)

Ltac crunch2 :=
  cbn -[nth_error update_nth String.append Nat.ltb Nat.leb Z.eqb
        PosixPath.join PosixPath.abspath lookup_path
        Py.strip is_godot_44_or_later validate_path script_runs app].

Lemma script_runs_app : forall a b,
  script_runs (a ++ b)%list = (script_runs a ++ script_runs b)%list.
Proof.
  induction a as [|ev a IH]; intro b; [reflexivity|].
  destruct ev as [| | | | |[] ? ? ?| | | | |]; cbn [app script_runs]; rewrite ?IH; reflexivity.
Qed.

(** [is_godot_44_or_later] on versions as the engine prints them; a
    version that does not parse is not 4.4 or later. *)
Lemma is_godot_44_or_later_examples :
  is_godot_44_or_later "4.3.stable.official" = false
  /\ is_godot_44_or_later "3.6.1.stable" = false
  /\ is_godot_44_or_later "4.4.stable.official" = true
  /\ is_godot_44_or_later "4.10.beta1" = true
  /\ is_godot_44_or_later "5.0" = true
  /\ is_godot_44_or_later "4" = false
  /\ is_godot_44_or_later "four.four" = false.
Proof. repeat split; vm_compute; reflexivity. Qed.

(** C8.  When the engine reports a version that [is_godot_44_or_later]
    rejects, [get_uid] and [update_project_uids] fail with the version
    gate: [godot_mcp.py] raises a [RuntimeError] that quotes the version,
    [save_godot.py] returns the error response for it.  The only run of
    the engine on the way is [--version]: the trace gains no run of the
    operations script. *)
Theorem uid_tools_version_gate :
  forall (E : env) (s : state) (projectPath filePath : string)
         (d : nat) (vout verr : string),
    no_godot_path s = false ->
    Py.falsy projectPath = false ->
    validate_path filePath = true ->
    (forall cmd, run_oracle E (List.length (procs s)) cmd = RunExits d 0 vout verr) ->
    d <= 10 ->
    is_godot_44_or_later (Py.strip vout) = false ->
    let version_run :=
      EvRun SiteVersion (List.length (procs s)) [the_godot_path s; "--version"] (Some 10) in
    (PosixPath.isabs (cwd E) = true ->
     let abs := PosixPath.abspath (cwd E) projectPath in
     lookup_path E (PosixPath.join abs "project.godot") <> None ->
     let gate :=
       PyExn RuntimeError
         ("UIDs require Godot 4.4+ (Current version: " ++ Py.strip vout ++ ")") in
     (lookup_path E (PosixPath.join abs filePath) <> None ->
      let r := GodotMCP.get_uid E projectPath filePath s in
      fst r = Raise gate
      /\ trace (snd r)
         = (trace s ++ [EvExists (PosixPath.join abs "project.godot");
                        EvExists (PosixPath.join abs filePath); version_run])%list
      /\ script_runs (trace (snd r)) = script_runs (trace s))
     /\ (let r := GodotMCP.update_project_uids E projectPath s in
         fst r = Raise gate
         /\ trace (snd r)
            = (trace s ++ [EvExists (PosixPath.join abs "project.godot");
                           version_run])%list
         /\ script_runs (trace (snd r)) = script_runs (trace s)))
    /\ (validate_path projectPath = true ->
        lookup_path E (PosixPath.join projectPath "project.godot") <> None ->
        (lookup_path E (PosixPath.join projectPath filePath) <> None ->
         let r := GodotServer.handle_get_uid E (Some projectPath) (Some filePath) s in
         fst r = Return (GodotServer.version_gate_response (Py.strip vout))
         /\ trace (snd r)
            = (trace s ++ [EvExists (PosixPath.join projectPath "project.godot");
                           EvExists (PosixPath.join projectPath filePath);
                           version_run])%list
         /\ script_runs (trace (snd r)) = script_runs (trace s))
        /\ (let r := GodotServer.handle_update_project_uids E (Some projectPath) s in
            fst r = Return (GodotServer.version_gate_response (Py.strip vout))
            /\ trace (snd r)
               = (trace s ++ [EvExists (PosixPath.join projectPath "project.godot");
                              version_run])%list
            /\ script_runs (trace (snd r)) = script_runs (trace s))).
Proof.
  intros E s projectPath filePath d vout verr Hgp Hproj Hfile Hrun Hd Hgate version_run.
  pose proof (validate_path_not_falsy _ Hfile) as Hfne.
  assert (Hlt : (10 <? d)%nat = false) by (apply Nat.ltb_ge; exact Hd).
  destruct s as [a o e q1 q2 [gp|] ps tr]; [|discriminate Hgp].
  cbn [no_godot_path godot_path] in Hgp. cbn [procs] in Hrun.
  split.
  - intros Hcwd abs Hmarker gate.
    pose proof (validate_path_abspath (cwd E) projectPath Hcwd) as Habs.
    fold abs in Habs.
    split.
    + intros Hf r. subst r.
      unfold GodotMCP.get_uid. rewrite Hproj, Hfne. cbn [orb]. cbv zeta.
      fold abs. rewrite Habs, Hfile. cbn [negb orb].
      unfold GodotMCP.require_godot_44, GodotMCP.get_godot_version,
        GodotMCP.require_project, GodotMCP.ensure_godot_path, os_path_exists,
        subprocess_run.
      run_monad. crunch2. rewrite ?Hgp. crunch2.
      destruct (lookup_path E (PosixPath.join abs "project.godot")); [|contradiction].
      destruct (lookup_path E (PosixPath.join abs filePath)); [|contradiction].
      crunch2. rewrite ?Hgp. crunch2. rewrite Hrun. crunch2. rewrite Hlt. crunch2. rewrite Z.eqb_refl. crunch2.
      rewrite Hgate. crunch2.
      repeat split.
      * now rewrite <- !app_assoc.
      * rewrite <- !app_assoc, script_runs_app. cbn. now rewrite app_nil_r.
    + intros r. subst r.
      unfold GodotMCP.update_project_uids. rewrite Hproj. cbv zeta.
      fold abs. rewrite Habs. cbn [negb orb].
      unfold GodotMCP.require_godot_44, GodotMCP.get_godot_version,
        GodotMCP.require_project, GodotMCP.ensure_godot_path, os_path_exists,
        subprocess_run.
      run_monad. crunch2. rewrite ?Hgp. crunch2.
      destruct (lookup_path E (PosixPath.join abs "project.godot")); [|contradiction].
      crunch2. rewrite ?Hgp. crunch2. rewrite Hrun. crunch2. rewrite Hlt. crunch2. rewrite Z.eqb_refl. crunch2.
      rewrite Hgate. crunch2.
      repeat split.
      * now rewrite <- !app_assoc.
      * rewrite <- !app_assoc, script_runs_app. cbn. now rewrite app_nil_r.
  - intros Hval Hmarker.
    pose proof (validate_path_not_falsy _ Hval) as Hpne.
    split.
    + intros Hf r. subst r.
      unfold GodotServer.handle_get_uid. cbn [missing arg]. rewrite Hpne, Hfne.
      cbn [orb]. rewrite Hval, Hfile. cbn [negb orb].
      unfold GodotServer.read_version, GodotServer.godot_path_missing, os_path_exists,
        subprocess_run.
      run_monad. crunch2. rewrite ?Hgp. crunch2.
      destruct (lookup_path E (PosixPath.join projectPath "project.godot")); [|contradiction].
      destruct (lookup_path E (PosixPath.join projectPath filePath)); [|contradiction].
      crunch2. rewrite Hrun. crunch2. rewrite Hlt. crunch2. rewrite Z.eqb_refl. crunch2.
      rewrite Hgate. crunch2.
      repeat split.
      * now rewrite <- !app_assoc.
      * rewrite <- !app_assoc, script_runs_app. cbn. now rewrite app_nil_r.
    + intros r. subst r.
      unfold GodotServer.handle_update_project_uids. cbn [missing arg]. rewrite Hpne.
      rewrite Hval. cbn [negb orb].
      unfold GodotServer.read_version, GodotServer.godot_path_missing, os_path_exists,
        subprocess_run.
      run_monad. crunch2. rewrite ?Hgp. crunch2.
      destruct (lookup_path E (PosixPath.join projectPath "project.godot")); [|contradiction].
      crunch2. rewrite Hrun. crunch2. rewrite Hlt. crunch2. rewrite Z.eqb_refl. crunch2.
      rewrite Hgate. crunch2.
      repeat split.
      * now rewrite <- !app_assoc.
      * rewrite <- !app_assoc, script_runs_app. cbn. now rewrite app_nil_r.
Qed.

Lemma uid_tools_version_gate_witness :
  fst (GodotMCP.get_uid example_env "/root" "main.tscn" example_state)
  = Raise (PyExn RuntimeError
             "UIDs require Godot 4.4+ (Current version: 4.3.stable.official)")
  /\ script_runs (trace (snd (GodotMCP.get_uid example_env "/root" "main.tscn"
                                example_state))) = [].
Proof.
  pose proof (uid_tools_version_gate example_env example_state "/root" "main.tscn"
                1 "4.3.stable.official" EmptyString
                eq_refl eq_refl eq_refl (fun _ => eq_refl)) as H.
  assert (Hd : 1 <= 10) by lia.
  specialize (H Hd eq_refl). cbv zeta in H.
  destruct H as [H _].
  assert (Hm : lookup_path example_env
                 (PosixPath.join (PosixPath.abspath (cwd example_env) "/root")
                    "project.godot") <> None)
    by (vm_compute; discriminate).
  destruct (H eq_refl Hm) as [H1 _].
  assert (Hf : lookup_path example_env
                 (PosixPath.join (PosixPath.abspath (cwd example_env) "/root")
                    "main.tscn") <> None)
    by (vm_compute; discriminate).
  destruct (H1 Hf) as (Ha & _ & Hc).
  split; [exact Ha | exact Hc].
Defined.

(** ** C2: paths with a parent-directory component *)

(** C2.  [run_project] of [godot_mcp.py] called with [../secret] from
    the working directory [/home/user/work]: [validate_path] rejects the
    argument as given, but the tool validates the result of
    [os.path.abspath], [/home/user/secret], which has no [..] left.  The
    call succeeds: it looks for the marker file there and starts the
    engine on that directory. *)
Theorem run_project_accepts_traversal :
  validate_path "../secret" = false
  /\ GodotMCP.run_project example_env "../secret" None example_state
     = (Return "Godot project started in debug mode. Use get_debug_output to see output.",
        mkState (Some 0) [] [] ["ready"] [] (Some "/usr/bin/godot")
          [mkProc ["/usr/bin/godot"; "-d"; "--path"; "/home/user/secret"]
                  Alive false (Some (1, 0%Z))]
          [EvExists "/home/user/secret/project.godot";
           EvPopen 0 ["/usr/bin/godot"; "-d"; "--path"; "/home/user/secret"] [];
           EvSleep]).
Proof. split; vm_compute; reflexivity. Qed.

Lemma validate_path_rejects_dotdot : forall p,
  In ".." (Py.split PosixPath.sep p) -> validate_path p = false.
Proof.
  intros p Hin. unfold validate_path.
  rewrite (mem_true _ _ Hin), orb_true_r. reflexivity.
Qed.

(** X19.  [handle_run_project] of [save_godot.py] validates the argument as
    given: a path with a [..] component is answered with the error
    response and the state, its trace included, is left as it was. *)
Lemma server_run_project_rejects_traversal :
  forall (E : env) (p : string) (scene : option string) (s : state),
    In ".." (Py.split PosixPath.sep p) ->
    GodotServer.handle_run_project E (Some p) scene s
    = (Return (create_error_response "Invalid project path"
                 GodotServer.invalid_path_solutions), s).
Proof.
  intros E p scene s Hin. unfold GodotServer.handle_run_project.
  cbn [missing arg]. rewrite (validate_path_rejects_dotdot _ Hin).
  destruct p as [|c p]; [|reflexivity].
  cbn in Hin. destruct Hin as [Hin|[]]. discriminate Hin.
Qed.

Lemma server_run_project_rejects_traversal_witness :
  GodotServer.handle_run_project example_env (Some "../secret") None example_state
  = (Return (create_error_response "Invalid project path"
               GodotServer.invalid_path_solutions), example_state).
Proof.
  exact (server_run_project_rejects_traversal example_env "../secret" None example_state
           (or_introl eq_refl)).
Defined.

(** X17.  The traversal check on [projectPath] in [godot_mcp.py] comes after
    [os.path.abspath], which has already resolved every [..]: whatever
    the argument, [run_project] never raises the error of that check. *)
Lemma project_path_check_never_fails :
  forall (E : env) (projectPath : string) (scene : option string) (s : state),
    PosixPath.isabs (cwd E) = true ->
    fst (GodotMCP.run_project E projectPath scene s)
    <> Raise (PyExn ValueError
                ("Invalid project path format (e.g., contains " ++ dq ++ ".." ++ dq ++ ")")).
Proof.
  intros E projectPath scene s Hcwd.
  unfold GodotMCP.run_project.
  destruct (Py.falsy projectPath); [cbn; intro H; inversion H|].
  cbv zeta. rewrite (validate_path_abspath _ _ Hcwd). cbn [negb].
  destruct (match scene with Some _ => _ | None => _ end);
    [cbn; intro H; inversion H|].
  unfold try_except.
  match goal with |- context [let (o, s') := ?body s in _] => destruct (body s) as [[a|e|] s1] end;
    cbn [fst]; try discriminate.
  destruct e as [[] msg| |]; cbn [is_FileNotFoundError]; try (cbn; discriminate);
    cbv [bind get]; destruct (active_process s1);
    try (pose proof (mcp_cleanup_returns s1) as Hr;
         destruct (GodotMCP.cleanup s1) as [oc sc]; cbn [fst] in Hr; subst oc);
    cbn; discriminate.
Qed.

Lemma project_path_check_never_fails_witness :
  fst (GodotMCP.run_project example_env "../secret" None example_state)
  <> Raise (PyExn ValueError
              ("Invalid project path format (e.g., contains " ++ dq ++ ".." ++ dq ++ ")")).
Proof.
  exact (project_path_check_never_fails example_env "../secret" None example_state eq_refl).
Defined.

(** ** Running a project: the scene argument and the marker file *)

(** X1.  Off Windows, [run_project] of [godot_mcp.py] checks its [scene]
    argument and then makes no use of it: with a scene that passes the
    check, the call is, in outcome and in state, the call without a scene. *)
Lemma run_project_ignores_scene :
  forall (E : env) (projectPath sc : string) (s : state),
    validate_path sc = true ->
    GodotMCP.run_project E projectPath (Some sc) s
    = GodotMCP.run_project E projectPath None s.
Proof.
  intros E projectPath sc s Hsc. unfold GodotMCP.run_project.
  rewrite Hsc. cbn [negb andb]. rewrite andb_false_r. reflexivity.
Qed.

Lemma run_project_ignores_scene_witness :
  GodotMCP.run_project example_env "/root" (Some "main.tscn") example_state
  = GodotMCP.run_project example_env "/root" None example_state.
Proof.
  exact (run_project_ignores_scene example_env "/root" "main.tscn" example_state eq_refl).
Defined.

(** X2.  A directory without [project.godot] is not run.  Once the
    arguments are accepted and an engine path is known, [run_project] of
    [godot_mcp.py] raises [FileNotFoundError] with the absolute path in
    its message, and [handle_run_project] of [save_godot.py] answers with
    its error response; in both, the test of the marker file is the only
    interaction, and no process is started. *)
Lemma run_project_without_marker :
  forall (E : env) (projectPath : string) (scene : option string) (s : state),
    Py.falsy projectPath = false ->
    no_godot_path s = false ->
    (PosixPath.isabs (cwd E) = true ->
     match scene with Some sc => Py.falsy sc || validate_path sc | None => true end = true ->
     let abs := PosixPath.abspath (cwd E) projectPath in
     lookup_path E (PosixPath.join abs "project.godot") = None ->
     GodotMCP.run_project E projectPath scene s
     = (Raise (PyExn FileNotFoundError
                 ("Not a valid Godot project (project.godot not found): " ++ abs)),
        add_event (EvExists (PosixPath.join abs "project.godot")) s))
    /\ (validate_path projectPath = true ->
        lookup_path E (PosixPath.join projectPath "project.godot") = None ->
        GodotServer.handle_run_project E (Some projectPath) scene s
        = (Return (GodotServer.not_a_project_response projectPath),
           add_event (EvExists (PosixPath.join projectPath "project.godot")) s)).
Proof.
  intros E projectPath scene s Hp Hgp. split.
  - intros Hcwd Hsc abs Hm.
    pose proof (validate_path_abspath _ projectPath Hcwd) as Hv. fold abs in Hv.
    unfold GodotMCP.run_project. rewrite Hp. cbv zeta. fold abs.
    rewrite Hv. cbn [negb].
    replace (match scene with
             | Some sc => negb (Py.falsy sc) && negb (validate_path sc)
             | None => false
             end) with false
      by (destruct scene as [sc|]; [|reflexivity];
          destruct (Py.falsy sc), (validate_path sc); try reflexivity; discriminate Hsc).
    unfold GodotMCP.ensure_godot_path, os_path_exists. run_monad.
    rewrite Hgp. cbn [fst snd]. rewrite Hm. reflexivity.
  - intros Hv Hm.
    unfold GodotServer.handle_run_project. cbn [missing arg]. rewrite Hp, Hv. cbn [negb].
    unfold GodotServer.godot_path_missing, os_path_exists. run_monad.
    rewrite Hgp. cbn [fst snd]. rewrite Hm. reflexivity.
Qed.

Lemma run_project_without_marker_witness :
  fst (GodotMCP.run_project example_env "/nowhere" None running_state)
  = Raise (PyExn FileNotFoundError
             "Not a valid Godot project (project.godot not found): /nowhere")
  /\ fst (GodotServer.handle_run_project example_env (Some "/nowhere") None running_state)
     = Return (GodotServer.not_a_project_response "/nowhere").
Proof.
  destruct (run_project_without_marker example_env "/nowhere" None running_state
              eq_refl eq_refl) as [H1 H2].
  split.
  - rewrite (H1 eq_refl eq_refl eq_refl). reflexivity.
  - rewrite (H2 eq_refl eq_refl). reflexivity.
Defined.

(** ** Sessions whose child has exited *)

Lemma mcp_cleanup_exited : forall s p,
  active_process s = Some p -> alive (status_of p s) = false ->
  GodotMCP.cleanup s = (Return tt, set_errors [] (set_output [] (set_active None s))).
Proof.
  intros s p Ha Hst. unfold GodotMCP.cleanup. run_monad. rewrite Ha.
  destruct (nth_error (procs s) p) as [q|] eqn:Hq; cbn in Hst |- *.
  - rewrite Hst. reflexivity.
  - reflexivity.
Qed.

(** X3.  A session whose child has exited is reported once under
    [godot_mcp.py]: the next [get_debug_output] or [stop_project] returns
    every line, sends no signal and leaves the manager idle, so that the
    request after it fails for want of a session. *)
Theorem exited_session_is_reported_once :
  forall (s : state) (p : pid),
    active_process s = Some p ->
    alive (status_of p s) = false ->
    let idle := mkState None [] [] [] [] (godot_path s) (procs s) (trace s) in
    GodotMCP.get_debug_output s
    = (Return (mkDebug (Some "Godot process terminated.")
                 (active_process_output s ++ stdout_queue s)%list
                 (active_process_errors s ++ stderr_queue s)%list), idle)
    /\ GodotMCP.stop_project s
       = (Return (mkStop "Godot process already terminated"
                    (active_process_output s ++ stdout_queue s)%list
                    (active_process_errors s ++ stderr_queue s)%list), idle)
    /\ GodotMCP.get_debug_output idle
       = (Raise (PyExn RuntimeError "No active Godot process. Use run_project first."),
          idle)
    /\ GodotMCP.stop_project idle
       = (Raise (PyExn RuntimeError "No active Godot process to stop."), idle).
Proof.
  intros s p Ha Hst idle.
  assert (Hc : GodotMCP.cleanup (drained s) = (Return tt, idle)).
  { rewrite (mcp_cleanup_exited (drained s) p) by (destruct s; assumption).
    destruct s; reflexivity. }
  split; [|split; [|split]].
  - rewrite (mcp_poll_run s), Ha, Hst. rewrite Hc. reflexivity.
  - unfold GodotMCP.stop_project. cbv [bind get]. rewrite Ha, poll_run. cbn [fst snd].
    rewrite Hst. rewrite read_queues_run. fold (drained s). rewrite Hc.
    destruct s; reflexivity.
  - reflexivity.
  - reflexivity.
Qed.

Lemma exited_session_is_reported_once_witness :
  fst (GodotMCP.get_debug_output exited_state)
  = Return (mkDebug (Some "Godot process terminated.") ["a"; "b"] ["x"; "y"])
  /\ fst (GodotMCP.get_debug_output (snd (GodotMCP.get_debug_output exited_state)))
     = Raise (PyExn RuntimeError "No active Godot process. Use run_project first.").
Proof.
  pose proof (exited_session_is_reported_once exited_state 0 eq_refl eq_refl) as H.
  cbv zeta in H. destruct H as (H1 & _ & H3 & _).
  rewrite H1. cbn [fst snd]. rewrite H3. split; reflexivity.
Defined.

(** ** Stop, poll and teardown under [save_godot.py] *)

Lemma server_cleanup_active : forall s p,
  active_process s = Some p ->
  fst (GodotServer.cleanup s) = Return tt
  /\ active_process (snd (GodotServer.cleanup s)) = None
  /\ active_process_output (snd (GodotServer.cleanup s)) = []
  /\ active_process_errors (snd (GodotServer.cleanup s)) = [].
Proof.
  intros s p Ha. unfold GodotServer.cleanup. run_monad. rewrite Ha.
  destruct (nth_error (procs s) p) as [q|] eqn:Hq; crunch.
  - rewrite (nth_error_update_nth_eq set_signalled _ _ _ Hq). crunch.
    destruct (p_status q) eqn:Hst; crunch.
    + destruct (p_term q) as [[d rc]|]; crunch.
      * destruct (d <=? 5)%nat; crunch; repeat split; reflexivity.
      * repeat split; reflexivity.
    + repeat split; reflexivity.
  - rewrite (nth_error_update_nth_none set_signalled _ p p Hq). crunch.
    repeat split; reflexivity.
Qed.

(** X4.  [handle_stop_project] of [save_godot.py] reads the two
    sequences after [cleanup] has replaced them by empty lists: whatever
    the session printed, [finalOutput] and [finalErrors] are empty. *)
Lemma server_stop_loses_output :
  forall (E : env) (s : state) (p : pid),
    active_process s = Some p ->
    fst (GodotServer.handle_stop_project E s)
    = Return (text_response
                (json_dumps E JsonIndent2
                   (PDict [("message", PStr "Godot project stopped");
                           ("finalOutput", PList []);
                           ("finalErrors", PList [])]))).
Proof.
  intros E s p Ha. unfold GodotServer.handle_stop_project.
  cbv [bind get]. rewrite Ha. rewrite read_queues_run.
  destruct (server_cleanup_active
              (set_stderr_queue []
                 (set_errors (active_process_errors s ++ stderr_queue s)%list
                    (set_stdout_queue []
                       (set_output (active_process_output s ++ stdout_queue s)%list s)))) p)
    as (H1 & H2 & H3 & H4); [destruct s; exact Ha|].
  match goal with |- context [GodotServer.cleanup ?st] =>
    destruct (GodotServer.cleanup st) as [o s1] end.
  cbn [fst snd] in *. subst o. cbv [ret]. cbn [fst]. rewrite H3, H4. reflexivity.
Qed.

Lemma server_stop_loses_output_witness :
  fst (GodotServer.handle_stop_project example_env running_state)
  = Return (text_response
              (json_dumps example_env JsonIndent2
                 (PDict [("message", PStr "Godot project stopped");
                         ("finalOutput", PList []);
                         ("finalErrors", PList [])]))).
Proof.
  exact (server_stop_loses_output example_env running_state 0 eq_refl).
Defined.

(** X5.  Polling under [save_godot.py] never ends the session:
    [handle_get_debug_output] answers with the accumulated lines followed
    by the queued ones, and the handle stays, also when the child has
    exited; the process table and the trace are as before. *)
Lemma server_poll_keeps_session :
  forall (E : env) (s : state) (p : pid),
    active_process s = Some p ->
    let r := GodotServer.handle_get_debug_output E s in
    fst r = Return (text_response
                      (json_dumps E JsonIndent2
                         (PDict [("output",
                                  PList (map PStr (active_process_output s ++ stdout_queue s)));
                                 ("errors",
                                  PList (map PStr (active_process_errors s ++ stderr_queue s)))])))
    /\ active_process (snd r) = Some p
    /\ procs (snd r) = procs s
    /\ trace (snd r) = trace s.
Proof.
  intros E s p Ha r. subst r. unfold GodotServer.handle_get_debug_output.
  cbv [bind get]. rewrite Ha. rewrite read_queues_run. cbv [ret]. cbn [fst snd].
  destruct s; cbn in *. repeat split; try reflexivity. exact Ha.
Qed.

Lemma server_poll_keeps_session_witness :
  active_process (snd (GodotServer.handle_get_debug_output example_env exited_state))
  = Some 0.
Proof.
  pose proof (server_poll_keeps_session example_env exited_state 0 eq_refl) as H.
  cbv zeta in H. destruct H as (_ & H2 & _). exact H2.
Defined.

(** X6.  [cleanup] is idempotent in both programs: a second teardown
    right after the first returns and changes nothing. *)
Lemma cleanup_idempotent :
  forall (s : state),
    GodotMCP.cleanup (snd (GodotMCP.cleanup s)) = (Return tt, snd (GodotMCP.cleanup s))
    /\ GodotServer.cleanup (snd (GodotServer.cleanup s))
       = (Return tt, snd (GodotServer.cleanup s)).
Proof.
  intro s. split.
  - pose proof (cleanup_clears_handle s) as H.
    unfold GodotMCP.cleanup at 1. cbv [bind get]. rewrite H. reflexivity.
  - assert (H : active_process (snd (GodotServer.cleanup s)) = None).
    { destruct (active_process s) as [p|] eqn:Ha.
      - apply (server_cleanup_active s p Ha).
      - unfold GodotServer.cleanup. cbv [bind get]. rewrite Ha. exact Ha. }
    unfold GodotServer.cleanup at 1. cbv [bind get]. rewrite H. reflexivity.
Qed.

(** ** What the one-shot invoker and the tools raise *)

Lemma terminates_bind {A B} (m : M A) (k : A -> M B) :
  terminates m -> (forall a, terminates (k a)) -> terminates (bind m k).
Proof.
  intros Hm Hk s. unfold bind. specialize (Hm s).
  destruct (m s) as [[a|e|] s1]; cbn [fst] in *; [apply Hk|discriminate|contradiction].
Qed.

Lemma terminates_try {A} (m : M A) (h : exn -> M A) :
  terminates m -> (forall e, terminates (h e)) -> terminates (try_except m h).
Proof.
  intros Hm Hh s. unfold try_except. specialize (Hm s).
  destruct (m s) as [[a|e|] s1]; cbn [fst] in *; [discriminate|apply Hh|contradiction].
Qed.

Lemma terminates_ret {A} (a : A) : terminates (ret a).
Proof. intro s. discriminate. Qed.
Lemma terminates_raise {A} (e : exn) : terminates (@raise A e).
Proof. intro s. discriminate. Qed.
Lemma terminates_get : terminates get.
Proof. intro s. discriminate. Qed.
Lemma terminates_modify f : terminates (modify f).
Proof. intro s. discriminate. Qed.
Lemma terminates_log ev : terminates (log ev).
Proof. intro s. unfold log, modify. cbn [fst]. discriminate. Qed.

Lemma terminates_if {A} (b : bool) (m1 m2 : M A) :
  terminates m1 -> terminates m2 -> terminates (if b then m1 else m2).
Proof. destruct b; auto. Qed.

Lemma terminates_exists E p : terminates (os_path_exists E p).
Proof.
  unfold os_path_exists. apply terminates_bind; [apply terminates_log|].
  intros _. apply terminates_ret.
Qed.

Lemma terminates_run_bounded E site cmd t :
  terminates (subprocess_run E site cmd (Some t)).
Proof.
  intro s. unfold subprocess_run. run_monad.
  destruct (run_oracle E _ cmd) as [d rc out err| |e]; crunch.
  - destruct (t <? d)%nat; crunch; [discriminate|]. destruct (rc =? 0)%Z; discriminate.
  - discriminate.
  - discriminate.
Qed.

Lemma terminates_ensure E : terminates (GodotMCP.ensure_godot_path E).
Proof.
  intro s. unfold GodotMCP.ensure_godot_path, detect_godot_path_sync. run_monad.
  destruct (no_godot_path s); [|discriminate].
  cbn. match goal with |- context [if ?c then _ else _] => destruct c end; discriminate.
Qed.

Create HintDb term.
#[local] Hint Resolve terminates_bind terminates_try terminates_ret terminates_raise
  terminates_get terminates_modify terminates_log terminates_exists
  terminates_run_bounded terminates_ensure : term.

Lemma terminates_execute E operation params project_path :
  terminates (GodotMCP.execute_operation E operation params project_path).
Proof.
  unfold GodotMCP.execute_operation.
  apply terminates_bind; [apply terminates_ensure|intros _].
  apply terminates_try.
  - apply terminates_bind; [apply terminates_get|intro s]. apply terminates_run_bounded.
  - intros [c m|rc cmd out err|cmd t]; auto with term.
Qed.

(** What [execute_operation] of [godot_mcp.py] raises. *)
Lemma execute_raises_runtime E operation params project_path s e :
  fst (GodotMCP.execute_operation E operation params project_path s) = Raise e ->
  is_RuntimeError e = true.
Proof.
  unfold GodotMCP.execute_operation, GodotMCP.ensure_godot_path, detect_godot_path_sync.
  run_monad.
  destruct (no_godot_path s); cbn [fst snd].
  - match goal with |- context [if ?c then _ else _] => destruct c end; cbn [fst snd].
    + intro H. inversion H. reflexivity.
    + match goal with |- context [subprocess_run E ?a ?b ?c ?st] =>
        destruct (subprocess_run E a b c st) as [[r|[c0 m|rc cmd out err|cmd t]|] s1] end;
        cbn; intro H; inversion H; reflexivity.
  - match goal with |- context [subprocess_run E ?a ?b ?c ?st] =>
      destruct (subprocess_run E a b c st) as [[r|[c0 m|rc cmd out err|cmd t]|] s1] end;
      cbn; intro H; inversion H; reflexivity.
Qed.

(** X7.  [execute_operation] of [godot_mcp.py] always comes back,
    whatever the engine does, and what it raises is a [RuntimeError]. *)
Lemma execute_operation_bounded :
  forall (E : env) (operation : string) (params : list (string * pvalue))
         (project_path : string) (s : state),
    let r := GodotMCP.execute_operation E operation params project_path s in
    fst r <> Diverge
    /\ (forall e, fst r = Raise e -> exists msg, e = PyExn RuntimeError msg).
Proof.
  intros E operation params project_path s r. subst r. split.
  - apply terminates_execute.
  - intros e He. apply execute_raises_runtime in He.
    destruct e as [[] msg| |]; try discriminate He. now exists msg.
Qed.

(** A [try] whose handlers re-raise [FileNotFoundError] and turn every
    other exception into a [RuntimeError]. *)
Lemma try_wraps_runtime {A} (m : M A) (prefix : string) (E : env) s e :
  fst (try_except m
         (fun e => if is_FileNotFoundError e then raise e
                   else raise (PyExn RuntimeError (prefix ++ str_exn E e))) s) = Raise e ->
  is_FileNotFoundError e || is_RuntimeError e = true.
Proof.
  unfold try_except. destruct (m s) as [[a|e0|] s1]; cbn [fst]; try discriminate.
  destruct (is_FileNotFoundError e0) eqn:Hf; cbn; intro H; inversion H; subst.
  - now rewrite Hf.
  - apply orb_true_r.
Qed.

Lemma terminates_require_project E p : terminates (GodotMCP.require_project E p).
Proof.
  unfold GodotMCP.require_project.
  apply terminates_bind; [apply terminates_exists|intro ex].
  destruct (negb ex); auto with term.
Qed.

(** Simplifies the body of a tool, leaving the paths, the lookups and
    the tests on stderr in place. *)
Ltac crunch3 :=
  cbn -[nth_error update_nth String.append Nat.ltb Nat.leb Z.eqb
        PosixPath.join PosixPath.abspath lookup_path Py.strip Py.contains Py.endswith
        Py.lower GodotMCP.stderr_reports validate_path app
        GodotMCP.convert_camel_to_snake_case].

(** X9.  The engine's complaint about the node type reaches the caller
    of [create_scene] as a [RuntimeError]: the [ValueError] raised for it
    inside the [try] is caught by the generic handler of that [try] and
    wrapped, its message behind the prefix [Failed to create scene: ]. *)
Lemma create_scene_invalid_node_type :
  forall (E : env) (projectPath scenePath rootNodeType : string) (s : state)
         (d : nat) (rc : Z) (out err : string),
    PosixPath.isabs (cwd E) = true ->
    Py.falsy projectPath = false ->
    validate_path scenePath = true ->
    no_godot_path s = false ->
    lookup_path E (PosixPath.join (PosixPath.abspath (cwd E) projectPath) "project.godot")
      <> None ->
    (forall cmd, run_oracle E (List.length (procs s)) cmd = RunExits d rc out err) ->
    d <= 60 ->
    GodotMCP.stderr_reports err "failed" = true ->
    Py.contains err "Invalid node type" = true ->
    fst (GodotMCP.create_scene E projectPath scenePath rootNodeType s)
    = Raise (PyExn RuntimeError
               ("Failed to create scene: Invalid root node type: '" ++ rootNodeType
                  ++ "'. Godot stderr: " ++ Py.strip err)).
Proof.
  intros E projectPath scenePath rootNodeType s d rc out err
         Hcwd Hp Hsc Hgp Hm Hrun Hd Herr Hinv.
  pose proof (validate_path_abspath _ projectPath Hcwd) as Hv.
  pose proof (validate_path_not_falsy _ Hsc) as Hsne.
  assert (Hlt : (60 <? d)%nat = false) by (apply Nat.ltb_ge; exact Hd).
  destruct s as [a o e q1 q2 [gp|] ps tr]; [|discriminate Hgp].
  cbn [no_godot_path godot_path] in Hgp. cbn [procs] in Hrun.
  unfold GodotMCP.create_scene. rewrite Hp, Hsne. cbn [orb]. cbv zeta.
  rewrite Hv, Hsc. cbn [negb orb].
  unfold GodotMCP.require_project, GodotMCP.execute_operation,
    GodotMCP.ensure_godot_path, os_path_exists, subprocess_run.
  run_monad. crunch3. rewrite ?Hgp. crunch3.
  destruct (lookup_path E _); [|contradiction].
  crunch3. rewrite ?Hgp. crunch3. rewrite Hrun. crunch3. rewrite Hlt. crunch3.
  destruct (rc =? 0)%Z; crunch3; rewrite Herr; crunch3; rewrite Hinv; reflexivity.
Qed.

Lemma create_scene_invalid_node_type_witness :
  fst (GodotMCP.create_scene (complaining_env "ERROR: Invalid node type: Foo")
         "/game" "new.tscn" "Foo" example_state)
  = Raise (PyExn RuntimeError
             "Failed to create scene: Invalid root node type: 'Foo'. Godot stderr: ERROR: Invalid node type: Foo").
Proof.
  assert (Hm : lookup_path (complaining_env "ERROR: Invalid node type: Foo")
                 (PosixPath.join
                    (PosixPath.abspath (cwd (complaining_env "ERROR: Invalid node type: Foo"))
                       "/game") "project.godot") <> None)
    by (vm_compute; discriminate).
  assert (Hd : 1 <= 60) by lia.
  rewrite (create_scene_invalid_node_type
             (complaining_env "ERROR: Invalid node type: Foo")
             "/game" "new.tscn" "Foo" example_state 1 1%Z EmptyString
             "ERROR: Invalid node type: Foo"
             eq_refl eq_refl eq_refl eq_refl Hm (fun _ => eq_refl) Hd eq_refl eq_refl).
  reflexivity.
Defined.

(** ** Project discovery *)

Lemma for_each_invariant {A B} (P : B -> Prop) (body : A -> B -> M B) :
  forall xs,
    (forall x acc s, In x xs -> P acc ->
       match body x acc s with (Return acc', _) => P acc' | _ => True end) ->
    forall acc s, P acc ->
      match for_each xs acc body s with (Return r, _) => P r | _ => True end.
Proof.
  induction xs as [|x xs IH]; intros Hbody acc s Hacc; cbn [for_each].
  - exact Hacc.
  - unfold bind. specialize (Hbody x acc s (or_introl eq_refl) Hacc) as Hx.
    destruct (body x acc s) as [[acc'|e|] s1]; auto.
    apply IH; [|exact Hx]. intros x' a' s' Hin. apply Hbody. now right.
Qed.

Lemma unique_projects_subset : forall projects seen proj,
  In proj (GodotMCP.unique_projects seen projects) -> In proj projects.
Proof.
  induction projects as [|p ps IH]; intros seen proj; cbn [GodotMCP.unique_projects];
    [intros []|].
  destruct (Py.mem (path p) seen).
  - intro H. right. exact (IH _ _ H).
  - intros [H|H]; [now left|right; exact (IH _ _ H)].
Qed.

Lemma mem_In : forall x xs, Py.mem x xs = true -> In x xs.
Proof.
  induction xs as [|y ys IH]; cbn [Py.mem]; [discriminate|].
  destruct (String.eqb_spec x y) as [->|Hne]; cbn [orb]; [now left|].
  intro H. right. exact (IH H).
Qed.

Lemma unique_projects_fresh : forall projects seen proj,
  In proj (GodotMCP.unique_projects seen projects) -> ~ In (path proj) seen.
Proof.
  induction projects as [|p ps IH]; intros seen proj; cbn [GodotMCP.unique_projects];
    [intros []|].
  destruct (Py.mem (path p) seen) eqn:Hm.
  - apply IH.
  - intros [<-|H].
    + intro Hin. apply mem_true in Hin. congruence.
    + intro Hin. apply (IH _ _ H). now right.
Qed.

Lemma unique_projects_nodup : forall projects seen,
  NoDup (map path (GodotMCP.unique_projects seen projects)).
Proof.
  induction projects as [|p ps IH]; intro seen; cbn [GodotMCP.unique_projects];
    [constructor|].
  destruct (Py.mem (path p) seen); [apply IH|].
  cbn [map]. constructor; [|apply IH].
  intro Hin. apply in_map_iff in Hin. destruct Hin as (q & Hq & Hin).
  apply unique_projects_fresh in Hin. apply Hin. left. now symmetry.
Qed.

Lemma Forall_snoc {A} (P : A -> Prop) l x : Forall P l -> P x -> Forall P (l ++ [x])%list.
Proof. intros Hl Hx. apply Forall_app. split; [exact Hl|]. constructor; [exact Hx|constructor]. Qed.

(** X10.  [find_godot_projects] of [godot_mcp.py] lists no path twice,
    and every project it lists is a directory whose marker file it has
    seen: the root of the search, or a directory of the scan.  The
    non-recursive search lists no hidden subdirectory. *)
Lemma mcp_discovery_sound :
  forall (E : env) (directory : string) (recursive : bool) (s s' : state)
         (projects : list project),
    GodotMCP.find_godot_projects E directory recursive s = (Return projects, s') ->
    let abs_directory := PosixPath.abspath (cwd E) directory in
    let seen r := lookup_path E (PosixPath.join r "project.godot") <> None in
    NoDup (map path projects)
    /\ (forall proj, In proj projects ->
          (path proj = abs_directory /\ seen abs_directory)
          \/ (exists r, path proj = PosixPath.abspath (cwd E) r /\ seen r))
    /\ (recursive = false ->
        forall proj, In proj projects ->
          path proj = abs_directory \/ hidden (name proj) = false).
Proof.
  intros E directory recursive s s' projects.
  unfold GodotMCP.find_godot_projects. cbv zeta.
  set (abs := PosixPath.abspath (cwd E) directory).
  set (seen := fun r => lookup_path E (PosixPath.join r "project.godot") <> None).
  set (Q := fun proj : project =>
              ((path proj = abs /\ seen abs)
               \/ (exists r, path proj = PosixPath.abspath (cwd E) r /\ seen r))
              /\ (recursive = false -> path proj = abs \/ hidden (name proj) = false)).
  unfold bind at 1.
  match goal with |- context [try_except ?m ?h s] =>
    assert (Hinv : match try_except m h s with
                   | (Return r, _) => Forall Q r | _ => True end) end.
  { unfold try_except.
    match goal with |- context [let (_, _) := ?m s in _] =>
      assert (Hm : match m s with (Return r, _) => Forall Q r | _ => True end) end.
    { unfold os_path_exists. run_monad.
      set (s1 := add_event _ s).
      match goal with |- context [if ?c then [?p] else []] =>
        assert (P0 : Forall Q (if c then [p] else [])) end.
      { destruct (lookup_path E (PosixPath.join abs "project.godot")) eqn:Hl;
          [|constructor].
        constructor; [|constructor]. split.
        - left. cbn [path]. split; [reflexivity|]. unfold seen. rewrite Hl. discriminate.
        - intros _. now left. }
      destruct recursive.
      - unfold os_walk. run_monad.
        apply (for_each_invariant (Forall Q)); [|exact P0].
        intros [[root dirs] files] acc s0 _ Hacc.
        destruct (negb (String.eqb root abs)); [|exact Hacc].
        cbn [fst snd].
        destruct (lookup_path E (PosixPath.join root "project.godot")) eqn:Hl;
          [|exact Hacc].
        apply Forall_snoc; [exact Hacc|]. split.
        + right. exists root. cbn [path]. split; [reflexivity|].
          unfold seen. rewrite Hl. discriminate.
        + discriminate.
      - unfold os_listdir. run_monad.
        destruct (lookup_path E abs) as [[|es]|]; cbn [fst snd]; try exact I.
        apply (for_each_invariant (Forall Q)); [|exact P0].
        intros entry_name acc s0 _ Hacc. unfold os_path_isdir. run_monad.
        match goal with |- context [if ?c then _ else _] => destruct c end;
          [|exact Hacc].
        destruct (hidden entry_name) eqn:Hh; [exact Hacc|].
        cbn [fst snd].
        destruct (lookup_path E (PosixPath.join (PosixPath.join abs entry_name)
                                   "project.godot")) eqn:Hl; [|exact Hacc].
        apply Forall_snoc; [exact Hacc|]. split.
        + right. exists (PosixPath.join abs entry_name). cbn [path].
          split; [reflexivity|]. unfold seen. rewrite Hl. discriminate.
        + intros _. right. exact Hh. }
    match goal with |- context [let (_, _) := ?m s in _] =>
      destruct (m s) as [[r|e|] s1] end; try exact Hm; try exact I.
    destruct (is_FileNotFoundError e); [exact I|].
    destruct (is_PermissionError e); exact I. }
  match goal with |- context [try_except ?m ?h s] =>
    destruct (try_except m h s) as [[r|e|] s1] end; try discriminate.
  cbv [ret]. intro H. inversion H; subst. clear H.
  rewrite Forall_forall in Hinv.
  split; [apply unique_projects_nodup|]. split.
  - intros proj Hin. apply unique_projects_subset in Hin. apply (Hinv proj Hin).
  - intros Hr proj Hin. apply unique_projects_subset in Hin.
    destruct (Hinv proj Hin) as [_ H2]. exact (H2 Hr).
Qed.

Lemma mcp_discovery_sound_witness :
  fst (GodotMCP.find_godot_projects example_env "/root" false example_state)
  = Return [mkProject "/root" "root"; mkProject "/root/sub" "sub"]
  /\ NoDup (map path [mkProject "/root" "root"; mkProject "/root/sub" "sub"]).
Proof.
  assert (H : GodotMCP.find_godot_projects example_env "/root" false example_state
              = (Return [mkProject "/root" "root"; mkProject "/root/sub" "sub"],
                 snd (GodotMCP.find_godot_projects example_env "/root" false
                        example_state)))
    by (vm_compute; reflexivity).
  split; [rewrite H; reflexivity|].
  exact (proj1 (mcp_discovery_sound example_env "/root" false example_state _ _ H)).
Defined.

Lemma for_each_returns {A B} (P : B -> Prop) (body : A -> B -> M B) :
  forall xs,
    (forall x acc s, In x xs -> P acc ->
       exists acc' s', body x acc s = (Return acc', s') /\ P acc') ->
    forall acc s, P acc ->
      exists r s', for_each xs acc body s = (Return r, s') /\ P r.
Proof.
  induction xs as [|x xs IH]; intros Hbody acc s Hacc; cbn [for_each].
  - exists acc, s. split; [reflexivity|exact Hacc].
  - unfold bind.
    destruct (Hbody x acc s (or_introl eq_refl) Hacc) as (acc' & s1 & Hx & Hacc').
    rewrite Hx. apply IH; [|exact Hacc'].
    intros x' a' s' Hin. apply Hbody. now right.
Qed.

(** X11.  [find_godot_projects] of [save_godot.py] always returns a
    list: an error of the scan is swallowed.  Every project it lists holds
    the marker file, and the non-recursive search lists no hidden
    subdirectory. *)
Lemma server_discovery_sound :
  forall (E : env) (directory : string) (recursive : bool) (s : state),
    exists projects s',
      GodotServer.find_godot_projects E directory recursive s = (Return projects, s')
      /\ (forall proj, In proj projects ->
            lookup_path E (PosixPath.join (path proj) "project.godot") <> None)
      /\ (recursive = false ->
          forall proj, In proj projects ->
            path proj = directory \/ hidden (name proj) = false).
Proof.
  intros E directory recursive s.
  set (Q := fun proj : project =>
              lookup_path E (PosixPath.join (path proj) "project.godot") <> None
              /\ (recursive = false -> path proj = directory \/ hidden (name proj) = false)).
  assert (H : exists projects s',
             GodotServer.find_godot_projects E directory recursive s = (Return projects, s')
             /\ Forall Q projects).
  { unfold GodotServer.find_godot_projects, os_path_exists. run_monad.
    set (s1 := add_event _ s).
    match goal with |- context [if ?c then [?p] else []] =>
      assert (P0 : Forall Q (if c then [p] else []));
      [|set (projects0 := if c then [p] else []) in *] end.
    { destruct (lookup_path E (PosixPath.join directory "project.godot")) eqn:Hl;
        [|constructor].
      constructor; [|constructor]. split.
      - cbn [path]. rewrite Hl. discriminate.
      - intros _. now left. }
    destruct recursive; cbn [negb].
    - unfold os_walk. run_monad.
      match goal with |- context [for_each ?xs ?a0 ?body ?st0] =>
        destruct (for_each_returns (Forall Q) body xs) with (acc := a0) (s := st0)
          as (r & s2 & Hr & HQ) end; [|exact P0|].
      + intros [[root dirs] files] acc s0 _ Hacc. cbn [fst snd].
        destruct (lookup_path E (PosixPath.join root "project.godot")) eqn:Hl.
        * eexists _, _. split; [reflexivity|].
          apply Forall_snoc; [exact Hacc|]. split.
          -- cbn [path]. rewrite Hl. discriminate.
          -- discriminate.
        * eexists _, _. split; [reflexivity|exact Hacc].
      + rewrite Hr. exists r, s2. split; [reflexivity|exact HQ].
    - unfold os_listdir. run_monad.
      destruct (lookup_path E directory) as [[|es]|]; cbn [fst snd];
        try (eexists _, _; split; [reflexivity|exact P0]).
      match goal with |- context [for_each ?xs ?a0 ?body ?st0] =>
        destruct (for_each_returns (Forall Q) body xs) with (acc := a0) (s := st0)
          as (r & s2 & Hr & HQ) end; [|exact P0|].
      + intros entry_name acc s0 _ Hacc. unfold os_path_isdir. run_monad.
        match goal with |- context [if ?c then _ else _] => destruct c end;
          [|eexists _, _; split; [reflexivity|exact Hacc]].
        destruct (hidden entry_name) eqn:Hh;
          [eexists _, _; split; [reflexivity|exact Hacc]|].
        cbn [fst snd].
        destruct (lookup_path E (PosixPath.join (PosixPath.join directory entry_name)
                                   "project.godot")) eqn:Hl.
        * eexists _, _. split; [reflexivity|].
          apply Forall_snoc; [exact Hacc|]. split.
          -- cbn [path]. rewrite Hl. discriminate.
          -- intros _. right. exact Hh.
        * eexists _, _. split; [reflexivity|exact Hacc].
      + rewrite Hr. exists r, s2. split; [reflexivity|exact HQ]. }
  destruct H as (projects & s' & Hf & HQ). exists projects, s'.
  rewrite Forall_forall in HQ.
  split; [exact Hf|]. split.
  - intros proj Hin. apply (HQ proj Hin).
  - intros Hr proj Hin. destruct (HQ proj Hin) as [_ H2]. exact (H2 Hr).
Qed.

(** X12.  The recursive search of [save_godot.py] checks the root before
    the walk and again as the first directory of the walk: a root that
    holds the marker file is listed twice. *)
Lemma server_recursive_lists_root_twice :
  forall (E : env) (directory : string) (es : list (string * node)) (s : state),
    lookup_path E directory = Some (Dir es) ->
    lookup_path E (PosixPath.join directory "project.godot") <> None ->
    let root := mkProject directory (PosixPath.basename directory) in
    exists rest s',
      GodotServer.find_godot_projects E directory true s
      = (Return (root :: root :: rest), s').
Proof.
  intros E directory es s Hdir Hm root.
  unfold GodotServer.find_godot_projects, os_path_exists, os_walk. run_monad.
  destruct (lookup_path E (PosixPath.join directory "project.godot")) eqn:Hl;
    [|contradiction].
  cbn [negb fst snd]. rewrite Hdir. cbn [walk_node for_each]. unfold bind at 1.
  cbn [fst snd]. rewrite Hl. cbn [fst snd app]. fold root.
  match goal with |- context [for_each ?xs ?a0 ?body ?st0] =>
    destruct (for_each_appends body xs) with (acc := a0) (s := st0)
      as (l & s2 & Hr) end.
  - intros [[r0 d0] f0] _ acc s0. cbn [fst snd].
    destruct (lookup_path E (PosixPath.join r0 "project.godot")).
    + eexists _, _. reflexivity.
    + eexists [], _. rewrite app_nil_r. reflexivity.
  - rewrite Hr. exists l, s2. reflexivity.
Qed.

Lemma server_recursive_lists_root_twice_witness :
  exists rest s',
    GodotServer.find_godot_projects example_env "/root" true example_state
    = (Return (mkProject "/root" "root" :: mkProject "/root" "root" :: rest), s').
Proof.
  assert (Hm : lookup_path example_env (PosixPath.join "/root" "project.godot") <> None)
    by (vm_compute; discriminate).
  exact (server_recursive_lists_root_twice example_env "/root"
           [("project.godot", File); ("main.tscn", File);
            ("sub", Dir [("project.godot", File)])]
           example_state eq_refl Hm).
Defined.

(** ** The version test *)

Lemma digits_value_pos : forall d a,
  Py.digits_value (Z.pos a) true (NilEmpty.string_of_uint d)
  = Some (Z.pos (Pos.of_uint_acc d a)).
Proof.
  induction d; intro a; cbn [NilEmpty.string_of_uint Py.digits_value Pos.of_uint_acc];
    try reflexivity;
    match goal with
    | |- context [Py.is_digit ?c] =>
        change (Py.is_digit c) with true; cbv iota;
        match goal with
        | |- Py.digits_value ?v true _ = Some (Z.pos (Pos.of_uint_acc _ ?b)) =>
            replace v with (Z.pos b)
              by (match goal with
                  | |- context [Py.digit_val ?c] =>
                      let w := eval vm_compute in (Py.digit_val c) in
                      change (Py.digit_val c) with w
                  end; lia)
        end; apply IHd
    end.
Qed.

Lemma digits_value_zero : forall d,
  Py.digits_value 0 true (NilEmpty.string_of_uint d) = Some (Z.of_N (Pos.of_uint d)).
Proof.
  induction d; cbn [NilEmpty.string_of_uint Py.digits_value Pos.of_uint];
    try reflexivity;
    match goal with
    | |- context [Py.is_digit ?c] => change (Py.is_digit c) with true; cbv iota
    end;
    [exact IHd | ..];
    match goal with
    | |- Py.digits_value ?v true _ = Some (Z.of_N (N.pos (Pos.of_uint_acc _ ?b))) =>
        change v with (Z.pos b); apply digits_value_pos
    end.
Qed.

Lemma digits_value_numeral : forall d,
  Py.digits_value 0 false (NilZero.string_of_uint d) = Some (Z.of_uint d).
Proof.
  intro d. unfold Z.of_uint.
  destruct d; try reflexivity;
    cbn [NilZero.string_of_uint NilEmpty.string_of_uint Py.digits_value Pos.of_uint];
    match goal with
    | |- context [Py.is_digit ?c] => change (Py.is_digit c) with true; cbv iota
    end;
    [apply digits_value_zero | ..];
    match goal with
    | |- Py.digits_value ?v true _ = Some (Z.of_N (N.pos (Pos.of_uint_acc _ ?b))) =>
        change v with (Z.pos b); apply digits_value_pos
    end.
Qed.

Lemma lstrip_numeral : forall d,
  Py.lstrip (NilEmpty.string_of_uint d) = NilEmpty.string_of_uint d.
Proof. destruct d; reflexivity. Qed.

Lemma rstrip_numeral : forall d,
  Py.rstrip (NilEmpty.string_of_uint d) = NilEmpty.string_of_uint d.
Proof.
  induction d; cbn [NilEmpty.string_of_uint Py.rstrip]; try reflexivity;
    rewrite IHd; destruct (NilEmpty.string_of_uint d); reflexivity.
Qed.

Lemma strip_numeral : forall d,
  Py.strip (NilZero.string_of_uint d) = NilZero.string_of_uint d.
Proof.
  intro d. unfold Py.strip.
  destruct d; try reflexivity;
    cbn [NilZero.string_of_uint]; rewrite lstrip_numeral; apply rstrip_numeral.
Qed.

Lemma numeral_unsigned : forall d,
  match NilZero.string_of_uint d with
  | String "-"%char _ | String "+"%char _ => False
  | _ => True
  end.
Proof. destruct d; exact I. Qed.

(** [int(str(n))] is [n] for a natural number [n]. *)
Lemma int_of_str : forall n : N, Py.int (str_of_Z (Z.of_N n)) = Some (Z.of_N n).
Proof.
  intro n. unfold Py.int, str_of_Z.
  assert (H : exists d, Z.to_int (Z.of_N n) = Decimal.Pos d).
  { destruct n; cbn; eexists; reflexivity. }
  destruct H as [d Hd]. pose proof (DecimalZ.of_to (Z.of_N n)) as Hz.
  rewrite Hd in *. cbn [NilZero.string_of_int Z.of_int] in *.
  rewrite strip_numeral. pose proof (numeral_unsigned d) as Hu.
  pose proof (digits_value_numeral d) as Hv. rewrite Hz in Hv.
  destruct (NilZero.string_of_uint d) as [|c r]; [exact Hv|].
  destruct (Ascii.eqb_spec c "-"%char) as [->|H1]; [contradiction|].
  destruct (Ascii.eqb_spec c "+"%char) as [->|H2]; [contradiction|].
  destruct c as [[] [] [] [] [] [] [] []]; try exact Hv; congruence.
Qed.

Lemma split_numeral : forall d t,
  Py.split "."%char (NilEmpty.string_of_uint d ++ t)
  = (NilEmpty.string_of_uint d ++ hd EmptyString (Py.split "."%char t))
      :: tl (Py.split "."%char t).
Proof.
  induction d; intro t; cbn [NilEmpty.string_of_uint String.append];
    [pose proof (split_nonempty "."%char t);
     destruct (Py.split "."%char t); [contradiction|reflexivity] | ..];
    cbn [Py.split]; rewrite IHd; reflexivity.
Qed.

Lemma split_str : forall (n : N) t,
  Py.split "."%char (str_of_Z (Z.of_N n) ++ t)
  = (str_of_Z (Z.of_N n) ++ hd EmptyString (Py.split "."%char t))
      :: tl (Py.split "."%char t).
Proof.
  intros n t. unfold str_of_Z.
  assert (H : exists d, Z.to_int (Z.of_N n) = Decimal.Pos d).
  { destruct n; cbn; eexists; reflexivity. }
  destruct H as [d ->]. cbn [NilZero.string_of_int].
  destruct d; try apply split_numeral.
  cbn [NilZero.string_of_uint String.append Py.split].
  change (Ascii.eqb "0" ".") with false. cbv iota.
  pose proof (split_nonempty "."%char t).
  destruct (Py.split "."%char t); [contradiction|reflexivity].
Qed.

Lemma string_app_nil_r : forall s : string, s ++ EmptyString = s.
Proof. induction s as [|c s IH]; cbn; [reflexivity|now rewrite IH]. Qed.

(** X13.  On a version that starts with two decimal numbers separated by
    a dot, whatever follows a further dot, [is_godot_44_or_later] answers
    whether the first is above 4, or is 4 with the second at least 4. *)
Theorem version_gate_decides :
  forall (major minor : N) (suffix : option string),
    is_godot_44_or_later
      (str_of_Z (Z.of_N major) ++ "." ++ str_of_Z (Z.of_N minor)
         ++ match suffix with Some r => "." ++ r | None => EmptyString end)
    = ((4 <? major)%N || ((major =? 4)%N && (4 <=? minor)%N)).
Proof.
  intros major minor suffix. unfold is_godot_44_or_later. cbv zeta.
  rewrite split_str.
  change (Py.split "."%char ("." ++ ?x)) with (EmptyString :: Py.split "."%char x).
  cbn [hd tl]. rewrite string_app_nil_r, split_str.
  assert (Hparts : exists rest,
             (str_of_Z (Z.of_N minor)
                ++ hd EmptyString
                     (Py.split "."%char
                        match suffix with Some r => "." ++ r | None => EmptyString end))
             = str_of_Z (Z.of_N minor)
             /\ tl (Py.split "."%char
                      match suffix with Some r => "." ++ r | None => EmptyString end)
                = rest).
  { destruct suffix as [r|]; cbn [Py.split String.append hd tl];
      [change (Ascii.eqb "." ".") with true; cbv iota; cbn [hd tl]|];
      eexists; (split; [apply string_app_nil_r|reflexivity]). }
  destruct Hparts as (rest & -> & ->).
  cbn [List.length Nat.leb nth]. rewrite !int_of_str.
  rewrite Z.gtb_ltb, Z.geb_leb.
  destruct (Z.ltb_spec 4 (Z.of_N major)), (N.ltb_spec 4 major),
    (Z.eqb_spec (Z.of_N major) 4), (N.eqb_spec major 4),
    (Z.leb_spec 4 (Z.of_N minor)), (N.leb_spec 4 minor); try reflexivity; lia.
Qed.

Lemma split_without_sep : forall v,
  Py.contains v "." = false -> Py.split "."%char v = [v].
Proof.
  induction v as [|c v IH]; [reflexivity|].
  cbn [Py.contains Py.split]. intro H. apply orb_false_iff in H. destruct H as [H1 H2].
  destruct (Ascii.eqb_spec c "."%char) as [->|Hc].
  - cbn in H1. destruct v; discriminate H1.
  - rewrite (IH H2). reflexivity.
Qed.

(** X14.  A version string without a dot is taken to be below 4.4. *)
Lemma version_without_dot : forall v,
  Py.contains v "." = false -> is_godot_44_or_later v = false.
Proof.
  intros v H. unfold is_godot_44_or_later. now rewrite (split_without_sep v H).
Qed.

Lemma version_without_dot_witness : is_godot_44_or_later "unknown" = false.
Proof. exact (version_without_dot "unknown" eq_refl). Defined.

(** ** Parameter names: normalising and converting *)

Lemma camel_chars_no_upper : forall k, no_upper k = true -> camel_chars k = k.
Proof.
  induction k as [|c k IH]; [reflexivity|]. cbn [no_upper camel_chars].
  intro H. apply andb_true_iff in H. destruct H as [Hc Hk].
  apply negb_true_iff in Hc. rewrite Hc, (IH Hk). reflexivity.
Qed.

Lemma generic_snake_fixed : forall k, snake_name k = true -> generic_snake k = k.
Proof.
  intros k H. unfold snake_name in H. apply andb_true_iff in H. destruct H as [Hu Hs].
  apply andb_true_iff in Hu. destruct Hu as [_ Hu].
  unfold generic_snake. rewrite (camel_chars_no_upper k Hu).
  destruct k as [|c k]; [reflexivity|].
  cbn [lstrip_underscore]. apply negb_true_iff in Hs.
  destruct (Ascii.eqb_spec c "_"%char) as [->|Hc];
    [cbn in Hs; destruct k; discriminate Hs|].
  destruct c as [[] [] [] [] [] [] [] []]; try reflexivity. congruence.
Qed.

Lemma snake_key_normalized : forall k,
  snake_name k = true -> snake_key (normalized_key k) = k.
Proof.
  intros k Hk. unfold normalized_key, parameter_mappings. cbn [dict_get].
  repeat match goal with
         | |- context [String.eqb ?a k] =>
             destruct (String.eqb_spec a k) as [<-|?]; [reflexivity|]
         end.
  unfold snake_key, reverse_parameter_mappings. cbn [dict_get].
  repeat match goal with
         | |- context [String.eqb ?a k] =>
             destruct (String.eqb_spec a k) as [<-|?];
             [try discriminate Hk; try congruence|]
         end.
  apply generic_snake_fixed, Hk.
Qed.

Lemma dict_set_fresh {A} : forall (d : list (string * A)) k v,
  ~ In k (map fst d) -> dict_set k v d = (d ++ [(k, v)])%list.
Proof.
  induction d as [|[k' v'] d IH]; intros k v Hk; [reflexivity|].
  cbn [dict_set map fst In] in *.
  destruct (String.eqb_spec k' k) as [->|Hne]; [exfalso; apply Hk; now left|].
  rewrite IH by (intro H; apply Hk; now right). reflexivity.
Qed.

Lemma distinct_NoDup : forall ks, distinct ks = true -> NoDup ks.
Proof.
  induction ks as [|k ks IH]; cbn [distinct]; [constructor|].
  intro H. apply andb_true_iff in H. destruct H as [Hm Hd].
  constructor; [|exact (IH Hd)].
  intro Hin. apply mem_true in Hin. rewrite Hin in Hm. discriminate Hm.
Qed.

(** The loop [for key, value in params.items(): result[f(key)] = g(value)]
    when no two keys are sent to the same name. *)
Lemma items_map (f : string -> string) (g : pvalue -> pvalue) :
  forall d result,
    NoDup (map f (map fst d)) ->
    (forall k, In k (map fst d) -> ~ In (f k) (map fst result)) ->
    (fix items (d : list (string * pvalue)) (result : list (string * pvalue)) :=
       match d with
       | [] => result
       | (key, value) :: d' => items d' (dict_set (f key) (g value) result)
       end) d result
    = (result ++ map (fun kv => (f (fst kv), g (snd kv))) d)%list.
Proof.
  induction d as [|[k v] d IH]; intros result Hnd Hfresh.
  - now rewrite app_nil_r.
  - cbn [map fst snd] in *. inversion Hnd as [|? ? Hk Hnd']; subst.
    rewrite dict_set_fresh by (apply Hfresh; now left).
    rewrite IH.
    + rewrite <- app_assoc. reflexivity.
    + exact Hnd'.
    + intros k' Hin. rewrite map_app, in_app_iff. cbn [map fst In].
      intros [H|[H|[]]].
      * apply (Hfresh k'); [now right|exact H].
      * apply Hk. rewrite H. apply in_map. exact Hin.
Qed.

Lemma server_convert_dict : forall d,
  GodotServer.convert_camel_to_snake_case (PDict d)
  = PDict
      ((fix items (d : list (string * pvalue)) (result : list (string * pvalue)) :=
          match d with
          | [] => result
          | (key, value) :: d' =>
              items d'
                (dict_set (snake_key key)
                   ((fun value => match value with
                                  | PDict _ => GodotServer.convert_camel_to_snake_case value
                                  | _ => value
                                  end) value) result)
          end) d []).
Proof. reflexivity. Qed.

Lemma normalize_dict : forall d,
  normalize_parameters (PDict d)
  = PDict
      ((fix items (d : list (string * pvalue)) (result : list (string * pvalue)) :=
          match d with
          | [] => result
          | (key, value) :: d' =>
              items d'
                (dict_set (normalized_key key)
                   ((fun value => match value with
                                  | PDict _ => normalize_parameters value
                                  | _ => value
                                  end) value) result)
          end) d []).
Proof. reflexivity. Qed.

Lemma pvalue_nested_ind (P : pvalue -> Prop) :
  (forall s, P (PStr s)) ->
  (forall l, Forall P l -> P (PList l)) ->
  (forall d, Forall (fun kv => P (snd kv)) d -> P (PDict d)) ->
  forall v, P v.
Proof.
  intros Hs Hl Hd.
  fix IH 1. intros [s|l|d].
  - apply Hs.
  - apply Hl. induction l as [|x l IHl]; constructor; [apply IH|exact IHl].
  - apply Hd. induction d as [|[k x] d IHd]; constructor; [apply IH|exact IHd].
Qed.

Lemma snake_keys_inv : forall d,
  snake_keys (PDict d) = true ->
  distinct (map fst d) = true
  /\ Forall (fun kv => snake_name (fst kv) = true
                       /\ match snd kv with PDict _ => snake_keys (snd kv) = true
                          | _ => True end) d.
Proof.
  intros d H. cbn [snake_keys] in H. apply andb_true_iff in H. destruct H as [Hd Ha].
  split; [exact Hd|]. clear Hd.
  induction d as [|[k v] d IH]; [constructor|].
  apply andb_true_iff in Ha. destruct Ha as [Ha Hr].
  apply andb_true_iff in Ha. destruct Ha as [Hk Hv].
  constructor; [|exact (IH Hr)]. cbn [fst snd]. split; [exact Hk|].
  destruct v; try exact I. exact Hv.
Qed.

Lemma NoDup_map_on {A B} (f : A -> B) (g : B -> A) : forall l,
  (forall x, In x l -> g (f x) = x) -> NoDup l -> NoDup (map f l).
Proof.
  induction l as [|x l IH]; intros Hg Hnd; [constructor|].
  inversion Hnd as [|? ? Hx Hnd']; subst. cbn [map]. constructor.
  - intro Hin. apply in_map_iff in Hin. destruct Hin as (y & Hy & Hin).
    apply Hx. rewrite <- (Hg x (or_introl eq_refl)), <- Hy, (Hg y (or_intror Hin)).
    exact Hin.
  - apply IH; [|exact Hnd']. intros y Hy. apply Hg. now right.
Qed.

(** X15.  In [save_godot.py], [normalize_parameters] followed by
    [convert_camel_to_snake_case] gives back a dictionary whose keys,
    those of the dictionaries nested in it included, are distinct ASCII
    names in snake_case. *)
Theorem normalize_then_convert :
  forall (d : list (string * pvalue)),
    snake_keys (PDict d) = true ->
    GodotServer.convert_camel_to_snake_case (normalize_parameters (PDict d)) = PDict d.
Proof.
  intro d.
  change (forall H : snake_keys (PDict d) = true,
             (fun v => GodotServer.convert_camel_to_snake_case (normalize_parameters v) = v)
               (PDict d)).
  generalize (PDict d). clear d.
  intro v. induction v as [s|l _|d IH] using pvalue_nested_ind; intro H; try reflexivity.
  destruct (snake_keys_inv d H) as [Hd Hall].
  apply distinct_NoDup in Hd.
  assert (Hkeys : forall k, In k (map fst d) -> snake_key (normalized_key k) = k).
  { intros k Hin. apply in_map_iff in Hin. destruct Hin as (kv & <- & Hin).
    rewrite Forall_forall in Hall. apply snake_key_normalized, (Hall kv Hin). }
  rewrite normalize_dict.
  rewrite (items_map normalized_key
             (fun value => match value with
                           | PDict _ => normalize_parameters value
                           | _ => value
                           end)); cbn [app map].
  2:{ apply (NoDup_map_on normalized_key snake_key); assumption. }
  2:{ intros k _ []. }
  rewrite server_convert_dict.
  rewrite (items_map snake_key
             (fun value => match value with
                           | PDict _ => GodotServer.convert_camel_to_snake_case value
                           | _ => value
                           end)); cbn [app].
  2:{ rewrite !map_map. cbn [fst].
      rewrite <- (map_map fst (fun k => snake_key (normalized_key k))).
      rewrite (map_ext_in _ (fun k => k) _ Hkeys), map_id. exact Hd. }
  2:{ intros k _ []. }
  f_equal. rewrite map_map. cbn [fst snd].
  rewrite <- (map_id d) at 2. apply map_ext_in.
  intros [k x] Hin. cbn [fst snd].
  rewrite (Hkeys k) by (apply in_map_iff; exists (k, x); split; [reflexivity|exact Hin]).
  f_equal.
  rewrite Forall_forall in IH, Hall.
  specialize (IH (k, x) Hin). specialize (Hall (k, x) Hin). cbn [fst snd] in IH, Hall.
  destruct x as [s|l|d']; try reflexivity.
  destruct Hall as [_ Hx].
  rewrite normalize_dict, <- normalize_dict. exact (IH Hx).
Qed.

Lemma normalize_then_convert_witness :
  GodotServer.convert_camel_to_snake_case
    (normalize_parameters
       (PDict [("project_path", PStr "/game"); ("scene_path", PStr "main.tscn");
               ("properties", PDict [("node_name", PStr "Player")])]))
  = PDict [("project_path", PStr "/game"); ("scene_path", PStr "main.tscn");
           ("properties", PDict [("node_name", PStr "Player")])].
Proof.
  exact (normalize_then_convert
           [("project_path", PStr "/game"); ("scene_path", PStr "main.tscn");
            ("properties", PDict [("node_name", PStr "Player")])] eq_refl).
Defined.

Lemma camel_chars_snake : forall k,
  ascii_only k = true ->
  ascii_only (camel_chars k) = true /\ no_upper (camel_chars k) = true.
Proof.
  induction k as [|c k IH]; [split; reflexivity|].
  cbn [ascii_only camel_chars]. intro H. apply andb_true_iff in H.
  destruct H as [Hc Hk]. destruct (IH Hk) as [IH1 IH2].
  destruct (is_upper c) eqn:Hu.
  - cbn [ascii_only no_upper]. rewrite IH1, IH2.
    split.
    + clear - Hu. destruct c as [[] [] [] [] [] [] [] []]; try discriminate Hu; reflexivity.
    + clear - Hu. destruct c as [[] [] [] [] [] [] [] []]; try discriminate Hu; reflexivity.
  - cbn [ascii_only no_upper]. rewrite Hc, Hu, IH1, IH2. split; reflexivity.
Qed.

Lemma lstrip_underscore_snake : forall s,
  ascii_only s = true -> no_upper s = true ->
  snake_name (lstrip_underscore s) = true.
Proof.
  induction s as [|c s IH]; [reflexivity|].
  intros Ha Hu. cbn [lstrip_underscore].
  destruct (Ascii.eqb_spec c "_"%char) as [->|Hc].
  - cbn [ascii_only no_upper] in Ha, Hu.
    apply andb_true_iff in Ha. apply andb_true_iff in Hu. apply IH; tauto.
  - assert (Hs : Py.startswith (String c s) "_" = false).
    { unfold Py.startswith. cbn [String.prefix].
      destruct (ascii_dec "_"%char c) as [e|]; [congruence|reflexivity]. }
    replace (match c with
             | "_"%char => lstrip_underscore s
             | _ => String c s
             end) with (String c s)
      by (destruct c as [[] [] [] [] [] [] [] []]; try reflexivity; congruence).
    unfold snake_name. now rewrite Ha, Hu, Hs.
Qed.

Lemma snake_key_snake : forall k, ascii_only k = true -> snake_name (snake_key k) = true.
Proof.
  intros k Hk. unfold snake_key, reverse_parameter_mappings. cbn [dict_get].
  repeat match goal with
         | |- context [String.eqb ?a k] =>
             destruct (String.eqb_spec a k) as [<-|?]; [reflexivity|]
         end.
  unfold generic_snake. destruct (camel_chars_snake k Hk).
  now apply lstrip_underscore_snake.
Qed.

Lemma snake_key_fixed : forall k, snake_name k = true -> snake_key k = k.
Proof.
  intros k Hk. unfold snake_key, reverse_parameter_mappings. cbn [dict_get].
  repeat match goal with
         | |- context [String.eqb ?a k] =>
             destruct (String.eqb_spec a k) as [<-|?];
             [try reflexivity; try discriminate Hk|]
         end.
  apply generic_snake_fixed, Hk.
Qed.

Lemma ascii_keys_list : forall l,
  ascii_keys (PList l) = true -> Forall (fun x => ascii_keys x = true) l.
Proof.
  induction l as [|x l IH]; intro H; [constructor|].
  cbn [ascii_keys] in H. apply andb_true_iff in H. destruct H as [Hx Hl].
  constructor; [exact Hx|exact (IH Hl)].
Qed.

Lemma ascii_keys_dict : forall d,
  ascii_keys (PDict d) = true ->
  Forall (fun kv => ascii_only (fst kv) = true /\ ascii_keys (snd kv) = true) d.
Proof.
  induction d as [|[k x] d IH]; intro H; [constructor|].
  cbn [ascii_keys] in H. apply andb_true_iff in H. destruct H as [H Hd].
  apply andb_true_iff in H. destruct H as [Hk Hx].
  constructor; [split; assumption|exact (IH Hd)].
Qed.

Lemma dict_set_keys_nodup {A} : forall (d : list (string * A)) k v,
  NoDup (map fst d) -> NoDup (map fst (dict_set k v d)).
Proof.
  intros d k v Hnd.
  assert (H : map fst (dict_set k v d) = map fst d
              \/ (~ In k (map fst d) /\ map fst (dict_set k v d) = (map fst d ++ [k])%list)).
  { clear Hnd. induction d as [|[k' v'] d IH]; [right; split; [intros []|reflexivity]|].
    cbn [dict_set]. destruct (String.eqb_spec k' k) as [->|Hne]; [left; reflexivity|].
    cbn [map fst]. destruct IH as [IH|[Hk IH]].
    - left. now rewrite IH.
    - right. split; [|now rewrite IH]. intros [H|H]; [congruence|contradiction]. }
  destruct H as [->|[Hk ->]]; [exact Hnd|].
  apply NoDup_app; [exact Hnd|constructor; [intros []|constructor]|].
  intros x Hx [<-|[]]. contradiction.
Qed.

Lemma dict_set_forall {A} (Q : string * A -> Prop) : forall d k v,
  Forall Q d -> Q (k, v) -> Forall Q (dict_set k v d).
Proof.
  induction d as [|[k' v'] d IH]; intros k v Hd Hq; cbn [dict_set].
  - constructor; [exact Hq|constructor].
  - inversion Hd; subst. destruct (String.eqb_spec k' k) as [->|Hne].
    + constructor; assumption.
    + constructor; [assumption|now apply IH].
Qed.

(** The loop of [convert_camel_to_snake_case] leaves distinct keys, each
    the image of a key of the argument with the image of a value of
    the argument. *)
Lemma items_spec (f : string -> string) (g : pvalue -> pvalue)
      (Q : string * pvalue -> Prop) :
  forall d result,
    NoDup (map fst result) -> Forall Q result ->
    (forall kv, In kv d -> Q (f (fst kv), g (snd kv))) ->
    let r :=
      (fix items (d : list (string * pvalue)) (result : list (string * pvalue)) :=
         match d with
         | [] => result
         | (key, value) :: d' => items d' (dict_set (f key) (g value) result)
         end) d result in
    NoDup (map fst r) /\ Forall Q r.
Proof.
  induction d as [|[k v] d IH]; intros result Hnd Hq Hd; cbv zeta.
  - split; assumption.
  - apply IH.
    + now apply dict_set_keys_nodup.
    + apply dict_set_forall; [exact Hq|]. apply (Hd (k, v)). now left.
    + intros kv Hin. apply Hd. now right.
Qed.

Lemma mcp_convert_dict : forall d,
  GodotMCP.convert_camel_to_snake_case (PDict d)
  = PDict
      ((fix items (d : list (string * pvalue)) (result : list (string * pvalue)) :=
          match d with
          | [] => result
          | (key, value) :: d' =>
              items d' (dict_set (snake_key key) (mcp_convert_value value) result)
          end) d []).
Proof. reflexivity. Qed.

Lemma mcp_convert_keys : forall d,
  Forall (fun kv => ascii_only (fst kv) = true) d ->
  exists d',
    GodotMCP.convert_camel_to_snake_case (PDict d) = PDict d'
    /\ NoDup (map fst d')
    /\ Forall (fun kv => snake_name (fst kv) = true
                         /\ exists v, In v (map snd d) /\ snd kv = mcp_convert_value v) d'.
Proof.
  intros d Hd. rewrite mcp_convert_dict. eexists. split; [reflexivity|].
  apply (items_spec snake_key mcp_convert_value
           (fun kv => snake_name (fst kv) = true
                      /\ exists v, In v (map snd d) /\ snd kv = mcp_convert_value v)).
  - constructor.
  - constructor.
  - intros kv Hin. cbn [fst snd]. rewrite Forall_forall in Hd. split.
    + apply snake_key_snake, (Hd kv Hin).
    + exists (snd kv). split; [now apply in_map|reflexivity].
Qed.

Lemma mcp_convert_value_idem : forall v,
  ascii_keys v = true -> mcp_convert_value (mcp_convert_value v) = mcp_convert_value v.
Proof.
  induction v as [s|l IH|d IH] using pvalue_nested_ind; intro H; [reflexivity| |].
  - cbn [mcp_convert_value]. f_equal. rewrite map_map. apply map_ext_in.
    intros x Hin. rewrite Forall_forall in IH. specialize (IH x Hin).
    pose proof (ascii_keys_list l H) as Hl. rewrite Forall_forall in Hl.
    specialize (IH (Hl x Hin)).
    destruct x as [s|l'|d']; try reflexivity.
    rewrite mcp_convert_dict, <- mcp_convert_dict. exact IH.
  - pose proof (ascii_keys_dict d H) as Hd.
    destruct (mcp_convert_keys d) as (d1 & Hc & Hnd & Hq).
    { eapply Forall_impl; [|exact Hd]. intros kv [Hk _]. exact Hk. }
    change (mcp_convert_value (PDict d)) with (GodotMCP.convert_camel_to_snake_case (PDict d)).
    rewrite Hc.
    change (mcp_convert_value (PDict d1)) with (GodotMCP.convert_camel_to_snake_case (PDict d1)).
    rewrite mcp_convert_dict.
    rewrite Forall_forall in Hq.
    assert (Hkeys : forall k, In k (map fst d1) -> snake_key k = k).
    { intros k Hin. apply in_map_iff in Hin. destruct Hin as (kv & <- & Hin).
      apply snake_key_fixed, (Hq kv Hin). }
    rewrite (items_map snake_key mcp_convert_value); cbn [app].
    2:{ rewrite (map_ext_in _ (fun k => k) _ Hkeys), map_id. exact Hnd. }
    2:{ intros k _ []. }
    f_equal. rewrite <- (map_id d1) at 2. apply map_ext_in.
    intros [k x] Hin. cbn [fst snd].
    rewrite (Hkeys k) by (apply in_map_iff; exists (k, x); split; [reflexivity|exact Hin]).
    f_equal. destruct (Hq (k, x) Hin) as [_ (v & Hv & Hx)]. cbn [snd] in Hx. subst x.
    apply in_map_iff in Hv. destruct Hv as (kv & <- & Hkv).
    rewrite Forall_forall in IH, Hd. apply (IH kv Hkv), (Hd kv Hkv).
Qed.

(** X16.  [convert_camel_to_snake_case] of [godot_mcp.py], on a
    dictionary with ASCII keys: the keys of the result are distinct names
    in snake_case, and converting the result again changes nothing. *)
Theorem convert_is_idempotent :
  forall (d : list (string * pvalue)),
    ascii_keys (PDict d) = true ->
    (exists d',
        GodotMCP.convert_camel_to_snake_case (PDict d) = PDict d'
        /\ distinct (map fst d') = true
        /\ forallb (fun kv => snake_name (fst kv)) d' = true)
    /\ GodotMCP.convert_camel_to_snake_case
         (GodotMCP.convert_camel_to_snake_case (PDict d))
       = GodotMCP.convert_camel_to_snake_case (PDict d).
Proof.
  intros d H. split.
  - destruct (mcp_convert_keys d) as (d1 & Hc & Hnd & Hq).
    { pose proof (ascii_keys_dict d H) as Hd.
      eapply Forall_impl; [|exact Hd]. intros kv [Hk _]. exact Hk. }
    exists d1. split; [exact Hc|]. split.
    + clear - Hnd. induction (map fst d1) as [|k ks IH]; [reflexivity|].
      inversion Hnd; subst. cbn [distinct]. rewrite IH by assumption.
      rewrite mem_false by assumption. reflexivity.
    + apply forallb_forall. intros kv Hin. rewrite Forall_forall in Hq.
      apply (Hq kv Hin).
  - pose proof (mcp_convert_value_idem (PDict d) H) as Hi.
    cbn [mcp_convert_value] in Hi.
    rewrite mcp_convert_dict in Hi |- *. exact Hi.
Qed.

Lemma convert_is_idempotent_witness :
  GodotMCP.convert_camel_to_snake_case
    (GodotMCP.convert_camel_to_snake_case
       (PDict [("scenePath", PStr "main.tscn");
               ("meshItemNames", PList [PStr "Cube"; PDict [("itemName", PStr "Ball")]]);
               ("properties", PDict [("nodeName", PStr "Player")])]))
  = GodotMCP.convert_camel_to_snake_case
      (PDict [("scenePath", PStr "main.tscn");
              ("meshItemNames", PList [PStr "Cube"; PDict [("itemName", PStr "Ball")]]);
              ("properties", PDict [("nodeName", PStr "Player")])]).
Proof.
  exact (proj2 (convert_is_idempotent
                  [("scenePath", PStr "main.tscn");
                   ("meshItemNames", PList [PStr "Cube"; PDict [("itemName", PStr "Ball")]]);
                   ("properties", PDict [("nodeName", PStr "Player")])] eq_refl)).
Defined.

(** ** The project name in [project.godot] *)

Lemma prefix_inv : forall p s, String.prefix p s = true -> exists r, s = p ++ r.
Proof.
  induction p as [|c p IH]; intros s H; [exists s; reflexivity|].
  destruct s as [|c' s]; [discriminate H|]. cbn [String.prefix] in H.
  destruct (ascii_dec c c') as [<-|]; [|discriminate H].
  destruct (IH s H) as [r ->]. exists r. reflexivity.
Qed.

Lemma substring_app_drop : forall p r,
  substring (String.length p) (String.length (p ++ r) - String.length p) (p ++ r) = r.
Proof.
  induction p as [|c p IH]; intro r; cbn [String.length String.append substring].
  - rewrite Nat.sub_0_r. clear. induction r as [|c r IH]; [reflexivity|].
    cbn [String.length substring]. now rewrite IH.
  - apply IH.
Qed.

Lemma mcp_config_name_step : forall line rest pn,
  GodotMCPTools.config_name (line :: rest) pn
  = match name_value line with
    | None => GodotMCPTools.config_name rest pn
    | Some nv =>
        if quoted nv then GodotMCPTools.config_name rest (slice_1_m1 nv) else nv
    end.
Proof.
  intros line rest pn. cbn [GodotMCPTools.config_name]. unfold name_value. cbv zeta.
  destruct (Py.startswith (Py.strip line) "config/name=") eqn:Hs; [|reflexivity].
  destruct (prefix_inv _ _ Hs) as [r Hr]. rewrite Hr.
  pose proof (substring_app_drop "config/name=" r) as Hd.
  change (String.length "config/name=") with 12 in Hd. rewrite Hd.
  change (split_once "=" ("config/name=" ++ r)) with ["config/name"; r].
  reflexivity.
Qed.

Lemma server_config_name_step : forall line rest pn,
  GodotServerTools.config_name (line :: rest) pn
  = match name_value line with
    | Some nv => if quoted nv then slice_1_m1 nv
                 else GodotServerTools.config_name rest pn
    | None => GodotServerTools.config_name rest pn
    end.
Proof.
  intros line rest pn. cbn [GodotServerTools.config_name]. unfold name_value. cbv zeta.
  destruct (Py.startswith (Py.strip line) "config/name=") eqn:Hs; [|reflexivity].
  destruct (prefix_inv _ _ Hs) as [r Hr]. rewrite Hr.
  pose proof (substring_app_drop "config/name=" r) as Hd.
  change (String.length "config/name=") with 12 in Hd. rewrite Hd.
  change (split_once "=" ("config/name=" ++ r)) with ["config/name"; r].
  reflexivity.
Qed.

Lemma mcp_config_name_quoted_prefix : forall pre rest pn,
  Forall (fun l => match name_value l with
                   | Some v => quoted v = true
                   | None => True
                   end) pre ->
  exists pn', GodotMCPTools.config_name (pre ++ rest) pn
              = GodotMCPTools.config_name rest pn'.
Proof.
  induction pre as [|l pre IH]; intros rest pn H; [exists pn; reflexivity|].
  inversion H as [|? ? Hl Hpre]; subst. cbn [app]. rewrite mcp_config_name_step.
  destruct (name_value l) as [v|]; [rewrite Hl|]; apply IH, Hpre.
Qed.

Lemma mcp_config_name_none : forall lines pn,
  Forall (fun l => name_value l = None) lines ->
  GodotMCPTools.config_name lines pn = pn.
Proof.
  induction lines as [|l lines IH]; intros pn H; [reflexivity|].
  inversion H as [|? ? Hl Hrest]; subst. rewrite mcp_config_name_step, Hl.
  apply IH, Hrest.
Qed.

(** X20.  The project name [get_project_info] of [godot_mcp.py] reads
    from the lines of [project.godot]: the default when no line sets
    [config/name]; the value of the first such line whose value is not in
    double quotes; and, the scan going on after a quoted value, the last
    quoted value, without its quotes, when no unquoted one follows. *)
Theorem mcp_project_name_scan :
  forall (default : string),
    (forall lines,
        Forall (fun l => name_value l = None) lines ->
        GodotMCPTools.config_name lines default = default)
    /\ (forall pre line post nv,
           Forall (fun l => match name_value l with
                            | Some v => quoted v = true
                            | None => True
                            end) pre ->
           name_value line = Some nv ->
           (quoted nv = false ->
            GodotMCPTools.config_name (pre ++ line :: post) default = nv)
           /\ (quoted nv = true ->
               Forall (fun l => name_value l = None) post ->
               GodotMCPTools.config_name (pre ++ line :: post) default
               = slice_1_m1 nv)).
Proof.
  intro default. split; [intro lines; apply mcp_config_name_none|].
  intros pre line post nv Hpre Hline.
  destruct (mcp_config_name_quoted_prefix pre (line :: post) default Hpre) as [pn' ->].
  rewrite mcp_config_name_step, Hline. split.
  - intros ->. reflexivity.
  - intros -> Hpost. now apply mcp_config_name_none.
Qed.

Lemma mcp_project_name_scan_witness :
  GodotMCPTools.config_name example_lines "root" = "Second".
Proof.
  refine (proj2 (proj2 (mcp_project_name_scan "root")
                   ["[application]" ++ nl; "config/name=" ++ dq ++ "First" ++ dq ++ nl]
                   ("config/name=" ++ dq ++ "Second" ++ dq ++ nl)
                   ["run/main_scene=" ++ dq ++ "res://main.tscn" ++ dq ++ nl]
                   (dq ++ "Second" ++ dq) _ eq_refl) eq_refl _).
  - repeat constructor.
  - repeat constructor.
Defined.

Lemma server_config_name_unquoted : forall lines pn,
  Forall (fun l => match name_value l with
                   | Some v => quoted v = false
                   | None => True
                   end) lines ->
  GodotServerTools.config_name lines pn = pn.
Proof.
  induction lines as [|l lines IH]; intros pn H; [reflexivity|].
  inversion H as [|? ? Hl Hrest]; subst. rewrite server_config_name_step.
  destruct (name_value l) as [v|]; [rewrite Hl|]; apply IH, Hrest.
Qed.

(** X21.  The project name [handle_get_project_info] of [save_godot.py]
    reads from the lines of [project.godot]: only a value in double quotes
    counts, and the first one ends the scan; without one the default
    stays. *)
Theorem server_project_name_scan :
  forall (default : string),
    (forall lines,
        Forall (fun l => match name_value l with
                         | Some v => quoted v = false
                         | None => True
                         end) lines ->
        GodotServerTools.config_name lines default = default)
    /\ (forall pre line post nv,
           Forall (fun l => match name_value l with
                            | Some v => quoted v = false
                            | None => True
                            end) pre ->
           name_value line = Some nv ->
           quoted nv = true ->
           GodotServerTools.config_name (pre ++ line :: post) default = slice_1_m1 nv).
Proof.
  intro default. split; [intro lines; apply server_config_name_unquoted|].
  intros pre line post nv Hpre Hline Hq.
  induction pre as [|l pre IH]; cbn [app].
  - now rewrite server_config_name_step, Hline, Hq.
  - inversion Hpre as [|? ? Hl Hrest]; subst. rewrite server_config_name_step.
    destruct (name_value l) as [v|]; [rewrite Hl|]; apply IH, Hrest.
Qed.

Lemma server_project_name_scan_witness :
  GodotServerTools.config_name example_lines "root" = "First".
Proof.
  refine (proj2 (server_project_name_scan "root")
            ["[application]" ++ nl]
            ("config/name=" ++ dq ++ "First" ++ dq ++ nl)
            ["config/name=" ++ dq ++ "Second" ++ dq ++ nl;
             "run/main_scene=" ++ dq ++ "res://main.tscn" ++ dq ++ nl]
            (dq ++ "First" ++ dq) _ eq_refl eq_refl).
  repeat constructor.
Defined.

(** ** Counting the files of a project *)

Lemma structure_eq : forall a b,
  scenes a = scenes b -> scripts a = scripts b -> assets a = assets b ->
  other a = other b -> a = b.
Proof. intros [] []; cbn; intros; subst; reflexivity. Qed.

Ltac structure_arith :=
  apply structure_eq; cbn [add_structure scenes scripts assets other]; lia.

Lemma count_file_add : forall file st,
  GodotMCPTools.count_file file st
  = add_structure st (GodotMCPTools.count_file file (mkStructure 0 0 0 0)).
Proof.
  intros file st. unfold GodotMCPTools.count_file.
  repeat match goal with
         | |- context [if ?c then _ else _] => destruct c
         end; structure_arith.
Qed.

Lemma count_files_add : forall files st,
  count_files files st = add_structure st (count_files files (mkStructure 0 0 0 0)).
Proof.
  unfold count_files.
  induction files as [|f files IH]; intro st; cbn [fold_left]; [structure_arith|].
  rewrite IH, (IH (GodotMCPTools.count_file f _)), (count_file_add f st).
  structure_arith.
Qed.

Lemma count_triples_add : forall triples st,
  count_triples triples st
  = add_structure st (count_triples triples (mkStructure 0 0 0 0)).
Proof.
  unfold count_triples.
  induction triples as [|[[r d] f] triples IH]; intro st; cbn [fold_left];
    [structure_arith|].
  rewrite IH, (IH (count_files f _)), (count_files_add f st). structure_arith.
Qed.

Lemma count_triples_app : forall t1 t2 st,
  count_triples (t1 ++ t2) st = count_triples t2 (count_triples t1 st).
Proof. intros. unfold count_triples. apply fold_left_app. Qed.

Lemma node_nested_ind (P : node -> Prop) :
  P File ->
  (forall es, Forall (fun e => P (snd e)) es -> P (Dir es)) ->
  forall n, P n.
Proof.
  intros Hf Hd. fix IH 1. intros [|es]; [exact Hf|].
  apply Hd. induction es as [|[k x] es IHes]; constructor; [apply IH|exact IHes].
Qed.

Lemma count_triples_cons : forall r d f triples st,
  count_triples ((r, d, f) :: triples) st = count_triples triples (count_files f st).
Proof. reflexivity. Qed.

Lemma file_names_cons_file : forall name es,
  file_names ((name, File) :: es) = name :: file_names es.
Proof. reflexivity. Qed.

Lemma file_names_cons_dir : forall name es' es,
  file_names ((name, Dir es') :: es) = file_names es.
Proof. reflexivity. Qed.

Lemma walk_counts_tree : forall n top,
  count_triples (walk_node (fun d => negb (hidden d)) top n) (mkStructure 0 0 0 0)
  = tree_count n.
Proof.
  induction n as [|es IH] using node_nested_ind; intro top; [reflexivity|].
  cbn [walk_node tree_count]. rewrite count_triples_cons, count_triples_add.
  induction es as [|[name child] es IHes].
  - reflexivity.
  - inversion IH as [|? ? Hchild Hrest]; subst. cbn [snd] in Hchild.
    specialize (IHes Hrest). rewrite count_triples_app.
    rewrite (count_triples_add _ (count_triples _ _)).
    destruct child as [|es'].
    + rewrite file_names_cons_file. cbn [is_dir andb app].
      unfold count_files at 1. cbn [fold_left]. fold (count_files (file_names es)).
      rewrite count_files_add.
      change (count_triples [] (mkStructure 0 0 0 0)) with (mkStructure 0 0 0 0).
      rewrite <- IHes. structure_arith.
    + rewrite file_names_cons_dir. cbn [is_dir andb].
      destruct (hidden name); cbn [negb].
      * change (count_triples [] (mkStructure 0 0 0 0)) with (mkStructure 0 0 0 0).
        rewrite <- IHes. structure_arith.
      * rewrite Hchild, <- IHes. structure_arith.
Qed.

(** X22.  [get_project_structure] of [godot_mcp.py] always returns, and
    its counters are those of the tree under [project_path]: the files of
    hidden directories, hidden files, [.import] files and [project.godot]
    count nowhere; a path that names no directory gives four zeros. *)
Theorem project_structure_counts_tree :
  forall (E : env) (project_path : string) (s : state),
    GodotMCPTools.get_project_structure E project_path s
    = (Return match lookup_path E project_path with
              | Some n => tree_count n
              | None => mkStructure 0 0 0 0
              end,
       add_event (EvWalk project_path) s).
Proof.
  intros E project_path s.
  unfold GodotMCPTools.get_project_structure, os_walk. run_monad.
  f_equal. f_equal.
  destruct (lookup_path E project_path) as [[|es]|]; try reflexivity.
  apply (walk_counts_tree (Dir es)).
Qed.

(** ** Saving a scene *)

(** X24.  [save_scene] hands the engine [scenePath] as given and, when
    there is a [newPath], the new path with [.tscn] appended unless its
    lower-cased form already ends in it; without one the parameters hold
    no [newPath]. *)
Theorem save_scene_extension :
  forall (E : env) (s : state) (projectPath scenePath : string)
         (newPath : option string),
    PosixPath.isabs (cwd E) = true ->
    Py.falsy projectPath = false ->
    validate_path scenePath = true ->
    match newPath with Some np => validate_path np = true | None => True end ->
    no_godot_path s = false ->
    let abs := PosixPath.abspath (cwd E) projectPath in
    lookup_path E (PosixPath.join abs "project.godot") <> None ->
    lookup_path E (PosixPath.join abs scenePath) <> None ->
    exists rest,
      trace (snd (GodotMCPTools.save_scene E projectPath scenePath newPath s))
      = (trace s
           ++ [EvExists (PosixPath.join abs "project.godot");
               EvExists (PosixPath.join abs scenePath);
               EvRun SiteOperation (List.length (procs s))
                 (operation_command E (the_godot_path s) "save_scene"
                    (("scenePath", PStr scenePath)
                       :: match newPath with
                          | Some np =>
                              [("newPath",
                                PStr (if Py.endswith (Py.lower np) ".tscn"
                                      then np else np ++ ".tscn"))]
                          | None => []
                          end) abs)
                 (Some 60)]
           ++ rest)%list.
Proof.
  intros E s projectPath scenePath newPath Hcwd Hproj Hscene Hnew Hgp abs Hmarker Hfile.
  pose proof (validate_path_abspath (cwd E) projectPath Hcwd) as Habs.
  pose proof (validate_path_not_falsy _ Hscene) as Hsne.
  fold abs in Habs.
  unfold GodotMCPTools.save_scene. rewrite Hproj, Hsne. cbn [orb]. cbv zeta.
  fold abs. rewrite Habs, Hscene. cbn [negb orb].
  assert (Hnv : negb (missing newPath) && negb (validate_path (arg newPath)) = false).
  { destruct newPath as [np|]; [|reflexivity]. cbn [missing arg].
    rewrite Hnew. now rewrite andb_false_r. }
  rewrite Hnv.
  rewrite try_pure_snd
    by (intros e s0; destruct (is_FileNotFoundError e); reflexivity).
  unfold GodotMCP.require_project, os_path_exists.
  cbv [bind log modify ret raise]. cbn [fst snd].
  destruct (lookup_path E (PosixPath.join abs "project.godot")); [|contradiction].
  destruct (lookup_path E (PosixPath.join abs scenePath)); [|contradiction].
  cbn [negb].
  match goal with
  | |- context [GodotMCP.execute_operation E ?op ?ps ?pp ?st] =>
      assert (Hps : ps = (("scenePath", PStr scenePath)
                            :: match newPath with
                               | Some np =>
                                   [("newPath",
                                     PStr (if Py.endswith (Py.lower np) ".tscn"
                                           then np else np ++ ".tscn"))]
                               | None => []
                               end))
  end.
  { destruct newPath as [np|]; [|reflexivity]. cbn [missing arg].
    pose proof (validate_path_not_falsy _ Hnew) as Hne. rewrite Hne. cbn [negb andb].
    destruct (Py.endswith (Py.lower np) ".tscn"); cbn [negb missing arg].
    - rewrite Hne. reflexivity.
    - assert (Hf : Py.falsy (np ++ ".tscn") = false) by (destruct np; [discriminate Hne|reflexivity]).
      rewrite Hf. reflexivity. }
  rewrite Hps.
  match goal with
  | |- context [GodotMCP.execute_operation E ?op ?ps ?pp ?st] =>
      destruct (mcp_execute_operation_trace E op ps pp st Hgp) as [rest Hrest];
      destruct (GodotMCP.execute_operation E op ps pp st) as [[r|e|] s3]
  end; cbn [fst snd] in *.
  - exists rest.
    match goal with |- trace ?t = _ => assert (Ht : t = s3) end.
    { destruct (GodotMCP.stderr_reports (snd r) "failed"); [reflexivity|].
      destruct (Py.contains (fst r) "Failed to save scene"
                || Py.contains (fst r) "Cannot create file"); reflexivity. }
    rewrite Ht, Hrest. cbn [trace add_event]. rewrite <- !app_assoc. reflexivity.
  - exists rest. rewrite Hrest. cbn [trace add_event]. rewrite <- !app_assoc. reflexivity.
  - exists rest. rewrite Hrest. cbn [trace add_event]. rewrite <- !app_assoc. reflexivity.
Qed.

Lemma save_scene_extension_witness :
  exists rest,
    trace (snd (GodotMCPTools.save_scene example_env "/root" "main.tscn" (Some "copy")
                  example_state))
    = ([EvExists "/root/project.godot";
        EvExists "/root/main.tscn";
        EvRun SiteOperation 0
          (operation_command example_env "/usr/bin/godot" "save_scene"
             [("scenePath", PStr "main.tscn"); ("newPath", PStr "copy.tscn")] "/root")
          (Some 60)] ++ rest)%list.
Proof.
  assert (Hm : lookup_path example_env
                 (PosixPath.join (PosixPath.abspath (cwd example_env) "/root")
                    "project.godot") <> None)
    by (vm_compute; discriminate).
  assert (Hf : lookup_path example_env
                 (PosixPath.join (PosixPath.abspath (cwd example_env) "/root")
                    "main.tscn") <> None)
    by (vm_compute; discriminate).
  destruct (save_scene_extension example_env example_state "/root" "main.tscn"
              (Some "copy") eq_refl eq_refl eq_refl eq_refl eq_refl Hm Hf)
    as [rest Hrest].
  exists rest. exact Hrest.
Defined.

(** ** Loading a sprite *)

(** X25.  How [load_sprite] reports what the engine wrote on stderr: a
    node that is not found is a [ValueError] inside the [try], which the
    generic handler turns into a [RuntimeError]; an incompatible node is a
    [TypeError], re-raised as it is. *)
Theorem load_sprite_error_reporting :
  forall (E : env) (projectPath scenePath nodePath texturePath : string) (s : state)
         (d : nat) (rc : Z) (out err : string),
    PosixPath.isabs (cwd E) = true ->
    Py.falsy projectPath = false ->
    Py.falsy nodePath = false ->
    validate_path scenePath = true ->
    validate_path texturePath = true ->
    no_godot_path s = false ->
    let abs := PosixPath.abspath (cwd E) projectPath in
    lookup_path E (PosixPath.join abs "project.godot") <> None ->
    lookup_path E (PosixPath.join abs scenePath) <> None ->
    lookup_path E (PosixPath.join abs texturePath) <> None ->
    (forall cmd, run_oracle E (List.length (procs s)) cmd = RunExits d rc out err) ->
    d <= 60 ->
    GodotMCP.stderr_reports err "failed" = true ->
    let r := fst (GodotMCPTools.load_sprite E projectPath scenePath nodePath texturePath s) in
    (Py.contains err "Node not found" = true ->
     r = Raise (PyExn RuntimeError
                  ("Failed to load sprite: Node not found at path: '" ++ nodePath
                     ++ "'. Godot stderr: " ++ Py.strip err)))
    /\ (Py.contains err "Node not found" = false ->
        Py.contains err "is not a Sprite" || Py.contains err "is not a TextureRect" = true ->
        r = Raise (PyExn TypeError
                     ("Node '" ++ nodePath
                        ++ "' is not a compatible type (Sprite2D, Sprite3D, TextureRect). Godot stderr: "
                        ++ Py.strip err))).
Proof.
  intros E projectPath scenePath nodePath texturePath s d rc out err
         Hcwd Hp Hn Hsc Htx Hgp abs Hm Hs Ht Hrun Hd Herr r.
  pose proof (validate_path_abspath _ projectPath Hcwd) as Hv. fold abs in Hv.
  pose proof (validate_path_not_falsy _ Hsc) as Hsne.
  pose proof (validate_path_not_falsy _ Htx) as Htne.
  assert (Hlt : (60 <? d)%nat = false) by (apply Nat.ltb_ge; exact Hd).
  destruct s as [a o e q1 q2 [gp|] ps tr]; [|discriminate Hgp].
  cbn [no_godot_path godot_path] in Hgp. cbn [procs] in Hrun.
  assert (Hr : r = match (if Py.contains err "Node not found" then 0
                          else if Py.contains err "is not a Sprite"
                                  || Py.contains err "is not a TextureRect" then 1 else 2)
                   with
                   | 0 => Raise (PyExn RuntimeError
                             ("Failed to load sprite: Node not found at path: '" ++ nodePath
                                ++ "'. Godot stderr: " ++ Py.strip err))
                   | 1 => Raise (PyExn TypeError
                             ("Node '" ++ nodePath
                                ++ "' is not a compatible type (Sprite2D, Sprite3D, TextureRect). Godot stderr: "
                                ++ Py.strip err))
                   | _ => r
                   end).
  { subst r. unfold GodotMCPTools.load_sprite. rewrite Hp, Hsne, Hn, Htne. cbn [orb].
    cbv zeta. fold abs. rewrite Hv, Hsc, Htx. cbn [negb orb].
    unfold GodotMCP.require_project, GodotMCP.execute_operation,
      GodotMCP.ensure_godot_path, os_path_exists, subprocess_run.
    run_monad. crunch3. rewrite ?Hgp. crunch3.
    destruct (lookup_path E (PosixPath.join abs "project.godot")); [|contradiction].
    destruct (lookup_path E (PosixPath.join abs scenePath)); [|contradiction].
    destruct (lookup_path E (PosixPath.join abs texturePath)); [|contradiction].
    crunch3. rewrite ?Hgp. crunch3. rewrite Hrun. crunch3. rewrite Hlt. crunch3.
    destruct (rc =? 0)%Z; crunch3; rewrite Herr; crunch3;
      destruct (Py.contains err "Node not found"); crunch3; try reflexivity;
      destruct (Py.contains err "is not a Sprite" || Py.contains err "is not a TextureRect");
      reflexivity. }
  split.
  - intro H1. rewrite H1 in Hr. exact Hr.
  - intros H1 H2. rewrite H1, H2 in Hr. exact Hr.
Qed.

Lemma load_sprite_error_reporting_witness :
  fst (GodotMCPTools.load_sprite (complaining_env "ERROR: Node is not a Sprite2D")
         "/game" "main.tscn" "root/Player" "icon.png" example_state)
  = Raise (PyExn TypeError
             "Node 'root/Player' is not a compatible type (Sprite2D, Sprite3D, TextureRect). Godot stderr: ERROR: Node is not a Sprite2D").
Proof.
  assert (Hm : lookup_path (complaining_env "ERROR: Node is not a Sprite2D")
                 (PosixPath.join
                    (PosixPath.abspath
                       (cwd (complaining_env "ERROR: Node is not a Sprite2D")) "/game")
                    "project.godot") <> None)
    by (vm_compute; discriminate).
  assert (Hs : lookup_path (complaining_env "ERROR: Node is not a Sprite2D")
                 (PosixPath.join
                    (PosixPath.abspath
                       (cwd (complaining_env "ERROR: Node is not a Sprite2D")) "/game")
                    "main.tscn") <> None)
    by (vm_compute; discriminate).
  assert (Ht : lookup_path (complaining_env "ERROR: Node is not a Sprite2D")
                 (PosixPath.join
                    (PosixPath.abspath
                       (cwd (complaining_env "ERROR: Node is not a Sprite2D")) "/game")
                    "icon.png") <> None)
    by (vm_compute; discriminate).
  assert (Hd : 1 <= 60) by lia.
  pose proof (load_sprite_error_reporting
                (complaining_env "ERROR: Node is not a Sprite2D")
                "/game" "main.tscn" "root/Player" "icon.png" example_state
                1 1%Z EmptyString "ERROR: Node is not a Sprite2D"
                eq_refl eq_refl eq_refl eq_refl eq_refl eq_refl
                Hm Hs Ht
                (fun _ => eq_refl) Hd eq_refl) as H.
  cbv zeta in H. destruct H as [_ H]. rewrite (H eq_refl eq_refl). reflexivity.
Defined.

(** ** The editor *)

Lemma status_of_update_neq : forall s p q f,
  p <> q -> status_of q (set_procs (update_nth p f (procs s)) s) = status_of q s.
Proof.
  intros s p q f Hne. unfold status_of, get_proc. cbn [procs set_procs].
  now rewrite nth_error_update_nth_neq.
Qed.

(** [cleanup] leaves every child but the one behind the handle as it
    is. *)
Lemma mcp_cleanup_other : forall s q,
  active_process s <> Some q ->
  status_of q (snd (GodotMCP.cleanup s)) = status_of q s.
Proof.
  intros s q Hq. unfold GodotMCP.cleanup. run_monad.
  destruct (active_process s) as [p|] eqn:Ha; [|reflexivity].
  assert (Hne : p <> q) by congruence.
  destruct (nth_error (procs s) p) as [x|] eqn:Hx; crunch; [|reflexivity].
  destruct (p_status x) eqn:Hst; crunch; [|reflexivity].
  rewrite (nth_error_update_nth_eq set_signalled _ _ _ Hx). crunch. rewrite Hst.
  destruct (p_term x) as [[d rc]|]; crunch.
  - destruct (d <=? 5)%nat; crunch.
    + unfold status_of, get_proc. crunch.
      now rewrite !nth_error_update_nth_neq.
    + rewrite (nth_error_update_nth_eq set_signalled _ _ _ Hx). crunch. rewrite Hst.
      crunch. unfold status_of, get_proc. crunch.
      now rewrite !nth_error_update_nth_neq.
  - rewrite (nth_error_update_nth_eq set_signalled _ _ _ Hx). crunch. rewrite Hst.
    crunch. unfold status_of, get_proc. crunch.
    now rewrite !nth_error_update_nth_neq.
Qed.

Lemma mcp_stop_other : forall s q,
  active_process s <> Some q ->
  status_of q (snd (GodotMCP.stop_project s)) = status_of q s.
Proof.
  intros s q Hq. unfold GodotMCP.stop_project. cbv [bind get].
  destruct (active_process s) as [p|] eqn:Ha; [|reflexivity].
  rewrite poll_run. cbn [fst snd].
  assert (H : forall s0 : state, active_process s0 = Some p -> procs s0 = procs s ->
              forall (k : unit -> M stop_output),
                (forall u s1, snd (k u s1) = s1) ->
                status_of q (snd (let (o, s') := GodotMCP.cleanup s0 in
                                  match o with
                                  | Return a => k a s'
                                  | Raise e => (Raise e, s')
                                  | Diverge => (Diverge, s')
                                  end)) = status_of q s).
  { intros s0 Ha0 Hp0 k Hk.
    pose proof (mcp_cleanup_other s0 q) as Hc.
    rewrite Ha0 in Hc. specialize (Hc ltac:(congruence)).
    destruct (GodotMCP.cleanup s0) as [[u|e|] s1]; cbn [snd] in *; rewrite ?Hk, Hc;
      unfold status_of, get_proc; now rewrite Hp0. }
  destruct (alive (status_of p s)); cbn beta iota; rewrite read_queues_run;
    cbn [fst snd]; apply H;
    try (destruct s; cbn in *; assumption); try reflexivity.
Qed.

(** X26.  The editor [launch_editor] starts is a child the manager keeps
    no handle of: the session is left as it was, and neither [cleanup] nor
    [stop_project] ends the editor. *)
Theorem launch_editor_is_untracked :
  forall (E : env) (projectPath : string) (scene : option string) (s : state),
    PosixPath.isabs (cwd E) = true ->
    Py.falsy projectPath = false ->
    no_godot_path s = false ->
    (forall p, active_process s = Some p -> p < List.length (procs s)) ->
    let abs := PosixPath.abspath (cwd E) projectPath in
    let command := [the_godot_path s; "-e"; "--path"; abs] in
    let editor := List.length (procs s) in
    lookup_path E (PosixPath.join abs "project.godot") <> None ->
    sb_launch (spawn_oracle E editor command) = None ->
    let r := GodotMCPTools.launch_editor E projectPath scene s in
    fst r = Return ("Godot editor launch initiated for project at " ++ abs ++ ".")
    /\ active_process (snd r) = active_process s
    /\ trace (snd r)
       = (trace s ++ [EvExists (PosixPath.join abs "project.godot");
                      EvPopen editor command (live_pids 0 (procs s))])%list
    /\ status_of editor (snd r) = Alive
    /\ status_of editor (snd (GodotMCP.cleanup (snd r))) = Alive
    /\ status_of editor (snd (GodotMCP.stop_project (snd r))) = Alive.
Proof.
  intros E projectPath scene s Hcwd Hp Hgp Hh abs command editor Hm Hl r.
  pose proof (validate_path_abspath _ projectPath Hcwd) as Hv. fold abs in Hv.
  assert (Hr : r = (Return ("Godot editor launch initiated for project at " ++ abs ++ "."),
                    set_procs (procs s ++ [mkProc command Alive false
                                             (sb_term (spawn_oracle E editor command))])%list
                      (add_event (EvPopen editor command (live_pids 0 (procs s)))
                         (add_event (EvExists (PosixPath.join abs "project.godot")) s)))).
  { subst r. unfold GodotMCPTools.launch_editor. rewrite Hp. cbv zeta. fold abs.
    rewrite Hv. cbn [negb].
    unfold GodotMCP.ensure_godot_path, GodotMCP.require_project, os_path_exists, popen.
    run_monad. rewrite Hgp. cbn [fst snd].
    destruct (lookup_path E (PosixPath.join abs "project.godot")); [|contradiction].
    cbn [negb fst snd procs add_event].
    assert (Hgp' : the_godot_path (add_event (EvExists (PosixPath.join abs "project.godot")) s)
                   = the_godot_path s) by reflexivity.
    rewrite Hgp'. fold command. fold editor. rewrite Hl. reflexivity. }
  rewrite Hr. cbn [fst snd].
  assert (Hst : status_of editor
                  (set_procs (procs s ++ [mkProc command Alive false
                                            (sb_term (spawn_oracle E editor command))])%list
                     (add_event (EvPopen editor command (live_pids 0 (procs s)))
                        (add_event (EvExists (PosixPath.join abs "project.godot")) s)))
                = Alive).
  { unfold status_of, get_proc. cbn [procs set_procs].
    subst editor. rewrite nth_error_app2, Nat.sub_diag by lia. reflexivity. }
  assert (Hne : active_process s <> Some editor).
  { intro H. specialize (Hh _ H). subst editor. lia. }
  repeat split.
  - cbn [trace set_procs add_event]. now rewrite <- app_assoc.
  - exact Hst.
  - rewrite mcp_cleanup_other; [exact Hst|exact Hne].
  - rewrite mcp_stop_other; [exact Hst|exact Hne].
Qed.

Lemma launch_editor_is_untracked_witness :
  active_process (snd (GodotMCPTools.launch_editor example_env "/root" None running_state))
  = Some 0
  /\ status_of 1 (snd (GodotMCP.stop_project
                        (snd (GodotMCPTools.launch_editor example_env "/root" None
                                running_state))))
     = Alive.
Proof.
  assert (Hh : forall p, active_process running_state = Some p ->
                         p < List.length (procs running_state)).
  { intros p Hp. injection Hp as <-. cbn. lia. }
  assert (Hm : lookup_path example_env
                 (PosixPath.join (PosixPath.abspath (cwd example_env) "/root")
                    "project.godot") <> None)
    by (vm_compute; discriminate).
  pose proof (launch_editor_is_untracked example_env "/root" None running_state
                eq_refl eq_refl eq_refl Hh Hm eq_refl) as H.
  cbv zeta in H. destruct H as (_ & H2 & _ & _ & _ & H6).
  split; [exact H2|exact H6].
Defined.

(** ** Project information *)

Lemma terminates_version E : terminates (GodotMCP.get_godot_version E).
Proof.
  unfold GodotMCP.get_godot_version. apply terminates_try.
  - apply terminates_bind; [apply terminates_ensure|intros _].
    apply terminates_bind; [apply terminates_get|intro s].
    apply terminates_bind; [apply terminates_run_bounded|intro r]. apply terminates_ret.
  - intro e. apply terminates_if; apply terminates_raise.
Qed.

(** X27.  Once the marker file is there, [get_project_info] of
    [godot_mcp.py] returns whatever the engine does: a version that cannot
    be read becomes a text in the [godotVersion] field, beside the name
    read from [project.godot] and the counters of the tree. *)
Theorem project_info_survives_engine_failure :
  forall (E : env) (read_lines : string -> option (list string))
         (projectPath : string) (s : state),
    PosixPath.isabs (cwd E) = true ->
    Py.falsy projectPath = false ->
    let abs := PosixPath.abspath (cwd E) projectPath in
    let project_file := PosixPath.join abs "project.godot" in
    lookup_path E project_file <> None ->
    exists info s',
      GodotMCPTools.get_project_info E read_lines projectPath s = (Return info, s')
      /\ info_path info = abs
      /\ info_name info
         = match read_lines project_file with
           | Some lines => GodotMCPTools.config_name lines (PosixPath.basename abs)
           | None => PosixPath.basename abs
           end
      /\ info_structure info
         = inl match lookup_path E abs with
               | Some n => tree_count n
               | None => mkStructure 0 0 0 0
               end
      /\ match fst (GodotMCP.get_godot_version E
                      (add_event (EvExists project_file) s)) with
         | Return v => godotVersion info = v
         | Raise e => godotVersion info = "Error getting version: " ++ str_exn E e
         | Diverge => False
         end.
Proof.
  intros E read_lines projectPath s Hcwd Hp abs project_file Hm.
  pose proof (validate_path_abspath _ projectPath Hcwd) as Hv. fold abs in Hv.
  assert (mcp_structure_run :
            forall st, GodotMCPTools.get_project_structure E abs st
                       = (Return match lookup_path E abs with
                                 | Some n => tree_count n
                                 | None => mkStructure 0 0 0 0
                                 end,
                          add_event (EvWalk abs) st)).
  { intro st. unfold GodotMCPTools.get_project_structure, os_walk. run_monad.
    f_equal. f_equal. destruct (lookup_path E abs) as [[|es]|]; try reflexivity.
    apply (walk_counts_tree (Dir es)). }
  unfold GodotMCPTools.get_project_info. rewrite Hp. cbv zeta. fold abs.
  rewrite Hv. cbn [negb]. fold project_file.
  unfold os_path_exists. unfold try_except at 1. unfold bind at 1. unfold bind at 1.
  cbv [log modify ret]. cbn [fst snd].
  destruct (lookup_path E project_file); [|contradiction]. cbn [negb].
  unfold bind at 1. unfold try_except at 1.
  pose proof (terminates_version E (add_event (EvExists project_file) s)) as Ht.
  destruct (GodotMCP.get_godot_version E (add_event (EvExists project_file) s))
    as [[v|e|] s1]; cbn [fst] in *; [| |contradiction].
  - unfold bind at 1. unfold try_except at 1. unfold bind at 1.
    rewrite mcp_structure_run. cbv [ret].
    eexists _, _. split; [reflexivity|]. cbn [info_path info_name info_structure godotVersion].
    repeat split; reflexivity.
  - cbv [ret]. unfold bind at 1. unfold try_except at 1. unfold bind at 1.
    rewrite mcp_structure_run. cbv [ret].
    eexists _, _. split; [reflexivity|]. cbn [info_path info_name info_structure godotVersion].
    repeat split; reflexivity.
Qed.

Lemma project_info_survives_engine_failure_witness :
  exists info s',
    GodotMCPTools.get_project_info (complaining_env "no version")
      (fun _ => Some example_lines) "/game" example_state
    = (Return info, s')
    /\ info_name info = "Second"
    /\ info_structure info = inl (mkStructure 3 1 1 1).
Proof.
  assert (Hm : lookup_path (complaining_env "no version")
                 (PosixPath.join
                    (PosixPath.abspath (cwd (complaining_env "no version")) "/game")
                    "project.godot") <> None)
    by (vm_compute; discriminate).
  destruct (project_info_survives_engine_failure (complaining_env "no version")
              (fun _ => Some example_lines) "/game" example_state
              eq_refl eq_refl Hm)
    as (info & s' & Hr & _ & Hn & Hs & _).
  exists info, s'. split; [exact Hr|]. split.
  - rewrite Hn. reflexivity.
  - rewrite Hs. reflexivity.
Defined.

(** ** Finding the engine *)

Lemma dict_get_set_same {A} : forall (d : list (string * A)) k v,
  dict_get k (dict_set k v d) = Some v.
Proof.
  induction d as [|[k' v'] d IH]; intros k v; cbn [dict_set dict_get].
  - now rewrite String.eqb_refl.
  - destruct (String.eqb k' k) eqn:He; cbn [dict_get]; rewrite He; [reflexivity|apply IH].
Qed.

Lemma normpath_not_falsy : forall p, Py.falsy (PosixPath.normpath p) = false.
Proof.
  intro p. unfold PosixPath.normpath.
  destruct (Py.falsy p); [reflexivity|]. cbv zeta.
  match goal with |- Py.falsy (if Py.falsy ?x then _ else _) = false =>
    destruct (Py.falsy x) eqn:H; [reflexivity|exact H] end.
Qed.

(** One validation: it returns, leaves [godot_path] alone and records
    its verdict in the cache. *)
Lemma is_valid_spec : forall E path vp s,
  exists verdict vp' s',
    Resolver.is_valid_godot_path E path vp s = (Return (verdict, vp'), s')
    /\ godot_path s' = godot_path s
    /\ dict_get path vp' = Some verdict.
Proof.
  intros E path vp s. unfold Resolver.is_valid_godot_path.
  destruct (dict_get path vp) as [v|] eqn:Hc.
  - exists v, vp, s. repeat split. exact Hc.
  - unfold os_path_exists, subprocess_run. run_monad.
    destruct (negb (String.eqb (Py.lower path) "godot")); cbn [fst snd].
    + destruct (lookup_path E path); cbn [negb fst snd].
      * destruct (run_oracle E _ _) as [d rc out err| |e]; crunch.
        -- destruct (10 <? d)%nat; crunch.
           ++ eexists _, _, _. split; [reflexivity|]. split; [reflexivity|].
              apply dict_get_set_same.
           ++ destruct (rc =? 0)%Z; crunch;
                (eexists _, _, _; split; [reflexivity|]; split; [reflexivity|];
                 apply dict_get_set_same).
        -- eexists _, _, _. split; [reflexivity|]. split; [reflexivity|].
           apply dict_get_set_same.
        -- eexists _, _, _. split; [reflexivity|]. split; [reflexivity|].
           apply dict_get_set_same.
      * eexists _, _, _. split; [reflexivity|]. split; [reflexivity|].
        apply dict_get_set_same.
    + destruct (run_oracle E _ _) as [d rc out err| |e]; crunch.
      * destruct (10 <? d)%nat; crunch.
        -- eexists _, _, _. split; [reflexivity|]. split; [reflexivity|].
           apply dict_get_set_same.
        -- destruct (rc =? 0)%Z; crunch;
             (eexists _, _, _; split; [reflexivity|]; split; [reflexivity|];
              apply dict_get_set_same).
      * eexists _, _, _. split; [reflexivity|]. split; [reflexivity|].
        apply dict_get_set_same.
      * eexists _, _, _. split; [reflexivity|]. split; [reflexivity|].
        apply dict_get_set_same.
Qed.

(** X28.  The verdict of [is_valid_godot_path] on a path is computed
    once: the next call with the cache the first one left gives the same
    verdict and touches nothing. *)
Theorem validation_is_cached :
  forall (E : env) (path : string) (validated_paths : list (string * bool)) (s : state),
    exists verdict validated_paths',
      fst (Resolver.is_valid_godot_path E path validated_paths s)
      = Return (verdict, validated_paths')
      /\ Resolver.is_valid_godot_path E path validated_paths'
           (snd (Resolver.is_valid_godot_path E path validated_paths s))
         = (Return (verdict, validated_paths'),
            snd (Resolver.is_valid_godot_path E path validated_paths s)).
Proof.
  intros E path vp s.
  destruct (is_valid_spec E path vp s) as (v & vp' & s' & Hr & _ & Hc).
  exists v, vp'. rewrite Hr. cbn [fst snd]. split; [reflexivity|].
  unfold Resolver.is_valid_godot_path. rewrite Hc. reflexivity.
Qed.

Lemma try_paths_spec : forall E paths vp s,
  exists found vp' s',
    Resolver.try_paths E paths vp s = (Return (found, vp'), s')
    /\ if found then
         exists gp, godot_path s' = Some gp /\ Py.falsy gp = false
                    /\ dict_get gp vp' = Some true
       else godot_path s' = godot_path s.
Proof.
  intros E paths. induction paths as [|p paths IH]; intros vp s.
  - exists false, vp, s. split; reflexivity.
  - cbn [Resolver.try_paths]. cbv zeta. unfold bind at 1.
    destruct (is_valid_spec E (PosixPath.normpath p) vp s) as (v & vp1 & s1 & Hr & Hg & Hc).
    rewrite Hr. cbn [fst snd]. destruct v.
    + cbv [bind modify ret]. eexists true, _, _. split; [reflexivity|].
      exists (PosixPath.normpath p). cbn [godot_path set_godot_path].
      split; [reflexivity|]. split; [apply normpath_not_falsy|exact Hc].
    + destruct (IH vp1 s1) as (f & vp2 & s2 & Hr2 & Hpost). rewrite Hr2.
      exists f, vp2, s2. split; [reflexivity|].
      destruct f; [exact Hpost|]. now rewrite Hpost.
Qed.

Lemma search_spec : forall E GODOT_PATH home vp s,
  exists found vp' s',
    Resolver.search E GODOT_PATH home vp s = (Return (found, vp'), s')
    /\ if found then
         exists gp, godot_path s' = Some gp /\ Py.falsy gp = false
                    /\ dict_get gp vp' = Some true
       else True.
Proof.
  intros E GODOT_PATH home vp s. unfold Resolver.search.
  unfold bind at 1. cbv [get]. unfold bind at 1.
  assert (H1 : exists v vp1 s1,
             (if no_godot_path s then ret (false, vp)
              else Resolver.is_valid_godot_path E (the_godot_path s) vp) s
             = (Return (v, vp1), s1)
             /\ godot_path s1 = godot_path s
             /\ (v = true -> no_godot_path s = false
                             /\ dict_get (the_godot_path s) vp1 = Some true)).
  { destruct (no_godot_path s) eqn:Hn.
    - exists false, vp, s. split; [reflexivity|]. split; [reflexivity|discriminate].
    - destruct (is_valid_spec E (the_godot_path s) vp s) as (v & vp1 & s1 & Hr & Hg & Hc).
      exists v, vp1, s1. split; [exact Hr|]. split; [exact Hg|].
      intros ->. split; [reflexivity|exact Hc]. }
  destruct H1 as (v & vp1 & s1 & Hr & Hg & Hv). rewrite Hr. cbn [fst snd].
  destruct v.
  { exists true, vp1, s1. split; [reflexivity|].
    destruct (Hv eq_refl) as [Hn Hc]. unfold no_godot_path, the_godot_path in *.
    rewrite Hg. destruct (godot_path s) as [gp|]; [|discriminate Hn].
    exists gp. repeat split; assumption. }
  unfold bind at 1.
  destruct GODOT_PATH as [value|].
  - cbv zeta. unfold bind at 1.
    destruct (is_valid_spec E (PosixPath.normpath value) vp1 s1)
      as (v2 & vp2 & s2 & Hr2 & Hg2 & Hc2).
    rewrite Hr2. cbn [fst snd]. destruct v2.
    + cbv [bind modify ret]. cbn [fst snd]. eexists true, _, _. split; [reflexivity|].
      exists (PosixPath.normpath value). cbn [godot_path set_godot_path].
      split; [reflexivity|]. split; [apply normpath_not_falsy|exact Hc2].
    + cbv [ret]. cbn [fst snd].
      destruct (try_paths_spec E (Resolver.possible_paths home) vp2 s2)
        as (f & vp3 & s3 & Hr3 & Hpost).
      rewrite Hr3. exists f, vp3, s3. split; [reflexivity|].
      destruct f; [exact Hpost|exact I].
  - cbv [ret]. cbn [fst snd].
    destruct (try_paths_spec E (Resolver.possible_paths home) vp1 s1)
      as (f & vp3 & s3 & Hr3 & Hpost).
    rewrite Hr3. exists f, vp3, s3. split; [reflexivity|].
    destruct f; [exact Hpost|exact I].
Qed.

Lemma detect_sync_spec : forall E GODOT_PATH home strict vp s,
  exists after s',
    Resolver.detect_godot_path_sync E GODOT_PATH home strict vp s = (Return after, s')
    /\ match godot_path s' with
       | Some gp =>
           Py.falsy gp = false
           /\ (dict_get gp after = Some true
               \/ (strict = false /\ gp = "/usr/bin/godot"))
       | None => strict = true
       end.
Proof.
  intros E GODOT_PATH home strict vp s.
  destruct (search_spec E GODOT_PATH home vp s) as (f & vp1 & s1 & Hr & Hpost).
  unfold Resolver.detect_godot_path_sync. unfold bind at 1. rewrite Hr. cbn [fst snd].
  destruct f.
  - exists vp1, s1. split; [reflexivity|].
    destruct Hpost as (gp & -> & Hf & Hc). split; [exact Hf|now left].
  - destruct strict; cbv [bind modify ret]; eexists _, _; (split; [reflexivity|]);
      cbn [godot_path set_godot_path]; [reflexivity|].
    split; [reflexivity|]. right. split; reflexivity.
Qed.

(** X29.  The detection of [godot_mcp.py], on Linux, always returns.  The
    path it leaves is one the cache holds as valid, or, when nothing valid was
    found, the fallback [/usr/bin/godot]; only strict validation leaves no
    path.  Under [save_godot.py] strict validation raises instead. *)
Theorem detection_settles_path :
  forall (E : env) (GODOT_PATH : option string) (home : string) (strict : bool)
         (validated_paths : list (string * bool)) (s : state),
    let settled (after : list (string * bool)) (s' : state) :=
      match godot_path s' with
      | Some gp =>
          Py.falsy gp = false
          /\ (dict_get gp after = Some true
              \/ (strict = false /\ gp = "/usr/bin/godot"))
      | None => strict = true
      end in
    (exists after s',
        Resolver.detect_godot_path_sync E GODOT_PATH home strict validated_paths s
        = (Return after, s')
        /\ settled after s')
    /\ match Resolver.detect_godot_path E GODOT_PATH home strict validated_paths s with
       | (Return after, s') => godot_path s' <> None /\ settled after s'
       | (Raise e, _) =>
           strict = true
           /\ e = PyExn RuntimeError
                    "Could not find a valid Godot executable. Set GODOT_PATH or provide a valid path in config."
       | (Diverge, _) => False
       end.
Proof.
  intros E GODOT_PATH home strict vp s settled.
  split; [apply detect_sync_spec|].
  destruct (search_spec E GODOT_PATH home vp s) as (f & vp1 & s1 & Hr & Hpost).
  - unfold Resolver.detect_godot_path. unfold bind at 1. rewrite Hr. cbn [fst snd].
    destruct f.
    + cbv [ret]. unfold settled. destruct Hpost as (gp & -> & Hf & Hc).
      split; [discriminate|]. split; [exact Hf|now left].
    + destruct strict; cbv [bind modify ret raise]; [split; reflexivity|].
      unfold settled. cbn [godot_path set_godot_path].
      split; [discriminate|]. split; [reflexivity|]. right. split; reflexivity.
Qed.

(** X30.  A manager of [godot_mcp.py] that was constructed has an engine
    path; the construction fails only under strict validation, when no
    candidate is valid. *)
Theorem constructed_manager_has_a_path :
  forall (E : env) (GODOT_PATH : option string) (home : string) (strict : bool)
         (godotPath : option string) (s : state),
    match Resolver.init E GODOT_PATH home strict godotPath s with
    | (Return _, s') => no_godot_path s' = false
    | (Raise e, s') =>
        strict = true /\ godot_path s' = None
        /\ e = PyExn RuntimeError
                 "Failed to find a valid Godot executable path during initialization."
    | (Diverge, _) => False
    end.
Proof.
  intros E GODOT_PATH home strict godotPath s. unfold Resolver.init.
  unfold bind at 1.
  match goal with |- context [(if ?c then ?m1 else ?m2) s] =>
    assert (H0 : exists s0, (if c then m1 else m2) s = (Return tt, s0)) end.
  { destruct (negb (missing godotPath)); [|exists s; reflexivity].
    cbv zeta. unfold Resolver.is_valid_godot_path_sync, os_path_exists. run_monad.
    destruct (String.eqb _ "godot"); cbn [fst snd negb]; [eexists; reflexivity|].
    destruct (lookup_path E _); cbn [negb fst snd]; eexists; reflexivity. }
  destruct H0 as [s0 ->]. unfold bind at 1.
  destruct (detect_sync_spec E GODOT_PATH home strict [] s0) as (after & s1 & -> & Hpost).
  cbv [bind get]. unfold no_godot_path.
  destruct (godot_path s1) as [gp|] eqn:Hg.
  - destruct Hpost as [Hf _]. rewrite Hf. cbv [ret]. rewrite Hg. exact Hf.
  - subst strict. cbv [raise]. repeat split. exact Hg.
Qed.

(** ** Counting the files of a project under [save_godot.py] *)

Lemma server_count_file_add : forall file st,
  GodotServerTools.count_file file st
  = add_structure st (GodotServerTools.count_file file (mkStructure 0 0 0 0)).
Proof.
  intros file st. unfold GodotServerTools.count_file.
  repeat match goal with
         | |- context [if ?c then _ else _] => destruct c
         end; structure_arith.
Qed.

Lemma server_count_files_add : forall files st,
  server_count_files files st
  = add_structure st (server_count_files files (mkStructure 0 0 0 0)).
Proof.
  unfold server_count_files.
  induction files as [|f files IH]; intro st; cbn [fold_left]; [structure_arith|].
  rewrite IH, (IH (GodotServerTools.count_file f _)), (server_count_file_add f st).
  structure_arith.
Qed.

Lemma server_count_triples_add : forall triples st,
  server_count_triples triples st
  = add_structure st (server_count_triples triples (mkStructure 0 0 0 0)).
Proof.
  unfold server_count_triples.
  induction triples as [|[[r d] f] triples IH]; intro st; cbn [fold_left];
    [structure_arith|].
  rewrite IH. symmetry. rewrite IH. symmetry.
  destruct (Py.startswith (PosixPath.basename r) "."); [structure_arith|].
  rewrite (server_count_files_add f st). structure_arith.
Qed.

Lemma server_count_triples_app : forall t1 t2 st,
  server_count_triples (t1 ++ t2)%list st = server_count_triples t2 (server_count_triples t1 st).
Proof. intros. unfold server_count_triples. apply fold_left_app. Qed.

Lemma last_app_nonempty {A} : forall (l1 l2 : list A) d,
  l2 <> [] -> last (l1 ++ l2)%list d = last l2 d.
Proof.
  induction l1 as [|x l1 IH]; intros l2 d H; [reflexivity|].
  cbn [app]. specialize (IH l2 d H).
  destruct (l1 ++ l2)%list eqn:He; [|exact IH].
  destruct l1; [cbn in He; contradiction|discriminate He].
Qed.

Lemma has_slash_not_absolute : forall n, has_slash n = false -> Py.startswith n "/" = false.
Proof.
  intros [|c n] H; [reflexivity|]. cbn [has_slash] in H.
  apply orb_false_iff in H. destruct H as [Hc _].
  unfold Py.startswith. cbn [String.prefix].
  destruct (ascii_dec "/"%char c) as [<-|]; [discriminate Hc|reflexivity].
Qed.

Lemma basename_sep : forall a n,
  has_slash n = false -> PosixPath.basename (a ++ String "/" n) = n.
Proof.
  intros a n H. unfold PosixPath.basename.
  change PosixPath.sep with "/"%char. rewrite split_app_sep.
  rewrite last_app_nonempty by apply split_nonempty.
  change "/"%char with PosixPath.sep. now rewrite split_no_slash.
Qed.

Lemma basename_join : forall top n,
  has_slash n = false -> PosixPath.basename (PosixPath.join top n) = n.
Proof.
  intros top n H. unfold PosixPath.join.
  rewrite (has_slash_not_absolute n H).
  destruct (Py.falsy top) eqn:Hf; cbn [orb].
  - destruct top; [|discriminate Hf]. cbn [String.append].
    unfold PosixPath.basename. now rewrite split_no_slash.
  - destruct (Py.endswith top "/") eqn:He.
    + destruct (endswith_inv _ _ He) as [a ->]. rewrite string_app_assoc.
      cbn [String.append]. now apply basename_sep.
    + cbn [String.append]. now apply basename_sep.
Qed.

Lemma plain_names_inv : forall es,
  plain_names (Dir es) = true ->
  Forall (fun e => has_slash (fst e) = false /\ plain_names (snd e) = true) es.
Proof.
  induction es as [|[k x] es IH]; intro H; [constructor|].
  cbn [plain_names] in H. apply andb_true_iff in H. destruct H as [H Hr].
  apply andb_true_iff in H. destruct H as [Hk Hx]. apply negb_true_iff in Hk.
  constructor; [split; assumption|exact (IH Hr)].
Qed.

Lemma server_walk_counts_tree : forall n top,
  plain_names n = true ->
  server_count_triples (walk_node (fun _ => true) top n) (mkStructure 0 0 0 0)
  = server_tree_count (hidden (PosixPath.basename top)) n.
Proof.
  induction n as [|es IH] using node_nested_ind; intros top Hwf; [reflexivity|].
  pose proof (plain_names_inv es Hwf) as Hnames. clear Hwf.
  cbn [walk_node server_tree_count].
  unfold server_count_triples at 1. cbn [fold_left]. fold server_count_triples.
  unfold hidden at 1.
  set (skip := Py.startswith (PosixPath.basename top) ".").
  rewrite server_count_triples_add.
  induction es as [|[name child] es IHes].
  - destruct skip; reflexivity.
  - inversion IH as [|? ? Hchild Hrest]; subst. cbn [snd] in Hchild.
    inversion Hnames as [|? ? [Hname Hplain] Hnrest]; subst. cbn [fst snd] in *.
    specialize (IHes Hrest Hnrest). rewrite server_count_triples_app.
    rewrite (server_count_triples_add _ (server_count_triples _ _)).
    destruct child as [|es'].
    + rewrite file_names_cons_file. cbn [is_dir andb app].
      change (server_count_triples [] (mkStructure 0 0 0 0)) with (mkStructure 0 0 0 0).
      rewrite <- IHes. destruct skip; [structure_arith|].
      unfold server_count_files at 1. cbn [fold_left].
      fold (server_count_files (file_names es)).
      rewrite server_count_files_add. structure_arith.
    + rewrite file_names_cons_dir. cbn [is_dir andb].
      rewrite (Hchild _ Hplain), (basename_join top name Hname), <- IHes.
      destruct skip; structure_arith.
Qed.

(** X23.  [get_project_structure_async] of [save_godot.py] returns on a
    directory, without an error text.  It counts every file that is not
    hidden and whose directory is not hidden by name, also below a hidden
    directory; [.import] files and [project.godot] count as other files. *)
Theorem server_structure_counts_tree :
  forall (E : env) (project_path : string) (es : list (string * node)) (s : state),
    lookup_path E project_path = Some (Dir es) ->
    plain_names (Dir es) = true ->
    GodotServerTools.get_project_structure_async E project_path s
    = (Return (None,
               server_tree_count (hidden (PosixPath.basename project_path)) (Dir es)),
       add_event (EvWalk project_path) s).
Proof.
  intros E project_path es s Hl Hwf.
  unfold GodotServerTools.get_project_structure_async, os_walk. run_monad.
  rewrite Hl. f_equal. f_equal. f_equal.
  apply (server_walk_counts_tree (Dir es) project_path Hwf).
Qed.

Lemma server_structure_counts_tree_witness :
  fst (GodotServerTools.get_project_structure_async (complaining_env EmptyString)
         "/game" example_state)
  = Return (None, mkStructure 3 1 1 4).
Proof.
  rewrite (server_structure_counts_tree (complaining_env EmptyString) "/game"
             [("project.godot", File);
              ("main.tscn", File);
              ("icon.png", File);
              ("icon.png.import", File);
              ("player.gd", File);
              ("notes.txt", File);
              (".gitignore", File);
              (".git", Dir [("config", File);
                            ("hooks", Dir [("pre-commit.sample", File)])]);
              ("levels", Dir [("one.tscn", File); ("two.TSCN", File)])]
             example_state eq_refl eq_refl).
  reflexivity.
Defined.

(** ** The errors of the scene tools *)

Lemma wraps_errors_validation {A} s msg :
  @wraps_errors A s (raise (PyExn ValueError msg) s).
Proof. split; [discriminate|]. intros e H. inversion H. reflexivity. Qed.

Lemma wraps_errors_try {A} (E : env) (m : M A) (prefix : string) s :
  terminates m ->
  wraps_errors s
    (try_except m
       (fun e => if is_FileNotFoundError e then raise e
                 else raise (PyExn RuntimeError (prefix ++ str_exn E e))) s).
Proof.
  intro Hm. split.
  - apply terminates_try; [exact Hm|]. intro e. apply terminates_if; apply terminates_raise.
  - intros e He. apply try_wraps_runtime in He.
    destruct e as [[] msg| |]; try discriminate He; exact I.
Qed.

Ltac term_step :=
  first [ apply terminates_ret | apply terminates_raise | apply terminates_get
        | apply terminates_exists | apply terminates_execute
        | apply terminates_require_project
        | apply terminates_if
        | apply terminates_bind; [|intro] ].

(** X8.  [create_scene], [add_node], [save_scene] and
    [export_mesh_library] of [godot_mcp.py] always come back, and raise
    nothing but [ValueError], [FileNotFoundError] and [RuntimeError]; a
    [ValueError] comes from the checks of the arguments and leaves the
    state, trace included, as it was. *)
Theorem tools_wrap_errors :
  forall (E : env) (s : state) (projectPath scenePath : string),
    (forall rootNodeType,
        wraps_errors s (GodotMCP.create_scene E projectPath scenePath rootNodeType s))
    /\ (forall nodeType nodeName parentNodePath properties,
           wraps_errors s
             (GodotMCPTools.add_node E projectPath scenePath nodeType nodeName
                parentNodePath properties s))
    /\ (forall newPath,
           wraps_errors s (GodotMCPTools.save_scene E projectPath scenePath newPath s))
    /\ (forall outputPath meshItemNames,
           wraps_errors s
             (GodotMCP.export_mesh_library E projectPath scenePath outputPath
                meshItemNames s)).
Proof.
  intros E s projectPath scenePath. split; [|split; [|split]].
  - intro rootNodeType. unfold GodotMCP.create_scene.
    destruct (_ || _); [apply wraps_errors_validation|]. cbv zeta.
    destruct (_ || _); [apply wraps_errors_validation|].
    apply wraps_errors_try. repeat term_step.
  - intros nodeType nodeName parentNodePath properties. unfold GodotMCPTools.add_node.
    destruct (_ || _); [apply wraps_errors_validation|]. cbv zeta.
    destruct (_ || _); [apply wraps_errors_validation|].
    apply wraps_errors_try. repeat term_step.
  - intro newPath. unfold GodotMCPTools.save_scene.
    destruct (_ || _); [apply wraps_errors_validation|]. cbv zeta.
    destruct (_ || _); [apply wraps_errors_validation|].
    destruct (_ && _); [apply wraps_errors_validation|].
    apply wraps_errors_try. repeat term_step.
  - intros outputPath meshItemNames. unfold GodotMCP.export_mesh_library.
    destruct (_ || _); [apply wraps_errors_validation|]. cbv zeta.
    destruct (_ || _); [apply wraps_errors_validation|].
    apply wraps_errors_try. repeat term_step.
Qed.
